(** * paps: pagination and column flow of [paps.c]

    A shallow embedding of the page-layout set-up of [main], of
    [split_paragraphs_into_lines], [output_pages] and of the drawing
    routines it calls ([start_page], [eject_page], [eject_column],
    [draw_line_to_page], [draw_page_header_line_to_page]), followed by the
    properties of the column flow; then of the way of the text into the
    flow ([read_file], [split_text_into_paragraphs]), of what goes around
    the pages ([print_postscript_header], [print_postscript_trailer]) and
    of the paper option ([_paps_arg_paper_cb]).

    C [int] values are integers of [Z] reduced to 32 bits by [CInt.wrap];
    C [double] values are the binary64 numbers of [PrimFloat]. *)

From Stdlib Require Import ZArith List Bool String Ascii Lia.
From Stdlib Require Import DecimalString.
From Stdlib Require Import PrimFloat Uint63 FloatOps SpecFloat.
Import ListNotations.
Local Open Scope Z_scope.

(* ================================================================= *)
(** ** Machine arithmetic *)

Module CInt.

Definition INT_MIN : Z := -2147483648.
Definition INT_MAX : Z := 2147483647.

Definition in_range (z : Z) : Prop := INT_MIN <= z <= INT_MAX.

(** Reduction to the 32-bit two's complement representative.  Signed
    overflow is undefined in C; the model takes the result the usual
    targets give. *)
Definition wrap (z : Z) : Z := (z + 2147483648) mod 4294967296 - 2147483648.

Definition add (a b : Z) : Z := wrap (a + b).
Definition sub (a b : Z) : Z := wrap (a - b).
Definition mul (a b : Z) : Z := wrap (a * b).

(** The divisions that have no result: by zero, and of [INT_MIN] by -1,
    whose quotient is no [int].  Both are undefined in C; the division
    instruction of the usual targets traps on both, and the program is
    killed (SIGFPE). *)
Definition div_traps (a b : Z) : bool :=
  (b =? 0) || ((a =? INT_MIN) && (b =? -1)).

(** [a / b] of C, which truncates toward zero, where the division has a
    result.  Where [div_traps] holds it has none, and the value of
    [div] says nothing: a division by anything but a positive constant
    goes through [checked_div]. *)
Definition div (a b : Z) : Z := wrap (Z.quot a b).

(** [a / b] of C with its failure. *)
Definition checked_div (a b : Z) : option Z :=
  if div_traps a b then None else Some (div a b).

Lemma wrap_in_range z : in_range (wrap z).
Proof.
  unfold in_range, wrap, INT_MIN, INT_MAX.
  pose proof (Z.mod_pos_bound (z + 2147483648) 4294967296 ltac:(lia)). lia.
Qed.

Lemma wrap_small z : in_range z -> wrap z = z.
Proof.
  unfold in_range, wrap, INT_MIN, INT_MAX. intros H.
  rewrite Z.mod_small by lia. lia.
Qed.

Lemma add_small a b : in_range (a + b) -> add a b = a + b.
Proof. apply wrap_small. Qed.

(** Where the division does not trap the quotient is an [int], and
    [div] is that quotient. *)
Lemma div_exact a b :
  in_range a -> div_traps a b = false -> div a b = Z.quot a b.
Proof.
  unfold div_traps, div. intros Ha Ht. apply wrap_small.
  unfold in_range, INT_MIN, INT_MAX in *.
  apply orb_false_iff in Ht. destruct Ht as [Hb Hm].
  apply Z.eqb_neq in Hb.
  destruct (Z.eq_dec b (-1)) as [->|Hb1].
  - rewrite Z.eqb_refl, andb_true_r in Hm. apply Z.eqb_neq in Hm.
    change (-1) with (- (1)). rewrite Z.quot_opp_r, Z.quot_1_r by lia.
    lia.
  - destruct (Z.eq_dec b 1) as [->|Hb2]; [rewrite Z.quot_1_r; lia|].
    assert (Z.abs (Z.quot a b) <= Z.abs a / 2);
      [|assert (Z.abs a / 2 <= 1073741824)
          by (apply Z.div_le_upper_bound; lia); lia].
    rewrite <- Z.quot_abs by exact Hb.
    rewrite Z.quot_div_nonneg by lia.
    apply Z.div_le_compat_l; lia.
Qed.

End CInt.

(** Inside [%cint] the operators are those of C on [int], at every depth
    of an expression. *)
Declare Scope cint_scope.
Delimit Scope cint_scope with cint.
Arguments CInt.add (a b)%_cint.
Arguments CInt.sub (a b)%_cint.
Arguments CInt.mul (a b)%_cint.
Arguments CInt.div (a b)%_cint.
Arguments CInt.div_traps (a b)%_cint.
Arguments CInt.checked_div (a b)%_cint.
Infix "+" := CInt.add : cint_scope.
Infix "-" := CInt.sub : cint_scope.
Infix "*" := CInt.mul : cint_scope.
Infix "/" := CInt.div : cint_scope.

Module CDouble.

(** Conversion of an [int] to [double]; exact on 32-bit values. *)
Definition of_int (z : Z) : float :=
  if z <? 0 then PrimFloat.opp (PrimFloat.of_uint63 (Uint63.of_Z (- z)))
  else PrimFloat.of_uint63 (Uint63.of_Z z).

(** The integer part of a finite [double]. *)
Definition truncate (f : float) : option Z :=
  match Prim2SF f with
  | S754_zero _ => Some 0
  | S754_finite s m e =>
      let v := if 0 <=? e then Z.pos m * 2 ^ e else Z.pos m / 2 ^ (- e) in
      Some (if s then - v else v)
  | S754_infinity _ => None
  | S754_nan => None
  end.

(** Conversion of a [double] to [int]: the fraction is dropped.  A value
    that does not fit is undefined in C; the model returns [INT_MIN], the
    result of the x86 conversion instruction. *)
Definition to_int (f : float) : Z :=
  match truncate f with
  | Some v => if (CInt.INT_MIN <=? v) && (v <=? CInt.INT_MAX) then v
              else CInt.INT_MIN
  | None => CInt.INT_MIN
  end.

End CDouble.

(* ================================================================= *)
(** ** Pango data, as far as [paps.c] looks into it *)

(** [PANGO_SCALE] of pango-types.h. *)
Definition PANGO_SCALE : Z := 1024.

Inductive PangoDirection : Type :=
| PANGO_DIRECTION_LTR
| PANGO_DIRECTION_RTL
| PANGO_DIRECTION_TTB_LTR
| PANGO_DIRECTION_TTB_RTL
| PANGO_DIRECTION_WEAK_LTR
| PANGO_DIRECTION_WEAK_RTL
| PANGO_DIRECTION_NEUTRAL.

Definition PangoDirection_eqb (a b : PangoDirection) : bool :=
  match a, b with
  | PANGO_DIRECTION_LTR, PANGO_DIRECTION_LTR
  | PANGO_DIRECTION_RTL, PANGO_DIRECTION_RTL
  | PANGO_DIRECTION_TTB_LTR, PANGO_DIRECTION_TTB_LTR
  | PANGO_DIRECTION_TTB_RTL, PANGO_DIRECTION_TTB_RTL
  | PANGO_DIRECTION_WEAK_LTR, PANGO_DIRECTION_WEAK_LTR
  | PANGO_DIRECTION_WEAK_RTL, PANGO_DIRECTION_WEAK_RTL
  | PANGO_DIRECTION_NEUTRAL, PANGO_DIRECTION_NEUTRAL => true
  | _, _ => false
  end.

Record PangoRectangle : Type := {
  rect_x : Z;
  rect_y : Z;
  rect_width : Z;
  rect_height : Z
}.

(** A shaped line: the text it shows and the two extents
    [pango_layout_line_get_extents] reports for it. *)
Record PangoLayoutLine : Type := {
  line_text : string;
  line_ink : PangoRectangle;
  line_logical : PangoRectangle
}.

Definition pango_layout_line_get_extents (line : PangoLayoutLine)
  : PangoRectangle * PangoRectangle :=
  (line_ink line, line_logical line).

(** A layout after line breaking is the list of its lines. *)
Definition PangoLayout : Type := list PangoLayoutLine.

Definition pango_layout_get_line_count (layout : PangoLayout) : Z :=
  Z.of_nat (List.length layout).

Definition null_rectangle : PangoRectangle :=
  {| rect_x := 0; rect_y := 0; rect_width := 0; rect_height := 0 |}.

Definition null_line : PangoLayoutLine :=
  {| line_text := EmptyString; line_ink := null_rectangle;
     line_logical := null_rectangle |}.

(** [pango_layout_get_line]; past the end Pango returns NULL, which the
    model renders as an empty line. *)
Definition pango_layout_get_line (layout : PangoLayout) (i : nat)
  : PangoLayoutLine :=
  nth i layout null_line.

(* ================================================================= *)
(** ** The structures of paps.c *)

Inductive paper_type_t : Type :=
| PAPER_TYPE_A4
| PAPER_TYPE_US_LETTER
| PAPER_TYPE_US_LEGAL.

Record paper_size_t : Type := {
  paper_width : float;
  paper_height : float
}.

(** The table [paper_sizes]; the two numbers of A4 are the doubles
    nearest to 595.28 and 841.89. *)
Definition paper_sizes (t : paper_type_t) : paper_size_t :=
  match t with
  | PAPER_TYPE_A4 =>
      {| paper_width := 0x1.29a3d70a3d70ap+9;
         paper_height := 0x1.a4f1eb851eb85p+9 |}
  | PAPER_TYPE_US_LETTER => {| paper_width := 612; paper_height := 792 |}
  | PAPER_TYPE_US_LEGAL => {| paper_width := 612; paper_height := 1008 |}
  end.

(** [page_layout_t].  The fields [do_draw_header], [do_draw_footer] and
    [do_draw_contour] are never written nor read and are left out. *)
Record page_layout_t : Type := {
  pt_to_pixel : float;
  pixel_to_pt : float;
  column_width : Z;
  column_height : Z;
  num_columns : Z;
  gutter_width : Z;
  top_margin : Z;
  bottom_margin : Z;
  left_margin : Z;
  right_margin : Z;
  page_width : Z;
  page_height : Z;
  header_ypos : Z;
  header_sep : Z;
  header_height : Z;
  footer_height : Z;
  do_duplex : bool;
  do_tumble : bool;
  do_landscape : bool;
  do_justify : bool;
  do_separation_line : bool;
  pango_dir : PangoDirection;
  filename : string;
  header_font_desc : string
}.

Definition set_header_height (v : Z) (p : page_layout_t) : page_layout_t :=
  {| pt_to_pixel := pt_to_pixel p; pixel_to_pt := pixel_to_pt p;
     column_width := column_width p; column_height := column_height p;
     num_columns := num_columns p; gutter_width := gutter_width p;
     top_margin := top_margin p; bottom_margin := bottom_margin p;
     left_margin := left_margin p; right_margin := right_margin p;
     page_width := page_width p; page_height := page_height p;
     header_ypos := header_ypos p; header_sep := header_sep p;
     header_height := v; footer_height := footer_height p;
     do_duplex := do_duplex p; do_tumble := do_tumble p;
     do_landscape := do_landscape p; do_justify := do_justify p;
     do_separation_line := do_separation_line p;
     pango_dir := pango_dir p; filename := filename p;
     header_font_desc := header_font_desc p |}.

Definition set_footer_height (v : Z) (p : page_layout_t) : page_layout_t :=
  {| pt_to_pixel := pt_to_pixel p; pixel_to_pt := pixel_to_pt p;
     column_width := column_width p; column_height := column_height p;
     num_columns := num_columns p; gutter_width := gutter_width p;
     top_margin := top_margin p; bottom_margin := bottom_margin p;
     left_margin := left_margin p; right_margin := right_margin p;
     page_width := page_width p; page_height := page_height p;
     header_ypos := header_ypos p; header_sep := header_sep p;
     header_height := header_height p; footer_height := v;
     do_duplex := do_duplex p; do_tumble := do_tumble p;
     do_landscape := do_landscape p; do_justify := do_justify p;
     do_separation_line := do_separation_line p;
     pango_dir := pango_dir p; filename := filename p;
     header_font_desc := header_font_desc p |}.

Record LineLink : Type := {
  pango_line : PangoLayoutLine;
  logical_rect : PangoRectangle;
  ink_rect : PangoRectangle;
  formfeed : Z
}.

(** [struct _Paragraph]; [text], [length] and [height] play no part in the
    flow and are left out. *)
Record Paragraph : Type := {
  para_formfeed : Z;
  para_layout : PangoLayout
}.

(* ================================================================= *)
(** ** The page layout computed by [main] *)

(** The command-line settings [main] reads after option parsing. *)
Record options : Type := {
  opt_landscape : bool;
  opt_rtl : bool;
  opt_justify : bool;
  opt_draw_header : bool;
  opt_num_columns : Z;
  opt_top_margin : Z;
  opt_bottom_margin : Z;
  opt_right_margin : Z;
  opt_left_margin : Z;
  opt_paper_type : paper_type_t;
  opt_filename_in : string
}.

(** The values [main] starts from when no option is given. *)
Definition default_options : options :=
  {| opt_landscape := false; opt_rtl := false; opt_justify := false;
     opt_draw_header := false; opt_num_columns := 1;
     opt_top_margin := 36; opt_bottom_margin := 36;
     opt_right_margin := 36; opt_left_margin := 36;
     opt_paper_type := PAPER_TYPE_A4; opt_filename_in := "stdin" |}.

(* ================================================================= *)
(** ** What a run writes and what it reads *)

(** The pieces appended to [ps_pages_string]. *)
Inductive ps_chunk : Type :=
| PsPage (page_idx : Z)                 (* %%Page: n n / paps_bop *)
| PsShowpage                            (* paps_eop / showpage *)
| PsStroke (x1 y1 x2 y2 : float)        (* moveto lineto stroke, all %f *)
| PsRule (x1 : Z) (y1 : float) (x2 : Z) (y2 : float) (* %d %f %d %f *)
| PsLine (x_pos y_pos : float) (line : PangoLayoutLine).
    (* the text paps_layout_line_to_postscript_strdup returns *)

(** The calls [output_pages] makes, with their arguments. *)
Inductive call : Type :=
| Call_start_page (page_idx : Z)
| Call_draw_page_header_line_to_page (is_footer : bool) (page : Z)
| Call_eject_column (column_idx : Z)
| Call_eject_page
| Call_draw_line_to_page (column_idx column_pos : Z) (line : PangoLayoutLine).

(** The state a run works on: the layout behind the [page_layout]
    pointer, the global [ps_pages_string], the record of the calls made,
    and the clock.  [date_text n] is the text that [time], [localtime]
    and [strftime] with format [%c] leave in [date] the [n]-th time a
    header is composed. *)
Record world : Type := {
  page_layout : page_layout_t;
  ps_pages_string : list ps_chunk;
  calls : list call;
  date_text : nat -> string;
  date_calls : nat
}.

Definition M (A : Type) : Type := world -> A * world.

Definition ret {A} (a : A) : M A := fun w => (a, w).

Definition bind {A B} (m : M A) (k : A -> M B) : M B :=
  fun w => let (a, w') := m w in k a w'.

Definition layout : M page_layout_t := fun w => (page_layout w, w).

Definition set_layout (f : page_layout_t -> page_layout_t) : M unit :=
  fun w => (tt, {| page_layout := f (page_layout w);
                   ps_pages_string := ps_pages_string w;
                   calls := calls w;
                   date_text := date_text w;
                   date_calls := date_calls w |}).

Definition g_string_append (c : ps_chunk) : M unit :=
  fun w => (tt, {| page_layout := page_layout w;
                   ps_pages_string := ps_pages_string w ++ [c];
                   calls := calls w;
                   date_text := date_text w;
                   date_calls := date_calls w |}).

Definition called (c : call) : M unit :=
  fun w => (tt, {| page_layout := page_layout w;
                   ps_pages_string := ps_pages_string w;
                   calls := calls w ++ [c];
                   date_text := date_text w;
                   date_calls := date_calls w |}).

Definition strftime_now : M string :=
  fun w => (date_text w (date_calls w),
            {| page_layout := page_layout w;
               ps_pages_string := ps_pages_string w;
               calls := calls w;
               date_text := date_text w;
               date_calls := S (date_calls w) |}).

(** The state in which [main] calls [output_pages]: nothing written
    yet, the clock not read yet. *)
Definition initial_world (p : page_layout_t) (dates : nat -> string)
  : world :=
  {| page_layout := p; ps_pages_string := []; calls := [];
     date_text := dates; date_calls := 0 |}.

(* ================================================================= *)
(** ** The prologue and the trailer *)

(** The values [print_postscript_header] fills into the text of the
    prologue, in the order of the format. *)
Record postscript_header : Type := {
  hdr_title : string;
  hdr_bounding_box : Z * Z;
  hdr_orientation : string;
  hdr_pagewidth : Z;
  hdr_pageheight : Z;
  hdr_column_width : Z;
  hdr_bodyheight : Z;
  hdr_lmarg : Z;
  hdr_ytop : Z;
  hdr_do_separation_line : string;
  hdr_do_landscape : string;
  hdr_do_tumble : string;
  hdr_do_duplex : string;
  hdr_numcolumns : Z
}.

Definition bool_name (b : bool) : string :=
  if b then "true"%string else "false"%string.

Definition orientation_names (orientation : bool) : string :=
  if orientation then "Landscape"%string else "Portrait"%string.

Definition print_postscript_header (title : string) (p : page_layout_t)
  : postscript_header :=
  let bodytop := (header_ypos p + header_sep p)%cint in
  let orientation := page_height p <? page_width p in
  let bb_page_width := page_width p in
  let bb_page_height := page_height p in
  (* Keep bounding box non-rotated to make ggv happy *)
  let '(bb_page_width, bb_page_height) :=
    if orientation then (bb_page_height, bb_page_width)
    else (bb_page_width, bb_page_height) in
  {| hdr_title := title;
     hdr_bounding_box := (bb_page_width, bb_page_height);
     hdr_orientation := orientation_names orientation;
     hdr_pagewidth := page_width p;
     hdr_pageheight := page_height p;
     hdr_column_width := column_width p;
     hdr_bodyheight := column_height p;
     hdr_lmarg := left_margin p;
     hdr_ytop := (page_height p - bodytop)%cint;
     hdr_do_separation_line := bool_name (do_separation_line p);
     hdr_do_landscape := bool_name (do_landscape p);
     hdr_do_tumble := bool_name (do_tumble p);
     hdr_do_duplex := bool_name (do_duplex p);
     hdr_numcolumns := num_columns p |}.

(** The number [print_postscript_trailer] writes after [%%Pages:]. *)
Definition print_postscript_trailer (num_pages : Z) : Z := num_pages.

(** What [main] writes: the prologue, the pages gathered in
    [ps_pages_string] and the trailer.  The font definitions of libpaps
    that go between prologue and pages are left out. *)
Record document : Type := {
  doc_prologue : postscript_header;
  doc_pages : list ps_chunk;
  doc_trailer_pages : Z
}.

(* ================================================================= *)
(** ** C strings and the input file *)

(** What a C function comes to: a value, a step the C standard leaves
    undefined, or no end within the steps allowed to the model. *)
Inductive outcome (A : Type) : Type :=
| Returns (a : A)
| Undefined
| Unfinished.

Arguments Returns {A} a.
Arguments Undefined {A}.
Arguments Unfinished {A}.

Definition NUL : ascii := "000"%char.
Definition LF : ascii := "010"%char.
Definition FF : ascii := "012"%char.

(** The bytes a C function sees at a [char *]: those before the first
    NUL. *)
Fixpoint c_str (s : string) : string :=
  match s with
  | EmptyString => EmptyString
  | String c r => if Ascii.eqb c NUL then EmptyString else String c (c_str r)
  end.

(** [s + p] for a pointer [s] to a string. *)
Fixpoint string_from (p : nat) (s : string) : string :=
  match p, s with
  | O, _ => s
  | S p, String _ r => string_from p r
  | S _, EmptyString => EmptyString
  end.

(** The first [n] bytes at [s]. *)
Fixpoint string_take (n : nat) (s : string) : string :=
  match n, s with
  | O, _ => EmptyString
  | S n, String c r => String c (string_take n r)
  | S _, EmptyString => EmptyString
  end.

(** [s[p]]: a byte of the string, the terminator behind it, and nothing
    farther out. *)
Definition deref (s : string) (p : nat) : option ascii :=
  match String.get p s with
  | Some c => Some c
  | None => if (p =? String.length s)%nat then Some NUL else None
  end.

Fixpoint last_char (s : string) : option ascii :=
  match s with
  | EmptyString => None
  | String c EmptyString => Some c
  | String _ r => last_char r
  end.

(** A [FILE] open for reading: the bytes still to come, whether the
    device fails once they are read (rather than report the end of the
    file), and the error indicator [ferror] tests. *)
Record FILE : Type := {
  unread : string;
  fails : bool;
  error_indicator : bool
}.

Definition ferror (file : FILE) : bool := error_indicator file.

(** The bytes [fgets] takes when the buffer has [room] for them: up to
    and with a LF, as far as the room and the input go.  The flag
    tells that it stopped short of the end of the input. *)
Fixpoint fgets_take (room : nat) (s : string) : string * string * bool :=
  match room with
  | O => (EmptyString, s, true)
  | S room =>
      match s with
      | EmptyString => (EmptyString, EmptyString, false)
      | String c r =>
          if Ascii.eqb c LF then (String c EmptyString, r, true)
          else
            let '(chunk, rest, stopped) := fgets_take room r in
            (String c chunk, rest, stopped)
      end
  end.

(** [fgets (buffer, n, file)] of the C library: the buffer filled, or
    NULL at the end of the file and on a read error. *)
Definition fgets (n : nat) (file : FILE) : option string * FILE :=
  let '(chunk, rest, stopped) := fgets_take (n - 1) (unread file) in
  if stopped then
    (Some chunk,
     {| unread := rest; fails := fails file;
        error_indicator := error_indicator file |})
  else if fails file then
    (None,
     {| unread := EmptyString; fails := true; error_indicator := true |})
  else
    match chunk with
    | EmptyString =>
        (None,
         {| unread := EmptyString; fails := false;
            error_indicator := error_indicator file |})
    | String _ _ =>
        (Some chunk,
         {| unread := EmptyString; fails := false;
            error_indicator := error_indicator file |})
    end.

Definition BUFSIZE : nat := 1024.

(** [(gunichar)-1], the answer of [g_utf8_get_char] to bytes that are
    no character. *)
Definition gunichar_minus_one : Z := 4294967295.

Inductive PangoAlignment : Type :=
| PANGO_ALIGN_LEFT
| PANGO_ALIGN_CENTER
| PANGO_ALIGN_RIGHT.

(** [struct _Paragraph] in full: [para_text] is the text from the
    pointer [text] on, [para_flow] holds [formfeed] and [layout]. *)
Record TextParagraph : Type := {
  para_text : string;
  para_length : Z;
  para_height : Z;
  para_flow : Paragraph
}.

(** The text [pango_layout_set_text (layout, text, length)] keeps: the
    first [length] bytes, the whole string for a negative [length]. *)
Definition pango_layout_text (text : string) (length : Z) : string :=
  if length <? 0 then c_str text
  else c_str (string_take (Z.to_nat length) text).

(** The bytes of a paragraph. *)
Definition paragraph_text (para : TextParagraph) : string :=
  pango_layout_text (para_text para) (para_length para).

(** The byte that ended a paragraph, by its flag. *)
Definition terminator (para : TextParagraph) : string :=
  if para_formfeed (para_flow para) =? 0
  then String LF EmptyString
  else String FF EmptyString.

(** The paragraphs written one after the other, each with the byte that
    ended it. *)
Fixpoint rejoin (paragraphs : list TextParagraph) : string :=
  match paragraphs with
  | [] => EmptyString
  | para :: next =>
      (paragraph_text para ++ terminator para ++ rejoin next)%string
  end.

(** A byte of ASCII other than NUL. *)
Definition plain (c : ascii) : bool :=
  let n := nat_of_ascii c in
  ((0 <? n) && (n <? 128))%nat.

Fixpoint plain_text (s : string) : bool :=
  match s with
  | EmptyString => true
  | String c r => plain c && plain_text r
  end.

Definition separator (c : ascii) : bool :=
  Ascii.eqb c LF || Ascii.eqb c FF.

Fixpoint no_separator (s : string) : bool :=
  match s with
  | EmptyString => true
  | String c r => negb (separator c) && no_separator r
  end.

Fixpoint no_NUL (s : string) : bool :=
  match s with
  | EmptyString => true
  | String c r => negb (Ascii.eqb c NUL) && no_NUL r
  end.

Definition ends_in_newline (s : string) : bool :=
  match last_char s with
  | Some c => Ascii.eqb c LF
  | None => false
  end.

(** [g_ascii_tolower] on a byte and on the bytes of a string. *)
Definition lower_char (c : ascii) : ascii :=
  let n := nat_of_ascii c in
  if ((65 <=? n) && (n <=? 90))%nat then ascii_of_nat (n + 32) else c.

Fixpoint lower (s : string) : string :=
  match s with
  | EmptyString => EmptyString
  | String c r => String (lower_char c) (lower r)
  end.

(** The names of the papers on the command line. *)
Definition paper_name (t : paper_type_t) : string :=
  match t with
  | PAPER_TYPE_A4 => "a4"
  | PAPER_TYPE_US_LETTER => "letter"
  | PAPER_TYPE_US_LEGAL => "legal"
  end.

(** Width and height of the papers in whole points. *)
Definition paper_points (t : paper_type_t) : Z * Z :=
  match t with
  | PAPER_TYPE_A4 => (595, 841)
  | PAPER_TYPE_US_LETTER => (612, 792)
  | PAPER_TYPE_US_LEGAL => (612, 1008)
  end.

(** Strings written one after the other. *)
Fixpoint join (l : list string) : string :=
  match l with
  | [] => EmptyString
  | s :: r => (s ++ join r)%string
  end.

(* ================================================================= *)
(** ** Sample data *)

Module Sample.

(** A scale of one Pango pixel to the point. *)
Definition points_to_pango (points : float) : float :=
  (points * 1024)%float.

(** The text of a markup, tags dropped. *)
Fixpoint strip_tags (in_tag : bool) (s : string) : string :=
  match s with
  | EmptyString => EmptyString
  | String c r =>
      if Ascii.eqb c "<" then strip_tags true r
      else if Ascii.eqb c ">" then strip_tags false r
      else if in_tag then strip_tags true r
      else String c (strip_tags false r)
  end.

(** The lines of a text; [cur] is the line under way, reversed. *)
Fixpoint split_lines (cur : string) (s : string) : list string :=
  match s with
  | EmptyString => [cur]
  | String c r =>
      if Ascii.eqb c "010" then cur :: split_lines EmptyString r
      else split_lines (cur ++ String c EmptyString) r
  end.

(** A fixed-pitch line: ten pixels a character, twelve pixels high. *)
Definition shaped (text : string) : PangoLayoutLine :=
  let r := {| rect_x := 0; rect_y := 0;
              rect_width := 10240 * Z.of_nat (String.length text);
              rect_height := 12288 |} in
  {| line_text := text; line_ink := r; line_logical := r |}.

Definition markup (s : string) : PangoLayout :=
  map shaped (split_lines EmptyString (strip_tags false s)).

Definition line_link (text : string) (ff : Z) : LineLink :=
  {| pango_line := shaped text;
     logical_rect := line_logical (shaped text);
     ink_rect := line_ink (shaped text);
     formfeed := ff |}.

(** Three lines, the first two each ending a paragraph with a form
    feed. *)
Definition lines : list LineLink :=
  [line_link "one" 1; line_link "two" 1; line_link "three" 0].

Definition paragraphs : list Paragraph :=
  [ {| para_formfeed := 1; para_layout := [shaped "one"] |};
    {| para_formfeed := 1; para_layout := [shaped "two"] |};
    {| para_formfeed := 0; para_layout := [shaped "three"] |} ].

(** paps --columns=2 --header *)
Definition two_columns : options :=
  {| opt_landscape := false; opt_rtl := false; opt_justify := false;
     opt_draw_header := true; opt_num_columns := 2;
     opt_top_margin := 36; opt_bottom_margin := 36;
     opt_right_margin := 36; opt_left_margin := 36;
     opt_paper_type := PAPER_TYPE_A4; opt_filename_in := "stdin" |}.


(** paps --columns=-1 --left-margin=2147483647 --right-margin=676 *)
Definition minus_one_column : options :=
  {| opt_landscape := false; opt_rtl := false; opt_justify := false;
     opt_draw_header := false; opt_num_columns := -1;
     opt_top_margin := 36; opt_bottom_margin := 36;
     opt_right_margin := 676; opt_left_margin := 2147483647;
     opt_paper_type := PAPER_TYPE_A4; opt_filename_in := "stdin" |}.

(** The layout of [two_columns]. *)
Definition layout : page_layout_t :=
  {| pt_to_pixel := 1; pixel_to_pt := 1;
     column_width := 241; column_height := 749; num_columns := 2;
     gutter_width := 40; top_margin := 36; bottom_margin := 36;
     left_margin := 36; right_margin := 36;
     page_width := 595; page_height := 841;
     header_ypos := 36; header_sep := 20;
     header_height := 0; footer_height := 0;
     do_duplex := true; do_tumble := true; do_landscape := false;
     do_justify := false; do_separation_line := true;
     pango_dir := PANGO_DIRECTION_LTR; filename := "stdin";
     header_font_desc := "Monospace Bold 12" |}.

(** The same page, written right to left. *)
Definition rtl_layout : page_layout_t :=
  {| pt_to_pixel := 1; pixel_to_pt := 1;
     column_width := 241; column_height := 749; num_columns := 2;
     gutter_width := 40; top_margin := 36; bottom_margin := 36;
     left_margin := 36; right_margin := 36;
     page_width := 595; page_height := 841;
     header_ypos := 36; header_sep := 20;
     header_height := 0; footer_height := 0;
     do_duplex := true; do_tumble := true; do_landscape := false;
     do_justify := false; do_separation_line := true;
     pango_dir := PANGO_DIRECTION_RTL; filename := "stdin";
     header_font_desc := "Monospace Bold 12" |}.

(** Two readings of the clock, a second apart. *)
Definition midnight (n : nat) : string := "Thu Jan  1 00:00:00 1970".
Definition second_later (n : nat) : string := "Thu Jan  1 00:00:01 1970".

Definition w0 : world := initial_world layout midnight.
Definition w1 : world := initial_world layout second_later.
Definition w_rtl : world := initial_world rtl_layout midnight.

(** A second run that starts within the same second as [w0]. *)
Definition w0_again : world :=
  initial_world layout (fun n => midnight (S n)).

(** Two lines of one paragraph, no form feed. *)
Definition short_lines : list LineLink :=
  [line_link "one" 0; line_link "two" 0].

(** A line taller than the column of [layout]. *)
Definition banner : LineLink :=
  let r := {| rect_x := 0; rect_y := 0; rect_width := 10240;
              rect_height := 800000 |} in
  {| pango_line :=
       {| line_text := "banner"; line_ink := r; line_logical := r |};
     logical_rect := r; ink_rect := r; formfeed := 0 |}.

(** paps --landscape --columns=2 --header *)
Definition landscape : options :=
  {| opt_landscape := true; opt_rtl := false; opt_justify := false;
     opt_draw_header := true; opt_num_columns := 2;
     opt_top_margin := 36; opt_bottom_margin := 36;
     opt_right_margin := 36; opt_left_margin := 36;
     opt_paper_type := PAPER_TYPE_A4; opt_filename_in := "stdin" |}.

(** A decoder of UTF-8 for the forms of one and two bytes; every other
    byte is no character to it. *)
Definition utf8_get_char (s : string) : Z :=
  match s with
  | EmptyString => 0
  | String c r =>
      let n := Z.of_nat (nat_of_ascii c) in
      if n <? 128 then n
      else if (192 <=? n) && (n <? 224) then
        match r with
        | String c1 _ =>
            let n1 := Z.of_nat (nat_of_ascii c1) in
            if (128 <=? n1) && (n1 <? 192)
            then (n - 192) * 64 + (n1 - 128)
            else gunichar_minus_one
        | EmptyString => gunichar_minus_one
        end
      else gunichar_minus_one
  end.

Definition utf8_skip (c : ascii) : nat :=
  let n := nat_of_ascii c in
  if (n <? 192)%nat then 1%nat
  else if (n <? 224)%nat then 2%nat
  else if (n <? 240)%nat then 3%nat
  else if (n <? 248)%nat then 4%nat
  else if (n <? 252)%nat then 5%nat
  else if (n <? 254)%nat then 6%nat
  else 1%nat.

(** A converter from ISO 8859-1, which has no state. *)
Fixpoint latin1_to_utf8 (s : string) : string :=
  match s with
  | EmptyString => EmptyString
  | String c r =>
      let n := nat_of_ascii c in
      if (n <? 128)%nat then String c (latin1_to_utf8 r)
      else String (ascii_of_nat (192 + n / 64))
             (String (ascii_of_nat (128 + n mod 64)) (latin1_to_utf8 r))
  end.

Definition iconv (cd : unit) (s : string) : option (string * unit) :=
  Some (latin1_to_utf8 s, cd).

(** A text that Pango does not have to break: one line. *)
Definition one_line (text : string) (justify : bool)
    (alignment : PangoAlignment) (width : Z) : PangoLayout :=
  [shaped text].

(** Three lines of text, the second ended by a form feed, the third by
    nothing. *)
Definition contents : string :=
  ("one" ++ String LF ("two" ++ String FF "three"))%string.

Definition file : FILE :=
  {| unread := contents; fails := false; error_indicator := false |}.

(** The same on a device that fails. *)
Definition broken_file : FILE :=
  {| unread := contents; fails := true; error_indicator := false |}.

(** The comparison of glib: the bytes in small letters, up to the first
    difference or the end of a string. *)
Fixpoint strcasecmp (s1 s2 : string) : Z :=
  match s1, s2 with
  | String c1 r1, String c2 r2 =>
      if Ascii.eqb c1 NUL || Ascii.eqb c2 NUL
      then Z.of_nat (nat_of_ascii c1) - Z.of_nat (nat_of_ascii c2)
      else if Ascii.eqb (lower_char c1) (lower_char c2)
      then strcasecmp r1 r2
      else Z.of_nat (nat_of_ascii (lower_char c1))
           - Z.of_nat (nat_of_ascii (lower_char c2))
  | String c1 _, EmptyString => Z.of_nat (nat_of_ascii c1)
  | EmptyString, String c2 _ => - Z.of_nat (nat_of_ascii c2)
  | EmptyString, EmptyString => 0
  end.

(** paps --paper=Letter *)
Definition letter : options :=
  {| opt_landscape := false; opt_rtl := false; opt_justify := false;
     opt_draw_header := false; opt_num_columns := 1;
     opt_top_margin := 36; opt_bottom_margin := 36;
     opt_right_margin := 36; opt_left_margin := 36;
     opt_paper_type := PAPER_TYPE_US_LETTER; opt_filename_in := "stdin" |}.

(** The characters of a text in UTF-8: e acute, in two bytes, a
    newline, a, a form feed, b. *)
Definition accented : list string :=
  [ String (ascii_of_nat 195) (String (ascii_of_nat 169) EmptyString);
    String LF EmptyString;
    "a"%string;
    String FF EmptyString;
    "b"%string ].

End Sample.

Declare Scope paps_scope.
Delimit Scope paps_scope with paps.
Notation "x <- c1 ;; c2" := (bind c1 (fun x => c2))
  (at level 61, c1 at next level, right associativity) : paps_scope.
Notation "c1 ;; c2" := (bind c1 (fun _ => c2))
  (at level 61, right associativity) : paps_scope.

Section Paps.

(** [paps_postscript_points_to_pango] of libpaps. *)
Variable paps_postscript_points_to_pango : float -> float.

(** [pango_layout_set_markup] followed by line breaking: the lines
    Pango lays a marked-up text out in. *)
Variable pango_layout_set_markup : string -> PangoLayout.

(** Lines 283-342 of [main].  The division by [num_columns] has no
    result when [num_columns] is zero, nor when it is -1 and the width
    left for the columns has wrapped to [INT_MIN]: [main] is killed
    there, before anything is read or written. *)
Definition main_page_layout (o : options) : option page_layout_t :=
  let gutter_width := 40 in
  let header_sep := 20 in
  let header_font_desc := "Monospace Bold 12"%string in
  let do_tumble := -1 in
  let do_duplex := -1 in
  let pango_dir :=
    if opt_rtl o then PANGO_DIRECTION_RTL else PANGO_DIRECTION_LTR in
  let page_width :=
    CDouble.to_int (paper_width (paper_sizes (opt_paper_type o))) in
  let page_height :=
    CDouble.to_int (paper_height (paper_sizes (opt_paper_type o))) in
  let total_gutter_width :=
    if opt_num_columns o =? 1 then 0
    else (gutter_width * (opt_num_columns o - 1))%cint in
  let '(page_width, page_height, do_tumble, do_duplex) :=
    if opt_landscape o then
      (page_height, page_width,
       (if do_tumble <? 0 then 1 else do_tumble),
       (if do_duplex <? 0 then 1 else do_duplex))
    else
      (page_width, page_height,
       (if do_tumble <? 0 then 1 else do_tumble),
       (if do_duplex <? 0 then 1 else do_duplex)) in
  let header_sep' := if opt_draw_header o then header_sep else 0 in
  let column_height :=
    (page_height - opt_top_margin o - header_sep' - opt_bottom_margin o)%cint in
  match
    CInt.checked_div
      (page_width - opt_left_margin o - opt_right_margin o
       - total_gutter_width)
      (opt_num_columns o)
  with
  | None => None
  | Some column_width =>
    let pt_to_pixel :=
      (paps_postscript_points_to_pango 1 / CDouble.of_int PANGO_SCALE)%float in
    Some {| pt_to_pixel := pt_to_pixel;
            pixel_to_pt := (1 / pt_to_pixel)%float;
            column_width := column_width;
            column_height := column_height;
            num_columns := opt_num_columns o;
            gutter_width := gutter_width;
            top_margin := opt_top_margin o;
            bottom_margin := opt_bottom_margin o;
            left_margin := opt_left_margin o;
            right_margin := opt_right_margin o;
            page_width := page_width;
            page_height := page_height;
            header_ypos := opt_top_margin o;
            header_sep := header_sep';
            header_height := 0;
            footer_height := 0;
            do_duplex := negb (do_duplex =? 0);
            do_tumble := negb (do_tumble =? 0);
            do_landscape := opt_landscape o;
            do_justify := opt_justify o;
            do_separation_line := true;
            pango_dir := pango_dir;
            filename := opt_filename_in o;
            header_font_desc := header_font_desc |}
  end.

(* --------------------------------------------------------------- *)
(** *** Paragraphs to lines *)

(** The body of the [for] loop of [split_paragraphs_into_lines] at
    index [i]. *)
Definition make_line_link (para : Paragraph) (para_num_lines i : Z)
    (line : PangoLayoutLine) : LineLink :=
  let '(ink, logical) := pango_layout_line_get_extents line in
  {| pango_line := line;
     logical_rect := logical;
     ink_rect := ink;
     formfeed :=
       if negb (para_formfeed para =? 0) && (i =? para_num_lines - 1)
       then 1 else 0 |}.

(** The [for] loop: [lines] are the lines of the layout from index [i]
    on, [line_list] the list built so far (newest first). *)
Fixpoint split_paragraph_loop (para : Paragraph) (para_num_lines i : Z)
    (lines : list PangoLayoutLine) (line_list : list LineLink)
  : list LineLink :=
  match lines with
  | [] => line_list
  | line :: rest =>
      split_paragraph_loop para para_num_lines (i + 1) rest
        (make_line_link para para_num_lines i line :: line_list)
  end.

Fixpoint split_paragraphs_loop (par_list : list Paragraph)
    (line_list : list LineLink) : list LineLink :=
  match par_list with
  | [] => line_list
  | para :: next =>
      let para_num_lines := pango_layout_get_line_count (para_layout para) in
      split_paragraphs_loop next
        (split_paragraph_loop para para_num_lines 0 (para_layout para)
           line_list)
  end.

Definition split_paragraphs_into_lines (paragraphs : list Paragraph)
  : list LineLink :=
  rev (split_paragraphs_loop paragraphs []).

(** The lines one paragraph contributes, in order, counted from index
    [i]. *)
Fixpoint paragraph_lines (para : Paragraph) (para_num_lines i : Z)
    (lines : list PangoLayoutLine) : list LineLink :=
  match lines with
  | [] => []
  | line :: rest =>
      make_line_link para para_num_lines i line
        :: paragraph_lines para para_num_lines (i + 1) rest
  end.

(* --------------------------------------------------------------- *)
(** *** The drawing routines *)

Local Open Scope paps_scope.

Definition is_rtl (p : page_layout_t) : bool :=
  PangoDirection_eqb (pango_dir p) PANGO_DIRECTION_RTL.

Definition start_page (page_idx : Z) : M unit :=
  called (Call_start_page page_idx) ;;
  g_string_append (PsPage page_idx).

Definition eject_page : M unit :=
  called Call_eject_page ;;
  g_string_append PsShowpage.

Definition eject_column (column_idx : Z) : M unit :=
  called (Call_eject_column column_idx) ;;
  p <- layout ;;
  if negb (do_separation_line p) then ret tt
  else
    let column_idx :=
      if is_rtl p then (num_columns p - column_idx)%cint else column_idx in
    let total_gutter :=
      if column_idx =? 1
      then (1 * CDouble.of_int (gutter_width p) / 2)%float
      else ((CDouble.of_int column_idx + 1.5)
            * CDouble.of_int (gutter_width p))%float in
    let x_pos :=
      (CDouble.of_int (left_margin p + column_width p * column_idx)%cint
       + total_gutter)%float in
    let y_top :=
      CDouble.of_int (page_height p - top_margin p - header_height p
                      - header_sep p / 2)%cint in
    let y_bot := CDouble.of_int (bottom_margin p - footer_height p)%cint in
    g_string_append (PsStroke x_pos y_top x_pos y_bot).

(** The horizontal anchor [draw_line_to_page] computes. *)
Definition line_x_pos (p : page_layout_t) (column_idx : Z)
    (line : PangoLayoutLine) : float :=
  let x_pos :=
    CDouble.of_int
      (left_margin p + column_idx * (column_width p + gutter_width p))%cint in
  let x_pos :=
    if is_rtl p then
      CDouble.of_int
        (left_margin p
         + (num_columns p - 1 - column_idx)
           * (column_width p + gutter_width p))%cint
    else x_pos in
  let '(ink_rect, logical_rect) := pango_layout_line_get_extents line in
  if is_rtl p then
    (x_pos + (CDouble.of_int (column_width p)
              - CDouble.of_int (rect_width logical_rect)
                / (pt_to_pixel p * CDouble.of_int PANGO_SCALE)))%float
  else x_pos.

(** The vertical anchor [draw_line_to_page] computes. *)
Definition line_y_pos (p : page_layout_t) (column_pos : Z) : float :=
  (CDouble.of_int (page_height p - top_margin p - header_sep p)%cint
   - CDouble.of_int (column_pos / PANGO_SCALE)%cint * pixel_to_pt p)%float.

Definition draw_line_to_page (column_idx column_pos : Z)
    (line : PangoLayoutLine) : M unit :=
  called (Call_draw_line_to_page column_idx column_pos line) ;;
  p <- layout ;;
  let y_pos := line_y_pos p column_pos in
  let x_pos := line_x_pos p column_idx line in
  g_string_append (PsLine x_pos y_pos line).

Definition newline : string := String "010"%char EmptyString.
Definition dquote : string := String "034"%char EmptyString.

Definition span (font_desc text : string) : string :=
  ("<span font_desc=" ++ dquote ++ font_desc ++ dquote ++ ">"
     ++ text ++ "</span>")%string.

(** The markup [g_strdup_printf] builds in
    [draw_page_header_line_to_page]. *)
Definition header_markup (p : page_layout_t) (date : string) (page : Z)
  : string :=
  (span (header_font_desc p) date ++ newline
     ++ span (header_font_desc p) (filename p) ++ newline
     ++ span (header_font_desc p)
          ("Page " ++ NilZero.string_of_int (Z.to_int page)))%string.

Definition draw_page_header_line_to_page (is_footer : bool) (page : Z)
  : M Z :=
  called (Call_draw_page_header_line_to_page is_footer page) ;;
  date <- strftime_now ;;
  p <- layout ;;
  let header := header_markup p date page in
  let layout_ := pango_layout_set_markup header in
  (* left edge *)
  let line := pango_layout_get_line layout_ 0 in
  let '(ink_rect, logical_rect) := pango_layout_line_get_extents line in
  let x_pos := CDouble.of_int (left_margin p) in
  let height :=
    CDouble.to_int
      (CDouble.of_int (rect_height logical_rect / PANGO_SCALE)%cint
       * pixel_to_pt p / 3)%float in
  y_pos <-
    (if is_footer then
       set_layout (set_footer_height height) ;;
       ret (CDouble.of_int (bottom_margin p))
     else
       set_layout (set_header_height height) ;;
       ret (CDouble.of_int (page_height p - top_margin p - height)%cint)) ;;
  g_string_append (PsLine x_pos y_pos line) ;;
  (* center *)
  let line := pango_layout_get_line layout_ 1 in
  let '(ink_rect, logical_rect) := pango_layout_line_get_extents line in
  let x_pos :=
    ((CDouble.of_int (page_width p)
      - CDouble.of_int (rect_width logical_rect / PANGO_SCALE)%cint
        * pixel_to_pt p) / 2)%float in
  g_string_append (PsLine x_pos y_pos line) ;;
  (* right edge *)
  let line := pango_layout_get_line layout_ 2 in
  let '(ink_rect, logical_rect) := pango_layout_line_get_extents line in
  let x_pos :=
    (CDouble.of_int (page_width p - right_margin p)%cint
     - CDouble.of_int (rect_width logical_rect / PANGO_SCALE)%cint
       * pixel_to_pt p)%float in
  g_string_append (PsLine x_pos y_pos line) ;;
  (* header separator *)
  p <- layout ;;
  let line_pos :=
    CDouble.of_int (page_height p - top_margin p - header_height p
                    - header_sep p / 2)%cint in
  g_string_append
    (PsRule (left_margin p) line_pos
            (page_width p - right_margin p)%cint line_pos) ;;
  ret (rect_height logical_rect).

(* --------------------------------------------------------------- *)
(** *** [output_pages] *)

(** The local variables of [output_pages] that live across the loop. *)
Record locals : Type := {
  column_idx : Z;
  column_y_pos : Z;
  page_idx : Z;
  prev_line_link : option LineLink
}.

(** [pango_column_height], computed once on entry. *)
Definition pango_column_height_of (p : page_layout_t) : Z :=
  CDouble.to_int
    (CDouble.of_int (column_height p) * pt_to_pixel p
     * CDouble.of_int PANGO_SCALE)%float.

(** The test of the [if] that opens the loop body. *)
Definition move_to_next_column (pango_column_height : Z) (l : locals)
    (line_link : LineLink) : bool :=
  (pango_column_height
     <=? (column_y_pos l + rect_height (logical_rect line_link))%cint)
  || match prev_line_link l with
     | Some prev => negb (formfeed prev =? 0)
     | None => false
     end.

(** The block under "Check if we need to move to next column". *)
Definition check_next_column (need_header : bool) (pango_column_height : Z)
    (l : locals) (line_link : LineLink) : M locals :=
  if move_to_next_column pango_column_height l line_link then
    let column_idx := (column_idx l + 1)%cint in
    let column_y_pos := 0 in
    p <- layout ;;
    if column_idx =? num_columns p then
      let column_idx := 0 in
      eject_page ;;
      let page_idx := (page_idx l + 1)%cint in
      start_page page_idx ;;
      (if need_header
       then _ <- draw_page_header_line_to_page false page_idx ;; ret tt
       else ret tt) ;;
      ret {| column_idx := column_idx; column_y_pos := column_y_pos;
             page_idx := page_idx;
             prev_line_link := prev_line_link l |}
    else
      eject_column column_idx ;;
      ret {| column_idx := column_idx; column_y_pos := column_y_pos;
             page_idx := page_idx l;
             prev_line_link := prev_line_link l |}
  else ret l.

(** One turn of the [while] loop. *)
Definition output_line (need_header : bool) (pango_column_height : Z)
    (l : locals) (line_link : LineLink) : M locals :=
  let line := pango_line line_link in
  l <- check_next_column need_header pango_column_height l line_link ;;
  draw_line_to_page (column_idx l)
    (column_y_pos l + rect_height (logical_rect line_link))%cint line ;;
  ret {| column_idx := column_idx l;
         column_y_pos :=
           (column_y_pos l + rect_height (logical_rect line_link))%cint;
         page_idx := page_idx l;
         prev_line_link := Some line_link |}.

(** The [while] loop over the list of lines. *)
Fixpoint output_lines (need_header : bool) (pango_column_height : Z)
    (pango_lines : list LineLink) (l : locals) : M locals :=
  match pango_lines with
  | [] => ret l
  | line_link :: next =>
      l <- output_line need_header pango_column_height l line_link ;;
      output_lines need_header pango_column_height next l
  end.

Definition output_pages (pango_lines : list LineLink) (need_header : bool)
  : M Z :=
  p <- layout ;;
  let l := {| column_idx := 0; column_y_pos := 0; page_idx := 1;
              prev_line_link := None |} in
  let pango_column_height := pango_column_height_of p in
  start_page (page_idx l) ;;
  (if need_header
   then _ <- draw_page_header_line_to_page false (page_idx l) ;; ret tt
   else ret tt) ;;
  l <- output_lines need_header pango_column_height pango_lines l ;;
  eject_page ;;
  ret (page_idx l).

(** The part of [main] from the layout to the page count. *)
Definition main_pages (o : options) (paragraphs : list Paragraph)
    (dates : nat -> string) : option (Z * world) :=
  match main_page_layout o with
  | None => None
  | Some p =>
      let pango_lines := split_paragraphs_into_lines paragraphs in
      Some (output_pages pango_lines (opt_draw_header o)
              (initial_world p dates))
  end.

(* --------------------------------------------------------------- *)
(** *** The loop of [output_pages], read off as a function *)

(** The value of the line's height the loop works with. *)
Definition line_height (line_link : LineLink) : Z :=
  rect_height (logical_rect line_link).

(** The locals once the [if] that opens the loop body is through, for
    [n] columns. *)
Definition column_for_line (n pango_column_height : Z) (l : locals)
    (line_link : LineLink) : locals :=
  if move_to_next_column pango_column_height l line_link then
    if (column_idx l + 1)%cint =? n then
      {| column_idx := 0; column_y_pos := 0;
         page_idx := (page_idx l + 1)%cint;
         prev_line_link := prev_line_link l |}
    else
      {| column_idx := (column_idx l + 1)%cint; column_y_pos := 0;
         page_idx := page_idx l;
         prev_line_link := prev_line_link l |}
  else l.

(** The calls made inside that [if]. *)
Definition advance_calls (need_header : bool) (n pango_column_height : Z)
    (l : locals) (line_link : LineLink) : list call :=
  if move_to_next_column pango_column_height l line_link then
    if (column_idx l + 1)%cint =? n then
      Call_eject_page :: Call_start_page (page_idx l + 1)%cint
        :: (if need_header
            then [Call_draw_page_header_line_to_page false
                    (page_idx l + 1)%cint]
            else [])
    else [Call_eject_column (column_idx l + 1)%cint]
  else [].

(** The locals at the end of the loop body. *)
Definition placed_locals (n pango_column_height : Z) (l : locals)
    (line_link : LineLink) : locals :=
  let l' := column_for_line n pango_column_height l line_link in
  {| column_idx := column_idx l';
     column_y_pos := (column_y_pos l' + line_height line_link)%cint;
     page_idx := page_idx l';
     prev_line_link := Some line_link |}.

(** The call that places the line. *)
Definition draw_call (n pango_column_height : Z) (l : locals)
    (line_link : LineLink) : call :=
  let l' := placed_locals n pango_column_height l line_link in
  Call_draw_line_to_page (column_idx l') (column_y_pos l')
    (pango_line line_link).

Fixpoint loop_locals (n pango_column_height : Z)
    (pango_lines : list LineLink) (l : locals) : locals :=
  match pango_lines with
  | [] => l
  | line_link :: next =>
      loop_locals n pango_column_height next
        (placed_locals n pango_column_height l line_link)
  end.

Fixpoint loop_calls (need_header : bool) (n pango_column_height : Z)
    (pango_lines : list LineLink) (l : locals) : list call :=
  match pango_lines with
  | [] => []
  | line_link :: next =>
      advance_calls need_header n pango_column_height l line_link
        ++ draw_call n pango_column_height l line_link
        :: loop_calls need_header n pango_column_height next
             (placed_locals n pango_column_height l line_link)
  end.

Definition initial_locals : locals :=
  {| column_idx := 0; column_y_pos := 0; page_idx := 1;
     prev_line_link := None |}.

Definition first_page_calls (need_header : bool) : list call :=
  Call_start_page 1
    :: (if need_header
        then [Call_draw_page_header_line_to_page false 1] else []).

(** The record of the calls of a whole run. *)
Definition run_calls (need_header : bool) (p : page_layout_t)
    (pango_lines : list LineLink) : list call :=
  first_page_calls need_header
    ++ loop_calls need_header (num_columns p) (pango_column_height_of p)
         pango_lines initial_locals
    ++ [Call_eject_page].

(** Two layouts that differ at most in [header_height], the one field
    a page header writes. *)
Definition same_but_header_height (p p' : page_layout_t) : Prop :=
  set_header_height 0 p = set_header_height 0 p'.

(* --------------------------------------------------------------- *)
(** *** Readings of a record of calls *)

Definition is_eject_column (c : call) : bool :=
  match c with Call_eject_column _ => true | _ => false end.

Definition is_stroke (c : ps_chunk) : bool :=
  match c with PsStroke _ _ _ _ => true | _ => false end.

(** The page numbers of the [start_page] calls, in order. *)
Fixpoint started_pages (cs : list call) : list Z :=
  match cs with
  | [] => []
  | Call_start_page i :: r => i :: started_pages r
  | _ :: r => started_pages r
  end.

(** The lines placed, in order. *)
Fixpoint drawn_lines (cs : list call) : list PangoLayoutLine :=
  match cs with
  | [] => []
  | Call_draw_line_to_page _ _ line :: r => line :: drawn_lines r
  | _ :: r => drawn_lines r
  end.

(** Pages open and close in turn: [balanced open cs] holds when, with a
    page open or not as [open] says, every [start_page] of [cs] comes
    with no page open, every other call with a page open, and no page
    is open at the end. *)
Fixpoint balanced (open : bool) (cs : list call) : bool :=
  match cs with
  | [] => negb open
  | Call_start_page _ :: r => negb open && balanced true r
  | Call_eject_page :: r => open && balanced false r
  | _ :: r => open && balanced open r
  end.

(** No page sees more than [bound] calls of [eject_column]; [k] counts
    those of the page under way. *)
Fixpoint columns_bounded (bound k : Z) (cs : list call) : bool :=
  match cs with
  | [] => true
  | Call_start_page _ :: r => columns_bounded bound 0 r
  | Call_eject_column _ :: r =>
      (k + 1 <=? bound) && columns_bounded bound (k + 1) r
  | _ :: r => columns_bounded bound k r
  end.

(** The divider strokes written, and the calls of [eject_column]. *)
Definition strokes (ps : list ps_chunk) : nat :=
  List.length (filter is_stroke ps).

Definition eject_column_calls (cs : list call) : nat :=
  List.length (filter is_eject_column cs).

(** The turns of the loop that move on to a column of the same page:
    those for which the [if] under "Check if we need to move to next
    column" holds and the [else] of the test for the last column is
    taken. *)
Fixpoint column_advances (n pango_column_height : Z)
    (pango_lines : list LineLink) (l : locals) : nat :=
  match pango_lines with
  | [] => 0%nat
  | line_link :: next =>
      Nat.add
        (if move_to_next_column pango_column_height l line_link
            && negb ((column_idx l + 1)%cint =? n)
         then 1%nat else 0%nat)
        (column_advances n pango_column_height next
           (placed_locals n pango_column_height l line_link))
  end.

(** From [w] to [w'] the flag [do_separation_line], if set, stays set,
    and as many strokes are written as [eject_column] is called. *)
Definition keeps_dividers (w w' : world) : Prop :=
  do_separation_line (page_layout w) = true ->
  do_separation_line (page_layout w') = true
  /\ (strokes (ps_pages_string w') + eject_column_calls (calls w)
      = strokes (ps_pages_string w) + eject_column_calls (calls w'))%nat.

(** Two states that agree on all a run writes: the layout, the pages
    written and the calls made, and on how often the clock was read. *)
Definition same_output (w1 w2 : world) : Prop :=
  page_layout w1 = page_layout w2
  /\ ps_pages_string w1 = ps_pages_string w2
  /\ calls w1 = calls w2
  /\ date_calls w1 = date_calls w2.

(** [same_output], and if [clock] is set the same date texts too. *)
Definition same_run (clock : bool) (w1 w2 : world) : Prop :=
  same_output w1 w2
  /\ (clock = true -> forall n, date_text w1 n = date_text w2 n).

(** A computation that takes states related by [same_run] to the same
    result and to states so related. *)
Definition agrees (clock : bool) {A} (f : M A) : Prop :=
  forall w1 w2, same_run clock w1 w2 ->
    fst (f w1) = fst (f w2) /\ same_run clock (snd (f w1)) (snd (f w2)).

(* =============================================================== *)
(** ** Running the routines *)

Ltac run :=
  unfold start_page, eject_page, eject_column, draw_line_to_page,
    draw_page_header_line_to_page, bind, ret, called, g_string_append,
    layout, set_layout, strftime_now; simpl.

Lemma same_but_header_height_refl p : same_but_header_height p p.
Proof. reflexivity. Qed.

Lemma same_but_header_height_trans p q r :
  same_but_header_height p q -> same_but_header_height q r ->
  same_but_header_height p r.
Proof. unfold same_but_header_height. congruence. Qed.

Lemma same_but_header_height_set v p :
  same_but_header_height p (set_header_height v p).
Proof. reflexivity. Qed.

Lemma same_but_header_height_num_columns p q :
  same_but_header_height p q -> num_columns q = num_columns p.
Proof. intros H. apply (f_equal num_columns) in H. simpl in H. congruence. Qed.

Lemma start_page_run i w :
  calls (snd (start_page i w)) = calls w ++ [Call_start_page i]
  /\ ps_pages_string (snd (start_page i w)) = ps_pages_string w ++ [PsPage i]
  /\ page_layout (snd (start_page i w)) = page_layout w
  /\ date_text (snd (start_page i w)) = date_text w
  /\ date_calls (snd (start_page i w)) = date_calls w.
Proof. run. auto. Qed.

Lemma eject_page_run w :
  calls (snd (eject_page w)) = calls w ++ [Call_eject_page]
  /\ ps_pages_string (snd (eject_page w)) = ps_pages_string w ++ [PsShowpage]
  /\ page_layout (snd (eject_page w)) = page_layout w
  /\ date_text (snd (eject_page w)) = date_text w
  /\ date_calls (snd (eject_page w)) = date_calls w.
Proof. run. auto. Qed.

Lemma eject_column_run c w :
  calls (snd (eject_column c w)) = calls w ++ [Call_eject_column c]
  /\ page_layout (snd (eject_column c w)) = page_layout w
  /\ date_text (snd (eject_column c w)) = date_text w
  /\ date_calls (snd (eject_column c w)) = date_calls w.
Proof. run. destruct (do_separation_line (page_layout w)); simpl; auto. Qed.

Lemma draw_line_to_page_run c pos line w :
  calls (snd (draw_line_to_page c pos line w))
    = calls w ++ [Call_draw_line_to_page c pos line]
  /\ ps_pages_string (snd (draw_line_to_page c pos line w))
     = ps_pages_string w
         ++ [PsLine (line_x_pos (page_layout w) c line)
               (line_y_pos (page_layout w) pos) line]
  /\ page_layout (snd (draw_line_to_page c pos line w)) = page_layout w
  /\ date_text (snd (draw_line_to_page c pos line w)) = date_text w
  /\ date_calls (snd (draw_line_to_page c pos line w)) = date_calls w.
Proof. run. auto. Qed.

Lemma draw_page_header_run page w :
  calls (snd (draw_page_header_line_to_page false page w))
    = calls w ++ [Call_draw_page_header_line_to_page false page]
  /\ same_but_header_height (page_layout w)
       (page_layout (snd (draw_page_header_line_to_page false page w)))
  /\ date_text (snd (draw_page_header_line_to_page false page w)) = date_text w
  /\ date_calls (snd (draw_page_header_line_to_page false page w))
     = S (date_calls w).
Proof. run. auto using same_but_header_height_set. Qed.

Lemma bind_run {A B} (m : M A) (k : A -> M B) w :
  bind m k w = k (fst (m w)) (snd (m w)).
Proof. unfold bind. destruct (m w). reflexivity. Qed.

Lemma optional_header_run (need_header : bool) page w :
  let hdr :=
    if need_header
    then _ <- draw_page_header_line_to_page false page ;; ret tt
    else ret tt in
  calls (snd (hdr w))
    = calls w ++ (if need_header
                  then [Call_draw_page_header_line_to_page false page]
                  else [])
  /\ same_but_header_height (page_layout w) (page_layout (snd (hdr w)))
  /\ date_text (snd (hdr w)) = date_text w.
Proof.
  destruct need_header; cbv zeta.
  - rewrite bind_run. unfold ret. cbn [fst snd].
    pose proof (draw_page_header_run page w). tauto.
  - unfold ret. cbn [snd]. rewrite app_nil_r.
    auto using same_but_header_height_refl.
Qed.

Lemma check_next_column_run need_header cap l line_link w :
  let n := num_columns (page_layout w) in
  let r := check_next_column need_header cap l line_link w in
  fst r = column_for_line n cap l line_link
  /\ calls (snd r) = calls w ++ advance_calls need_header n cap l line_link
  /\ same_but_header_height (page_layout w) (page_layout (snd r))
  /\ date_text (snd r) = date_text w.
Proof.
  cbv zeta. unfold check_next_column, column_for_line, advance_calls.
  destruct (move_to_next_column cap l line_link).
  - rewrite bind_run. change (layout w) with (page_layout w, w).
    cbn [fst snd].
    destruct (_ =? num_columns (page_layout w)).
    + rewrite !bind_run.
      destruct (eject_page_run w) as (Hc1 & _ & Hp1 & Hd1 & _).
      set (w1 := snd (eject_page w)) in *.
      destruct (start_page_run (page_idx l + 1)%cint w1)
        as (Hc2 & _ & Hp2 & Hd2 & _).
      set (w2 := snd (start_page _ w1)) in *.
      destruct (optional_header_run need_header (page_idx l + 1)%cint w2)
        as (Hc3 & Hp3 & Hd3).
      set (w3 := snd (_ w2)) in *.
      unfold ret. cbn [fst snd].
      repeat split.
      * rewrite Hc3, Hc2, Hc1. repeat rewrite <- app_assoc. reflexivity.
      * rewrite Hp2, Hp1 in Hp3. exact Hp3.
      * congruence.
    + rewrite bind_run. unfold ret. cbn [fst snd].
      destruct (eject_column_run (column_idx l + 1)%cint w)
        as (Hc1 & Hp1 & Hd1 & _).
      rewrite Hp1. auto using same_but_header_height_refl.
  - unfold ret. cbn [fst snd]. rewrite app_nil_r.
    auto using same_but_header_height_refl.
Qed.

Lemma output_line_run need_header cap l line_link w :
  let n := num_columns (page_layout w) in
  let r := output_line need_header cap l line_link w in
  fst r = placed_locals n cap l line_link
  /\ calls (snd r)
     = calls w ++ advance_calls need_header n cap l line_link
         ++ [draw_call n cap l line_link]
  /\ same_but_header_height (page_layout w) (page_layout (snd r))
  /\ date_text (snd r) = date_text w.
Proof.
  cbv zeta. unfold output_line. rewrite !bind_run. unfold ret.
  cbn [fst snd].
  destruct (check_next_column_run need_header cap l line_link w)
    as (Hl & Hc & Hp & Hd).
  set (r1 := check_next_column need_header cap l line_link w) in *.
  destruct (draw_line_to_page_run (column_idx (fst r1))
              (column_y_pos (fst r1)
               + rect_height (logical_rect line_link))%cint
              (pango_line line_link) (snd r1))
    as (Hc2 & _ & Hp2 & Hd2 & _).
  repeat split.
  - rewrite Hl. reflexivity.
  - rewrite Hc2, Hc, Hl, <- app_assoc. reflexivity.
  - rewrite Hp2. exact Hp.
  - congruence.
Qed.

Lemma output_lines_run need_header cap pango_lines : forall l w,
  let n := num_columns (page_layout w) in
  let r := output_lines need_header cap pango_lines l w in
  fst r = loop_locals n cap pango_lines l
  /\ calls (snd r) = calls w ++ loop_calls need_header n cap pango_lines l
  /\ same_but_header_height (page_layout w) (page_layout (snd r))
  /\ date_text (snd r) = date_text w.
Proof.
  induction pango_lines as [|line_link next IH]; intros l w; simpl.
  - rewrite app_nil_r. auto using same_but_header_height_refl.
  - unfold bind.
    pose proof (output_line_run need_header cap l line_link w) as H.
    destruct (output_line need_header cap l line_link w) as [l1 w1].
    simpl in H. destruct H as (Hl & Hc & Hp & Hd).
    specialize (IH l1 w1). simpl in IH.
    destruct IH as (IHl & IHc & IHp & IHd).
    rewrite (same_but_header_height_num_columns _ _ Hp) in IHl, IHc.
    subst l1. repeat split.
    + exact IHl.
    + rewrite IHc, Hc. repeat rewrite <- app_assoc. reflexivity.
    + eauto using same_but_header_height_trans.
    + congruence.
Qed.

Lemma pango_column_height_same p q :
  same_but_header_height p q ->
  pango_column_height_of q = pango_column_height_of p.
Proof.
  intros H. unfold pango_column_height_of.
  pose proof (f_equal column_height H) as Hh.
  pose proof (f_equal pt_to_pixel H) as Ht.
  simpl in Hh, Ht. rewrite Hh, Ht. reflexivity.
Qed.

Lemma output_pages_run pango_lines need_header w :
  let p := page_layout w in
  let r := output_pages pango_lines need_header w in
  fst r = page_idx (loop_locals (num_columns p) (pango_column_height_of p)
                      pango_lines initial_locals)
  /\ calls (snd r) = calls w ++ run_calls need_header p pango_lines
  /\ same_but_header_height p (page_layout (snd r))
  /\ date_text (snd r) = date_text w.
Proof.
  cbv zeta. unfold output_pages, run_calls, first_page_calls.
  rewrite bind_run. change (layout w) with (page_layout w, w).
  cbn [fst snd]. fold initial_locals. change (page_idx initial_locals) with 1.
  rewrite bind_run.
  destruct (start_page_run 1 w) as (Hc1 & _ & Hp1 & Hd1 & _).
  set (w1 := snd (start_page 1 w)) in *.
  rewrite bind_run.
  destruct (optional_header_run need_header 1 w1) as (Hc2 & Hp2 & Hd2).
  set (w2 := snd (_ w1)) in *.
  rewrite bind_run.
  destruct (output_lines_run need_header
              (pango_column_height_of (page_layout w)) pango_lines
              initial_locals w2) as (Hl3 & Hc3 & Hp3 & Hd3).
  set (r3 := output_lines _ _ _ _ w2) in *.
  rewrite bind_run. unfold ret. cbn [fst snd].
  destruct (eject_page_run (snd r3)) as (Hc4 & _ & Hp4 & Hd4 & _).
  rewrite Hp1 in Hp2.
  rewrite (same_but_header_height_num_columns _ _ Hp2) in Hl3, Hc3.
  repeat split.
  - congruence.
  - rewrite Hc4, Hc3, Hc2, Hc1. repeat rewrite <- app_assoc. reflexivity.
  - rewrite Hp4. eauto using same_but_header_height_trans.
  - congruence.
Qed.

(* =============================================================== *)
(** ** Pages and columns of a run *)

Lemma advance_calls_cases need_header n cap l line_link :
  (move_to_next_column cap l line_link = false
   /\ advance_calls need_header n cap l line_link = []
   /\ column_for_line n cap l line_link = l)
  \/ (move_to_next_column cap l line_link = true
      /\ (column_idx l + 1)%cint <> n
      /\ advance_calls need_header n cap l line_link
         = [Call_eject_column (column_idx l + 1)%cint]
      /\ column_for_line n cap l line_link
         = {| column_idx := (column_idx l + 1)%cint; column_y_pos := 0;
              page_idx := page_idx l;
              prev_line_link := prev_line_link l |})
  \/ (move_to_next_column cap l line_link = true
      /\ (column_idx l + 1)%cint = n
      /\ advance_calls need_header n cap l line_link
         = Call_eject_page :: Call_start_page (page_idx l + 1)%cint
             :: (if need_header
                 then [Call_draw_page_header_line_to_page false
                         (page_idx l + 1)%cint]
                 else [])
      /\ column_for_line n cap l line_link
         = {| column_idx := 0; column_y_pos := 0;
              page_idx := (page_idx l + 1)%cint;
              prev_line_link := prev_line_link l |}).
Proof.
  unfold advance_calls, column_for_line.
  destruct (move_to_next_column cap l line_link); [right | left; auto].
  destruct (Z.eqb_spec (column_idx l + 1)%cint n); [right | left]; auto.
Qed.

Lemma loop_calls_balanced need_header n cap pango_lines : forall l,
  balanced true (loop_calls need_header n cap pango_lines l
                   ++ [Call_eject_page]) = true.
Proof.
  induction pango_lines as [|line_link next IH]; intros l; simpl.
  - reflexivity.
  - rewrite <- app_assoc.
    destruct (advance_calls_cases need_header n cap l line_link)
      as [(_ & -> & _) | [(_ & _ & -> & _) | (_ & _ & -> & _)]];
      simpl; try apply IH.
    destruct need_header; simpl; apply IH.
Qed.

Lemma started_pages_app a b :
  started_pages (a ++ b) = started_pages a ++ started_pages b.
Proof.
  induction a as [|c a IH]; simpl; [reflexivity|].
  destruct c; simpl; rewrite IH; reflexivity.
Qed.

(** The pages a loop starts are numbered on from the page it began in,
    as long as the page counter stays an [int]. *)
Lemma loop_calls_started_pages need_header n cap pango_lines : forall l,
  CInt.INT_MIN <= page_idx l ->
  page_idx l + Z.of_nat (List.length pango_lines) <= CInt.INT_MAX ->
  exists k : nat,
    (k <= List.length pango_lines)%nat
    /\ started_pages (loop_calls need_header n cap pango_lines l)
       = map (fun i => page_idx l + Z.of_nat i) (seq 1 k)
    /\ page_idx (loop_locals n cap pango_lines l)
       = page_idx l + Z.of_nat k.
Proof.
  induction pango_lines as [|line_link next IH]; intros l Hlo Hhi.
  - exists 0%nat. simpl. repeat split; lia.
  - cbn [loop_calls loop_locals]. cbn [List.length] in Hhi.
    rewrite started_pages_app. unfold draw_call at 1.
    cbn [started_pages].
    set (l1 := placed_locals n cap l line_link).
    assert (Hp1 : page_idx l1
                  = page_idx (column_for_line n cap l line_link))
      by reflexivity.
    destruct (advance_calls_cases need_header n cap l line_link)
      as [(_ & -> & E) | [(_ & _ & -> & E) | (_ & _ & -> & E)]];
      rewrite E in Hp1; cbn [page_idx] in Hp1.
    + destruct (IH l1) as (k & Hk & Hs & Hi); try lia.
      exists k. rewrite Hs, Hi, Hp1. simpl. repeat split; auto; lia.
    + destruct (IH l1) as (k & Hk & Hs & Hi); try lia.
      exists k. rewrite Hs, Hi, Hp1. simpl. repeat split; auto; lia.
    + assert (Hadd : (page_idx l + 1)%cint = page_idx l + 1).
      { apply CInt.add_small. unfold CInt.in_range. lia. }
      rewrite Hadd in *.
      destruct (IH l1) as (k & Hk & Hs & Hi); try lia.
      exists (S k). rewrite Hi, Hp1.
      repeat split; try (cbn [List.length]; lia).
      assert (Hsp : started_pages
                      (Call_eject_page :: Call_start_page (page_idx l + 1)
                         :: (if need_header
                             then [Call_draw_page_header_line_to_page false
                                     (page_idx l + 1)]
                             else []))
                    = [page_idx l + 1])
        by (destruct need_header; reflexivity).
      rewrite Hsp, Hs, Hp1. cbn [app seq map].
      f_equal; try lia.
      rewrite <- (seq_shift k 1), map_map.
      apply map_ext. intros i. lia.
Qed.

(** Columns are left one at a time and never past the last one. *)
Lemma loop_calls_columns_bounded need_header n cap pango_lines : forall l,
  0 <= column_idx l < n ->
  column_idx l + Z.of_nat (List.length pango_lines) <= CInt.INT_MAX ->
  columns_bounded (n - 1) (column_idx l)
    (loop_calls need_header n cap pango_lines l ++ [Call_eject_page])
  = true.
Proof.
  induction pango_lines as [|line_link next IH]; intros l Hc Hhi.
  - reflexivity.
  - cbn [loop_calls]. cbn [List.length] in Hhi.
    set (l1 := placed_locals n cap l line_link).
    assert (Hc1 : column_idx l1
                  = column_idx (column_for_line n cap l line_link))
      by reflexivity.
    assert (Hadd : (column_idx l + 1)%cint = column_idx l + 1).
    { apply CInt.add_small. unfold CInt.in_range, CInt.INT_MIN.
      unfold CInt.INT_MAX in *. lia. }
    rewrite <- app_assoc.
    destruct (advance_calls_cases need_header n cap l line_link)
      as [(_ & -> & E) | [(_ & Hne & -> & E) | (_ & _ & -> & E)]];
      rewrite E in Hc1; cbn [column_idx] in Hc1.
    + simpl. rewrite <- Hc1. apply IH; rewrite Hc1; lia.
    + rewrite Hadd in *. simpl.
      replace (column_idx l + 1 <=? n - 1) with true
        by (symmetry; apply Z.leb_le; lia).
      simpl. rewrite <- Hc1. apply IH; rewrite Hc1; lia.
    + assert (H0 : columns_bounded (n - 1) 0
                     (draw_call n cap l line_link
                        :: loop_calls need_header n cap next l1
                        ++ [Call_eject_page]) = true).
      { simpl. rewrite <- Hc1. apply IH; rewrite Hc1; lia. }
      destruct need_header; simpl; exact H0.
Qed.

Lemma run_calls_started_pages need_header p pango_lines :
  Z.of_nat (List.length pango_lines) < CInt.INT_MAX ->
  exists k : nat,
    started_pages (run_calls need_header p pango_lines)
    = map Z.of_nat (seq 1 (S k))
    /\ page_idx (loop_locals (num_columns p) (pango_column_height_of p)
                   pango_lines initial_locals)
       = Z.of_nat (S k).
Proof.
  intros Hlen.
  destruct (loop_calls_started_pages need_header (num_columns p)
              (pango_column_height_of p) pango_lines initial_locals)
    as (k & _ & Hs & Hi).
  { unfold CInt.INT_MIN. simpl. lia. }
  { unfold CInt.INT_MAX in *. cbn [page_idx initial_locals]. lia. }
  exists k. split.
  - unfold run_calls. rewrite !started_pages_app, Hs.
    replace (started_pages (first_page_calls need_header)) with [1]
      by (destruct need_header; reflexivity).
    cbn [started_pages app seq map page_idx initial_locals].
    rewrite app_nil_r. f_equal.
    rewrite <- (seq_shift k 1), !map_map.
    apply map_ext. intros i. lia.
  - rewrite Hi. simpl page_idx. lia.
Qed.

(** C3: the calls of a run of [output_pages] open and close pages in
    turn, with no page left open (also when there is no line at all);
    the pages started are as many as the page count returned, and are
    numbered 1, 2, 3, ... without a gap; and with at least one column,
    no page sees more than [num_columns - 1] calls of [eject_column].
    The list of lines is shorter than [INT_MAX], so that the page
    counter stays an [int]. *)
Theorem output_pages_balanced pango_lines need_header w :
  Z.of_nat (List.length pango_lines) < CInt.INT_MAX ->
  let n := num_columns (page_layout w) in
  let r := output_pages pango_lines need_header w in
  exists cs,
    calls (snd r) = calls w ++ cs
    /\ balanced false cs = true
    /\ Z.of_nat (List.length (started_pages cs)) = fst r
    /\ started_pages cs
       = map Z.of_nat (seq 1 (List.length (started_pages cs)))
    /\ (1 <= n -> columns_bounded (n - 1) 0 cs = true).
Proof.
  intros Hlen n r.
  destruct (output_pages_run pango_lines need_header w)
    as (Hr & Hc & _ & _).
  fold r in Hr, Hc.
  exists (run_calls need_header (page_layout w) pango_lines).
  destruct (run_calls_started_pages need_header (page_layout w)
              pango_lines Hlen) as (k & Hs & Hi).
  split; [exact Hc|]. split; [|split; [|split]].
  - unfold run_calls, first_page_calls. cbn [app balanced negb andb].
    destruct need_header; cbn [app balanced negb andb];
      apply loop_calls_balanced.
  - rewrite Hr, Hi, Hs, length_map, length_seq. reflexivity.
  - rewrite Hs at 1. rewrite Hs, length_map, length_seq. reflexivity.
  - intros Hn. unfold run_calls, first_page_calls.
    cbn [app columns_bounded].
    assert (H0 : columns_bounded (n - 1) 0
                   (loop_calls need_header n
                      (pango_column_height_of (page_layout w))
                      pango_lines initial_locals ++ [Call_eject_page])
                 = true).
    { apply (loop_calls_columns_bounded need_header n
               (pango_column_height_of (page_layout w)) pango_lines
               initial_locals); unfold CInt.INT_MAX in *;
        cbn [column_idx initial_locals]; lia. }
    destruct need_header; cbn [app columns_bounded]; exact H0.
Qed.

(* =============================================================== *)
(** ** The turn of the loop that places a given line *)

Lemma loop_locals_app n cap pre post : forall l,
  loop_locals n cap (pre ++ post) l
  = loop_locals n cap post (loop_locals n cap pre l).
Proof. induction pre as [|a pre IH]; intros l; simpl; auto. Qed.

Lemma loop_calls_app need_header n cap pre post : forall l,
  loop_calls need_header n cap (pre ++ post) l
  = loop_calls need_header n cap pre l
      ++ loop_calls need_header n cap post (loop_locals n cap pre l).
Proof.
  induction pre as [|a pre IH]; intros l; simpl; [reflexivity|].
  rewrite IH, <- app_assoc. reflexivity.
Qed.

(** The calls of a run, cut at the turn of the loop that places
    [line_link]. *)
Lemma run_calls_split need_header p pre line_link post :
  let n := num_columns p in
  let cap := pango_column_height_of p in
  let l := loop_locals n cap pre initial_locals in
  run_calls need_header p (pre ++ line_link :: post)
  = (first_page_calls need_header
       ++ loop_calls need_header n cap pre initial_locals)
      ++ advance_calls need_header n cap l line_link
      ++ draw_call n cap l line_link
      :: (loop_calls need_header n cap post
            (placed_locals n cap l line_link)
          ++ [Call_eject_page]).
Proof.
  cbv zeta. unfold run_calls. rewrite loop_calls_app.
  cbn [loop_calls]. repeat rewrite <- app_assoc. reflexivity.
Qed.

Lemma drawn_lines_app a b :
  drawn_lines (a ++ b) = drawn_lines a ++ drawn_lines b.
Proof.
  induction a as [|c a IH]; simpl; [reflexivity|].
  destruct c; simpl; rewrite IH; reflexivity.
Qed.

Lemma drawn_lines_advance need_header n cap l line_link :
  drawn_lines (advance_calls need_header n cap l line_link) = [].
Proof.
  destruct (advance_calls_cases need_header n cap l line_link)
    as [(_ & -> & _) | [(_ & _ & -> & _) | (_ & _ & -> & _)]];
    try reflexivity.
  destruct need_header; reflexivity.
Qed.

Lemma drawn_lines_first_page need_header :
  drawn_lines (first_page_calls need_header) = [].
Proof. destruct need_header; reflexivity. Qed.

Lemma drawn_lines_loop need_header n cap pango_lines : forall l,
  drawn_lines (loop_calls need_header n cap pango_lines l)
  = map pango_line pango_lines.
Proof.
  induction pango_lines as [|a next IH]; intros l; simpl; [reflexivity|].
  rewrite drawn_lines_app, drawn_lines_advance. simpl.
  rewrite IH. reflexivity.
Qed.

(** The line the loop holds in [prev_line_link] is the one placed
    last. *)
Lemma prev_line_link_loop n cap pango_lines : forall l,
  prev_line_link (loop_locals n cap pango_lines l)
  = match rev pango_lines with
    | prev :: _ => Some prev
    | [] => prev_line_link l
    end.
Proof.
  induction pango_lines as [|a next IH]; intros l; simpl; [reflexivity|].
  rewrite IH. simpl.
  destruct (rev next) as [|b r] eqn:E; reflexivity.
Qed.

Lemma advance_calls_nil need_header n cap l line_link :
  advance_calls need_header n cap l line_link = []
  <-> move_to_next_column cap l line_link = false.
Proof.
  destruct (advance_calls_cases need_header n cap l line_link)
    as [(Hm & -> & _) | [(Hm & _ & -> & _) | (Hm & _ & -> & _)]];
    rewrite Hm; split; intros H; congruence.
Qed.

(** C1: in a run of [output_pages] on [pre ++ line_link :: post], the
    turn of the loop that places [line_link] moves to a new column
    exactly when the cursor plus the height of the line reaches the
    column capacity, which is [column_height * pt_to_pixel * PANGO_SCALE]
    as an [int], or the line placed just before carries a form feed;
    and it then moves once: either one [eject_column] for the next
    column, or one [eject_page] and [start_page] for the next page. *)
Theorem column_advance_rule pre line_link post need_header w :
  let p := page_layout w in
  let n := num_columns p in
  let cap :=
    CDouble.to_int (CDouble.of_int (column_height p) * pt_to_pixel p
                    * CDouble.of_int PANGO_SCALE)%float in
  let l := loop_locals n cap pre initial_locals in
  let would_overflow :=
    cap <= (column_y_pos l + rect_height (logical_rect line_link))%cint in
  let forced_break :=
    match rev pre with
    | prev :: _ => formfeed prev <> 0
    | [] => False
    end in
  exists before adv column_idx' column_pos after,
    calls (snd (output_pages (pre ++ line_link :: post) need_header w))
    = calls w ++ before ++ adv
        ++ Call_draw_line_to_page column_idx' column_pos
             (pango_line line_link) :: after
    /\ drawn_lines before = map pango_line pre
    /\ (would_overflow \/ forced_break <-> adv <> [])
    /\ ((adv = [] /\ column_idx' = column_idx l)
        \/ (adv = [Call_eject_column (column_idx l + 1)%cint]
            /\ (column_idx l + 1)%cint <> n
            /\ column_idx' = (column_idx l + 1)%cint)
        \/ (adv = Call_eject_page :: Call_start_page (page_idx l + 1)%cint
                    :: (if need_header
                        then [Call_draw_page_header_line_to_page false
                                (page_idx l + 1)%cint]
                        else [])
            /\ (column_idx l + 1)%cint = n
            /\ column_idx' = 0)).
Proof.
  intros p n cap l would_overflow forced_break.
  destruct (output_pages_run (pre ++ line_link :: post) need_header w)
    as (_ & Hc & _ & _).
  fold p in Hc. rewrite (run_calls_split need_header p) in Hc.
  change (pango_column_height_of p) with cap in Hc.
  fold n in Hc. fold l in Hc.
  exists (first_page_calls need_header
            ++ loop_calls need_header n cap pre initial_locals),
    (advance_calls need_header n cap l line_link),
    (column_idx (placed_locals n cap l line_link)),
    (column_y_pos (placed_locals n cap l line_link)),
    (loop_calls need_header n cap post (placed_locals n cap l line_link)
       ++ [Call_eject_page]).
  split; [exact Hc|]. split.
  { rewrite drawn_lines_app, drawn_lines_first_page, drawn_lines_loop.
    reflexivity. }
  assert (Hmove : would_overflow \/ forced_break
                  <-> move_to_next_column cap l line_link = true).
  { unfold move_to_next_column, would_overflow, forced_break.
    rewrite orb_true_iff, Z.leb_le.
    pose proof (prev_line_link_loop n cap pre initial_locals) as Hprev.
    fold l in Hprev. rewrite Hprev.
    destruct (rev pre) as [|prev r]; simpl.
    - intuition congruence.
    - rewrite negb_true_iff, Z.eqb_neq. reflexivity. }
  split.
  { rewrite Hmove.
    pose proof (advance_calls_nil need_header n cap l line_link) as Hn.
    destruct (move_to_next_column cap l line_link);
      split; intros H; try congruence.
    - intros E. apply Hn in E. congruence.
    - exfalso. apply H. apply Hn. reflexivity. }
  unfold placed_locals. cbn [column_idx].
  destruct (advance_calls_cases need_header n cap l line_link)
    as [(_ & -> & ->) | [(_ & Hne & -> & ->) | (_ & He & -> & ->)]];
    cbn [column_idx]; auto.
Qed.

(** C9: [output_pages] has a result on every list of lines and places
    every line once and in order, whatever its height; the turn that
    places [line_link] either opens a new column for it, where the
    cursor is 0, or finds that cursor plus height stays below the
    column capacity.  The sum is the [int] the code computes; it is the
    mathematical sum whenever that is an [int]. *)
Theorem every_line_placed_whole pre line_link post need_header w :
  let p := page_layout w in
  let n := num_columns p in
  let cap := pango_column_height_of p in
  let l := loop_locals n cap pre initial_locals in
  let h := rect_height (logical_rect line_link) in
  exists before adv c column_pos after,
    calls (snd (output_pages (pre ++ line_link :: post) need_header w))
    = calls w ++ before ++ adv
        ++ Call_draw_line_to_page c column_pos (pango_line line_link)
        :: after
    /\ drawn_lines before = map pango_line pre
    /\ drawn_lines adv = []
    /\ drawn_lines after = map pango_line post
    /\ ((adv <> [] /\ column_pos = (0 + h)%cint)
        \/ (adv = []
            /\ column_pos = (column_y_pos l + h)%cint
            /\ (column_y_pos l + h)%cint < cap
            /\ (CInt.in_range (column_y_pos l + h)
                -> column_y_pos l + h < cap))).
Proof.
  intros p n cap l h.
  destruct (output_pages_run (pre ++ line_link :: post) need_header w)
    as (_ & Hc & _ & _).
  fold p in Hc. rewrite (run_calls_split need_header p) in Hc.
  fold cap in Hc. fold n in Hc. fold l in Hc.
  exists (first_page_calls need_header
            ++ loop_calls need_header n cap pre initial_locals),
    (advance_calls need_header n cap l line_link),
    (column_idx (placed_locals n cap l line_link)),
    (column_y_pos (placed_locals n cap l line_link)),
    (loop_calls need_header n cap post (placed_locals n cap l line_link)
       ++ [Call_eject_page]).
  split; [exact Hc|].
  split.
  { rewrite drawn_lines_app, drawn_lines_first_page, drawn_lines_loop.
    reflexivity. }
  split; [apply drawn_lines_advance|].
  split.
  { rewrite drawn_lines_app, drawn_lines_loop. simpl.
    apply app_nil_r. }
  unfold placed_locals. cbn [column_y_pos]. fold h.
  destruct (advance_calls_cases need_header n cap l line_link)
    as [(Hm & -> & ->) | [(_ & _ & -> & ->) | (_ & _ & -> & ->)]];
    cbn [column_y_pos].
  - right. unfold move_to_next_column in Hm.
    apply orb_false_iff in Hm. destruct Hm as (Hm & _).
    apply Z.leb_gt in Hm. fold h in Hm.
    repeat split; auto.
    intros Hr. rewrite (CInt.add_small _ _ Hr) in Hm. exact Hm.
  - left. split; [discriminate|reflexivity].
  - left. split; [discriminate|reflexivity].
Qed.

(* =============================================================== *)
(** ** What reaches [ps_pages_string] *)

Lemma eject_column_ps c w :
  exists chunks,
    ps_pages_string (snd (eject_column c w)) = ps_pages_string w ++ chunks.
Proof.
  run. destruct (do_separation_line (page_layout w)); simpl.
  - eexists. reflexivity.
  - exists []. symmetry. apply app_nil_r.
Qed.

Lemma draw_page_header_ps page w :
  exists chunks,
    ps_pages_string (snd (draw_page_header_line_to_page false page w))
    = ps_pages_string w ++ chunks.
Proof. run. repeat rewrite <- app_assoc. eexists. reflexivity. Qed.

Lemma optional_header_ps (need_header : bool) page w :
  let hdr :=
    if need_header
    then _ <- draw_page_header_line_to_page false page ;; ret tt
    else ret tt in
  exists chunks, ps_pages_string (snd (hdr w)) = ps_pages_string w ++ chunks.
Proof.
  destruct need_header; cbv zeta.
  - rewrite bind_run. unfold ret. cbn [fst snd].
    apply draw_page_header_ps.
  - exists []. unfold ret. cbn [snd]. symmetry. apply app_nil_r.
Qed.

Lemma check_next_column_ps need_header cap l line_link w :
  exists chunks,
    ps_pages_string (snd (check_next_column need_header cap l line_link w))
    = ps_pages_string w ++ chunks.
Proof.
  unfold check_next_column.
  destruct (move_to_next_column cap l line_link).
  - rewrite bind_run. change (layout w) with (page_layout w, w).
    cbn [fst snd].
    destruct (_ =? num_columns (page_layout w)).
    + rewrite !bind_run.
      destruct (eject_page_run w) as (_ & Hs1 & _).
      set (w1 := snd (eject_page w)) in *.
      destruct (start_page_run (page_idx l + 1)%cint w1) as (_ & Hs2 & _).
      set (w2 := snd (start_page _ w1)) in *.
      destruct (optional_header_ps need_header (page_idx l + 1)%cint w2)
        as (chunks & Hs3).
      set (w3 := snd (_ w2)) in *.
      unfold ret. cbn [fst snd].
      rewrite Hs3, Hs2, Hs1. repeat rewrite <- app_assoc.
      eexists. reflexivity.
    + rewrite bind_run. unfold ret. cbn [fst snd].
      apply eject_column_ps.
  - exists []. unfold ret. cbn [snd]. symmetry. apply app_nil_r.
Qed.

Lemma line_y_pos_same p q column_pos :
  same_but_header_height p q ->
  line_y_pos q column_pos = line_y_pos p column_pos.
Proof.
  intros H. unfold line_y_pos.
  pose proof (f_equal page_height H) as H1.
  pose proof (f_equal top_margin H) as H2.
  pose proof (f_equal header_sep H) as H3.
  pose proof (f_equal pixel_to_pt H) as H4.
  simpl in H1, H2, H3, H4. rewrite H1, H2, H3, H4. reflexivity.
Qed.

Lemma line_x_pos_same p q column_idx line :
  same_but_header_height p q ->
  line_x_pos q column_idx line = line_x_pos p column_idx line.
Proof.
  intros H. unfold line_x_pos, is_rtl.
  pose proof (f_equal left_margin H) as H1.
  pose proof (f_equal column_width H) as H2.
  pose proof (f_equal gutter_width H) as H3.
  pose proof (f_equal num_columns H) as H4.
  pose proof (f_equal pango_dir H) as H5.
  pose proof (f_equal pt_to_pixel H) as H6.
  simpl in H1, H2, H3, H4, H5, H6.
  rewrite H1, H2, H3, H4, H5, H6. reflexivity.
Qed.

(** What one turn of the loop appends for the line it places. *)
Lemma output_line_ps need_header cap l line_link w :
  let p := page_layout w in
  let l' := placed_locals (num_columns p) cap l line_link in
  exists chunks,
    ps_pages_string (snd (output_line need_header cap l line_link w))
    = ps_pages_string w ++ chunks
        ++ [PsLine (line_x_pos p (column_idx l') (pango_line line_link))
              (line_y_pos p (column_y_pos l')) (pango_line line_link)].
Proof.
  cbv zeta. unfold output_line. rewrite !bind_run. unfold ret.
  cbn [fst snd].
  destruct (check_next_column_run need_header cap l line_link w)
    as (Hl & _ & Hp & _).
  destruct (check_next_column_ps need_header cap l line_link w)
    as (chunks & Hs).
  set (r1 := check_next_column need_header cap l line_link w) in *.
  destruct (draw_line_to_page_run (column_idx (fst r1))
              (column_y_pos (fst r1)
               + rect_height (logical_rect line_link))%cint
              (pango_line line_link) (snd r1))
    as (_ & Hs2 & _).
  exists chunks. rewrite Hs2, Hs, <- app_assoc.
  rewrite (line_x_pos_same _ _ _ _ Hp), (line_y_pos_same _ _ _ Hp), Hl.
  reflexivity.
Qed.

(** C7: the offset a turn of the loop hands to [draw_line_to_page] is
    the cursor of the column the line goes to (the cursor so far, or 0
    in a column just opened) plus the height of the line, and becomes
    the cursor; the line is written at
    [page_height - top_margin - header_sep] less that offset in points,
    that is its whole pixels, [column_pos / PANGO_SCALE], times
    [pixel_to_pt]. *)
Theorem line_offset_is_cumulative need_header cap l line_link w :
  let p := page_layout w in
  let r := output_line need_header cap l line_link w in
  let h := rect_height (logical_rect line_link) in
  let cursor :=
    if move_to_next_column cap l line_link then 0 else column_y_pos l in
  exists cs chunks c x_pos,
    calls (snd r)
    = calls w ++ cs
        ++ [Call_draw_line_to_page c (cursor + h)%cint
              (pango_line line_link)]
    /\ drawn_lines cs = []
    /\ column_y_pos (fst r) = (cursor + h)%cint
    /\ ps_pages_string (snd r)
       = ps_pages_string w ++ chunks
           ++ [PsLine x_pos
                 (CDouble.of_int
                    (page_height p - top_margin p - header_sep p)%cint
                  - CDouble.of_int ((cursor + h) / PANGO_SCALE)%cint
                    * pixel_to_pt p)%float
                 (pango_line line_link)].
Proof.
  intros p r h cursor.
  destruct (output_line_run need_header cap l line_link w)
    as (Hl & Hc & _ & _).
  destruct (output_line_ps need_header cap l line_link w)
    as (chunks & Hs).
  fold r in Hl, Hc, Hs. fold p in Hl, Hc, Hs.
  assert (Hy : column_y_pos (placed_locals (num_columns p) cap l line_link)
               = (cursor + h)%cint).
  { unfold placed_locals, column_for_line, cursor. cbn [column_y_pos].
    destruct (move_to_next_column cap l line_link);
      [destruct (_ =? num_columns p)|]; reflexivity. }
  exists (advance_calls need_header (num_columns p) cap l line_link),
    chunks,
    (column_idx (placed_locals (num_columns p) cap l line_link)),
    (line_x_pos p
       (column_idx (placed_locals (num_columns p) cap l line_link))
       (pango_line line_link)).
  split; [|split; [|split]].
  - rewrite Hc. unfold draw_call. rewrite Hy. reflexivity.
  - apply drawn_lines_advance.
  - rewrite Hl. exact Hy.
  - rewrite Hs, Hy. reflexivity.
Qed.

(* =============================================================== *)
(** ** Form feeds *)

Lemma split_paragraph_loop_spec para n lines : forall i line_list,
  split_paragraph_loop para n i lines line_list
  = rev (paragraph_lines para n i lines) ++ line_list.
Proof.
  induction lines as [|line rest IH]; intros i line_list; simpl.
  - reflexivity.
  - rewrite IH, <- app_assoc. reflexivity.
Qed.

Lemma split_paragraphs_loop_spec par_list : forall line_list,
  split_paragraphs_loop par_list line_list
  = rev (flat_map
           (fun para =>
              paragraph_lines para
                (pango_layout_get_line_count (para_layout para)) 0
                (para_layout para))
           par_list)
      ++ line_list.
Proof.
  induction par_list as [|para next IH]; intros line_list; simpl.
  - reflexivity.
  - rewrite IH, split_paragraph_loop_spec, rev_app_distr, <- app_assoc.
    reflexivity.
Qed.

Lemma split_paragraphs_into_lines_spec paragraphs :
  split_paragraphs_into_lines paragraphs
  = flat_map
      (fun para =>
         paragraph_lines para
           (pango_layout_get_line_count (para_layout para)) 0
           (para_layout para))
      paragraphs.
Proof.
  unfold split_paragraphs_into_lines.
  rewrite split_paragraphs_loop_spec, app_nil_r. apply rev_involutive.
Qed.

Lemma paragraph_lines_pango_line para n lines : forall i,
  map pango_line (paragraph_lines para n i lines) = lines.
Proof.
  induction lines as [|line rest IH]; intros i; simpl.
  - reflexivity.
  - rewrite IH. reflexivity.
Qed.

Lemma paragraph_lines_nth para n lines : forall i k line_link,
  nth_error (paragraph_lines para n i lines) k = Some line_link ->
  formfeed line_link
  = if negb (para_formfeed para =? 0) && (i + Z.of_nat k =? n - 1)
    then 1 else 0.
Proof.
  induction lines as [|line rest IH]; intros i k line_link H.
  - destruct k; discriminate.
  - destruct k as [|k]; simpl in H.
    + injection H as <-. simpl. rewrite Z.add_0_r. reflexivity.
    + rewrite (IH _ _ _ H).
      replace (i + Z.of_nat (S k)) with (i + 1 + Z.of_nat k) by lia.
      reflexivity.
Qed.

Lemma move_to_next_column_forced cap l line_link prev :
  prev_line_link l = Some prev -> formfeed prev <> 0 ->
  move_to_next_column cap l line_link = true.
Proof.
  intros Hp Hf. unfold move_to_next_column. rewrite Hp.
  apply orb_true_iff. right. apply negb_true_iff, Z.eqb_neq. exact Hf.
Qed.

(** The locals after a line depend on the line through its height
    only. *)
Lemma placed_locals_same_height n cap l a a' :
  logical_rect a' = logical_rect a ->
  column_for_line n cap l a' = column_for_line n cap l a
  /\ forall need_header,
       advance_calls need_header n cap l a'
       = advance_calls need_header n cap l a.
Proof.
  intros H. unfold column_for_line, advance_calls, move_to_next_column.
  rewrite H. auto.
Qed.

(** C2: [split_paragraphs_into_lines] sets [formfeed] on a line exactly
    when its paragraph has the flag and the line is the last of the
    paragraph; and in [output_pages] a line [a] with the flag is placed
    first, by calls that depend neither on its flag nor on what
    follows, and the turn for the next line [b] then moves to a new
    column or page, whatever room the column has left. *)
Theorem formfeed_breaks_after_last_line :
  (forall ps1 para ps2,
     exists para_lines,
       split_paragraphs_into_lines (ps1 ++ para :: ps2)
       = split_paragraphs_into_lines ps1 ++ para_lines
           ++ split_paragraphs_into_lines ps2
       /\ map pango_line para_lines = para_layout para
       /\ forall k line_link,
            nth_error para_lines k = Some line_link ->
            (formfeed line_link <> 0
             <-> para_formfeed para <> 0
                 /\ S k = List.length (para_layout para)))
  /\ (forall pre a b post need_header w,
        formfeed a <> 0 ->
        exists before c column_pos adv c' column_pos' after,
          calls (snd (output_pages (pre ++ a :: b :: post) need_header w))
          = calls w ++ before
              ++ Call_draw_line_to_page c column_pos (pango_line a)
              :: adv
              ++ Call_draw_line_to_page c' column_pos' (pango_line b)
              :: after
          /\ drawn_lines before = map pango_line pre
          /\ drawn_lines adv = []
          /\ (adv = [Call_eject_column (c + 1)%cint]
              \/ exists page hdr,
                   adv = Call_eject_page :: Call_start_page page :: hdr)
          /\ forall a' post',
               pango_line a' = pango_line a ->
               logical_rect a' = logical_rect a ->
               exists after',
                 calls (snd (output_pages (pre ++ a' :: post')
                               need_header w))
                 = calls w ++ before
                     ++ Call_draw_line_to_page c column_pos (pango_line a)
                     :: after').
Proof.
  split.
  - intros ps1 para ps2.
    exists (paragraph_lines para
              (pango_layout_get_line_count (para_layout para)) 0
              (para_layout para)).
    split; [|split].
    + rewrite !split_paragraphs_into_lines_spec, flat_map_app.
      reflexivity.
    + apply paragraph_lines_pango_line.
    + intros k line_link H.
      pose proof (nth_error_Some
                    (paragraph_lines para
                       (pango_layout_get_line_count (para_layout para)) 0
                       (para_layout para)) k) as Hk.
      rewrite H in Hk.
      rewrite <- (length_map pango_line), paragraph_lines_pango_line in Hk.
      rewrite (paragraph_lines_nth _ _ _ _ _ _ H).
      unfold pango_layout_get_line_count.
      destruct (Z.eqb_spec (para_formfeed para) 0) as [E|E];
        destruct (Z.eqb_spec (0 + Z.of_nat k)
                    (Z.of_nat (List.length (para_layout para)) - 1))
          as [E'|E'];
        simpl; split; intros G; try (destruct G as (G1 & G2));
          try split; try congruence; try lia.
  - intros pre a b post need_header w Hff.
    set (p := page_layout w). set (n := num_columns p).
    set (cap := pango_column_height_of p).
    set (l := loop_locals n cap pre initial_locals).
    set (la := placed_locals n cap l a).
    destruct (output_pages_run (pre ++ a :: b :: post) need_header w)
      as (_ & Hc & _ & _).
    fold p in Hc. rewrite (run_calls_split need_header p) in Hc.
    fold cap in Hc. fold n in Hc. fold l in Hc. fold la in Hc.
    cbn [loop_calls] in Hc.
    exists (first_page_calls need_header
              ++ loop_calls need_header n cap pre initial_locals
              ++ advance_calls need_header n cap l a),
      (column_idx la), (column_y_pos la),
      (advance_calls need_header n cap la b),
      (column_idx (placed_locals n cap la b)),
      (column_y_pos (placed_locals n cap la b)),
      (loop_calls need_header n cap post (placed_locals n cap la b)
         ++ [Call_eject_page]).
    split; [|split; [|split; [|split]]].
    + rewrite Hc. unfold draw_call. fold la.
      repeat rewrite <- app_assoc. reflexivity.
    + rewrite !drawn_lines_app, drawn_lines_first_page, drawn_lines_loop,
        drawn_lines_advance, app_nil_r.
      reflexivity.
    + apply drawn_lines_advance.
    + assert (Hm : move_to_next_column cap la b = true)
        by (apply (move_to_next_column_forced cap la b a);
            [reflexivity | exact Hff]).
      destruct (advance_calls_cases need_header n cap la b)
        as [(Hm' & _) | [(_ & _ & -> & _) | (_ & _ & -> & _)]].
      * congruence.
      * left. reflexivity.
      * right. eauto.
    + intros a' post' Hline Hrect.
      destruct (output_pages_run (pre ++ a' :: post') need_header w)
        as (_ & Hc' & _ & _).
      fold p in Hc'. rewrite (run_calls_split need_header p) in Hc'.
      fold cap in Hc'. fold n in Hc'. fold l in Hc'.
      destruct (placed_locals_same_height n cap l a a' Hrect) as (Hcol & Hadv).
      eexists. rewrite Hc'. rewrite Hadv.
      unfold draw_call, placed_locals, line_height.
      rewrite Hcol, Hrect, Hline.
      repeat rewrite <- app_assoc. reflexivity.
Qed.

(* =============================================================== *)
(** ** Horizontal placement *)

(** C6: the turn of the loop that places a line in column [c] writes it
    at [left_margin + c * (column_width + gutter_width)] unless the
    direction is right to left; then the columns are counted from the
    other end, [left_margin + (num_columns - 1 - c) * (column_width +
    gutter_width)], and the line is pushed right by [column_width] less
    its width in points.  The right-to-left origin of column [c] is the
    left-to-right origin of column [num_columns - 1 - c]; that of
    column 0 is the left-to-right origin of the last column. *)
Theorem line_anchor_mirrored need_header cap l line_link w :
  let p := page_layout w in
  let r := output_line need_header cap l line_link w in
  let c := column_idx (fst r) in
  let line := pango_line line_link in
  let origin_ltr k :=
    (left_margin p + k * (column_width p + gutter_width p))%cint in
  let origin_rtl k :=
    (left_margin p
     + (num_columns p - 1 - k) * (column_width p + gutter_width p))%cint in
  let line_width_in_points :=
    (CDouble.of_int (rect_width (line_logical line))
     / (pt_to_pixel p * CDouble.of_int PANGO_SCALE))%float in
  let x_pos :=
    if PangoDirection_eqb (pango_dir p) PANGO_DIRECTION_RTL
    then (CDouble.of_int (origin_rtl c)
          + (CDouble.of_int (column_width p) - line_width_in_points))%float
    else CDouble.of_int (origin_ltr c) in
  (exists chunks y_pos,
     ps_pages_string (snd r)
     = ps_pages_string w ++ chunks ++ [PsLine x_pos y_pos line])
  /\ origin_rtl c = origin_ltr (num_columns p - 1 - c)%cint
  /\ origin_rtl 0 = origin_ltr (num_columns p - 1)%cint.
Proof.
  intros p r c line origin_ltr origin_rtl line_width_in_points x_pos.
  split; [|split].
  - destruct (output_line_run need_header cap l line_link w)
      as (Hl & _ & _ & _).
    destruct (output_line_ps need_header cap l line_link w)
      as (chunks & Hs).
    fold r in Hl, Hs. fold p in Hl, Hs. rewrite <- Hl in Hs. fold c in Hs.
    exists chunks, (line_y_pos p (column_y_pos (fst r))).
    rewrite Hs. do 4 f_equal.
    unfold line_x_pos, x_pos, is_rtl, pango_layout_line_get_extents.
    destruct (PangoDirection_eqb (pango_dir p) PANGO_DIRECTION_RTL);
      reflexivity.
  - reflexivity.
  - unfold origin_rtl, origin_ltr. do 2 f_equal.
    unfold CInt.sub. rewrite Z.sub_0_r.
    apply CInt.wrap_small, CInt.wrap_in_range.
Qed.

(* =============================================================== *)
(** ** Column dividers *)

(** C8, as the code has it: when a turn of the loop moves to a column
    of the same page, [eject_column] is called, whatever the flag, with
    the index of the column being entered, the old index plus one;
    [eject_column] draws only if [do_separation_line] is set, and then
    one vertical stroke whose abscissa is computed from the index it
    received, or from [num_columns] less that index when the direction
    is right to left. *)
Theorem eject_column_gets_entered_column need_header cap l line_link w :
  let p := page_layout w in
  let k := (column_idx l + 1)%cint in
  move_to_next_column cap l line_link = true ->
  k <> num_columns p ->
  let r := check_next_column need_header cap l line_link w in
  let effective_k :=
    if PangoDirection_eqb (pango_dir p) PANGO_DIRECTION_RTL
    then (num_columns p - k)%cint else k in
  let total_gutter :=
    if effective_k =? 1
    then (1 * CDouble.of_int (gutter_width p) / 2)%float
    else ((CDouble.of_int effective_k + 1.5)
          * CDouble.of_int (gutter_width p))%float in
  let x_pos :=
    (CDouble.of_int (left_margin p + column_width p * effective_k)%cint
     + total_gutter)%float in
  calls (snd r) = calls w ++ [Call_eject_column k]
  /\ column_idx (fst r) = k
  /\ exists y_top y_bot,
       ps_pages_string (snd r)
       = ps_pages_string w
           ++ (if do_separation_line p
               then [PsStroke x_pos y_top x_pos y_bot] else []).
Proof.
  intros p k Hm Hk r effective_k total_gutter x_pos.
  destruct (check_next_column_run need_header cap l line_link w)
    as (Hl & Hc & _ & _).
  fold r in Hl, Hc. fold p in Hl, Hc.
  destruct (advance_calls_cases need_header (num_columns p) cap l line_link)
    as [(Hm' & _) | [(_ & _ & Ha & El) | (_ & He & _)]];
    [congruence | | contradiction].
  rewrite Ha in Hc. rewrite El in Hl.
  split; [exact Hc|]. split; [rewrite Hl; reflexivity|].
  subst r. unfold check_next_column. rewrite Hm.
  rewrite bind_run. change (layout w) with (page_layout w, w).
  cbn [fst snd]. fold p. fold k.
  destruct (Z.eqb_spec k (num_columns p)) as [E|_]; [contradiction|].
  rewrite bind_run. unfold ret. cbn [fst snd].
  unfold eject_column. rewrite !bind_run.
  unfold called at 1. cbn [fst snd]. unfold layout at 1 2.
  cbn [fst snd page_layout]. fold p.
  destruct (do_separation_line p); cbn [negb].
  - do 2 eexists. unfold g_string_append. cbn [snd ps_pages_string].
    fold effective_k. reflexivity.
  - do 2 exists (CDouble.of_int 0). unfold ret.
    cbn [snd ps_pages_string]. symmetry. apply app_nil_r.
Qed.

(* =============================================================== *)
(** ** The separation line is always on *)

Lemma keeps_dividers_refl w : keeps_dividers w w.
Proof. unfold keeps_dividers. auto. Qed.

Lemma keeps_dividers_trans w1 w2 w3 :
  keeps_dividers w1 w2 -> keeps_dividers w2 w3 -> keeps_dividers w1 w3.
Proof.
  unfold keeps_dividers. intros H12 H23 H1.
  destruct (H12 H1) as (H2 & E12). destruct (H23 H2) as (H3 & E23).
  split; [exact H3 | lia].
Qed.

Ltac count_dividers :=
  unfold strokes, eject_column_calls;
  rewrite ?filter_app, ?length_app; simpl; lia.

Ltac dividers :=
  unfold keeps_dividers; run; intros H; split; [exact H|]; count_dividers.

Lemma start_page_keeps_dividers i w :
  keeps_dividers w (snd (start_page i w)).
Proof. dividers. Qed.

Lemma eject_page_keeps_dividers w :
  keeps_dividers w (snd (eject_page w)).
Proof. dividers. Qed.

Lemma draw_line_keeps_dividers c pos line w :
  keeps_dividers w (snd (draw_line_to_page c pos line w)).
Proof. dividers. Qed.

Lemma eject_column_keeps_dividers c w :
  keeps_dividers w (snd (eject_column c w)).
Proof.
  unfold keeps_dividers. run. intros H. rewrite H. simpl.
  split; [exact H|]. count_dividers.
Qed.

Lemma draw_page_header_keeps_dividers page w :
  keeps_dividers w (snd (draw_page_header_line_to_page false page w)).
Proof.
  unfold keeps_dividers. run. intros H. split; [exact H|].
  count_dividers.
Qed.

Lemma optional_header_keeps_dividers (need_header : bool) page w :
  keeps_dividers w
    (snd ((if need_header
           then _ <- draw_page_header_line_to_page false page ;; ret tt
           else ret tt) w)).
Proof.
  destruct need_header.
  - rewrite bind_run. unfold ret. cbn [snd].
    apply draw_page_header_keeps_dividers.
  - apply keeps_dividers_refl.
Qed.

Lemma check_next_column_keeps_dividers need_header cap l line_link w :
  keeps_dividers w (snd (check_next_column need_header cap l line_link w)).
Proof.
  unfold check_next_column.
  destruct (move_to_next_column cap l line_link);
    [|apply keeps_dividers_refl].
  rewrite bind_run. change (layout w) with (page_layout w, w).
  cbn [fst snd].
  destruct (_ =? num_columns (page_layout w)).
  - rewrite !bind_run. unfold ret at 2. cbn [snd].
    eapply keeps_dividers_trans; [apply eject_page_keeps_dividers|].
    eapply keeps_dividers_trans; [apply start_page_keeps_dividers|].
    apply optional_header_keeps_dividers.
  - rewrite bind_run. unfold ret. cbn [snd].
    apply eject_column_keeps_dividers.
Qed.

Lemma output_line_keeps_dividers need_header cap l line_link w :
  keeps_dividers w (snd (output_line need_header cap l line_link w)).
Proof.
  unfold output_line. rewrite !bind_run. unfold ret. cbn [snd].
  eapply keeps_dividers_trans; [apply check_next_column_keeps_dividers|].
  apply draw_line_keeps_dividers.
Qed.

Lemma output_lines_keeps_dividers need_header cap pango_lines : forall l w,
  keeps_dividers w (snd (output_lines need_header cap pango_lines l w)).
Proof.
  induction pango_lines as [|line_link next IH]; intros l w; simpl.
  - apply keeps_dividers_refl.
  - rewrite bind_run.
    eapply keeps_dividers_trans; [apply output_line_keeps_dividers|].
    apply IH.
Qed.

Lemma output_pages_keeps_dividers pango_lines need_header w :
  keeps_dividers w (snd (output_pages pango_lines need_header w)).
Proof.
  unfold output_pages. rewrite !bind_run.
  change (layout w) with (page_layout w, w). cbn [fst snd].
  unfold ret at 2. cbn [snd].
  eapply keeps_dividers_trans; [apply start_page_keeps_dividers|].
  eapply keeps_dividers_trans; [apply optional_header_keeps_dividers|].
  eapply keeps_dividers_trans; [apply output_lines_keeps_dividers|].
  apply eject_page_keeps_dividers.
Qed.

Lemma strokes_app a b :
  strokes (a ++ b) = (strokes a + strokes b)%nat.
Proof. unfold strokes. rewrite filter_app, length_app. reflexivity. Qed.

Lemma eject_column_calls_app a b :
  eject_column_calls (a ++ b)
  = (eject_column_calls a + eject_column_calls b)%nat.
Proof.
  unfold eject_column_calls. rewrite filter_app, length_app. reflexivity.
Qed.

(** [eject_column] is called in the turns that move on to a column of
    the same page, and in no other. *)
Lemma loop_calls_column_advances need_header n cap pango_lines : forall l,
  eject_column_calls (loop_calls need_header n cap pango_lines l)
  = column_advances n cap pango_lines l.
Proof.
  induction pango_lines as [|a next IH]; intros l; [reflexivity|].
  cbn [loop_calls column_advances].
  rewrite eject_column_calls_app.
  replace (eject_column_calls
             (draw_call n cap l a
              :: loop_calls need_header n cap next
                   (placed_locals n cap l a)))
    with (column_advances n cap next (placed_locals n cap l a))
    by (rewrite <- IH; reflexivity).
  f_equal.
  destruct (advance_calls_cases need_header n cap l a)
    as [(Hm & Ha & _) | [(Hm & Hne & Ha & _) | (Hm & He & Ha & _)]];
    rewrite Ha, Hm.
  - reflexivity.
  - apply Z.eqb_neq in Hne. rewrite Hne. reflexivity.
  - rewrite He, Z.eqb_refl. destruct need_header; reflexivity.
Qed.

Lemma main_page_layout_separation o p :
  main_page_layout o = Some p -> do_separation_line p = true.
Proof.
  intros Hp. unfold main_page_layout in Hp.
  destruct (opt_landscape o); cbv zeta iota beta in Hp;
    destruct (CInt.checked_div _ _); try discriminate;
    injection Hp as <-; reflexivity.
Qed.

(** With the flag set, a run of the loop writes one stroke for each
    turn that moves on to a column of the same page. *)
Lemma output_lines_strokes need_header cap pango_lines l w :
  do_separation_line (page_layout w) = true ->
  let r := output_lines need_header cap pango_lines l w in
  do_separation_line (page_layout (snd r)) = true
  /\ strokes (ps_pages_string (snd r))
     = (strokes (ps_pages_string w)
        + column_advances (num_columns (page_layout w)) cap pango_lines l)%nat.
Proof.
  intros Hs r.
  destruct (output_lines_keeps_dividers need_header cap pango_lines l w Hs)
    as (Hs' & Hn).
  destruct (output_lines_run need_header cap pango_lines l w)
    as (_ & Hc & _).
  fold r in Hs', Hn, Hc. split; [exact Hs'|].
  rewrite Hc, eject_column_calls_app, loop_calls_column_advances in Hn.
  lia.
Qed.

Lemma output_lines_app need_header cap pre post : forall l w,
  output_lines need_header cap (pre ++ post) l w
  = output_lines need_header cap post
      (fst (output_lines need_header cap pre l w))
      (snd (output_lines need_header cap pre l w)).
Proof.
  induction pre as [|a pre IH]; intros l w; [reflexivity|].
  cbn [app output_lines]. rewrite !bind_run. apply IH.
Qed.

Lemma output_lines_ps need_header cap pango_lines : forall l w,
  exists chunks,
    ps_pages_string (snd (output_lines need_header cap pango_lines l w))
    = ps_pages_string w ++ chunks.
Proof.
  induction pango_lines as [|a next IH]; intros l w.
  - exists []. cbn [output_lines]. unfold ret. cbn [snd].
    symmetry. apply app_nil_r.
  - cbn [output_lines]. rewrite bind_run.
    destruct (output_line_ps need_header cap l a w) as (c1 & H1).
    destruct (IH (fst (output_line need_header cap l a w))
                (snd (output_line need_header cap l a w))) as (c2 & H2).
    rewrite H2, H1. repeat rewrite <- app_assoc.
    eexists. reflexivity.
Qed.

(** The turn that moves on to a column of the same page writes, with
    the flag set, a vertical stroke and then the line. *)
Lemma output_line_divider need_header cap l line_link w :
  do_separation_line (page_layout w) = true ->
  move_to_next_column cap l line_link = true ->
  (column_idx l + 1)%cint <> num_columns (page_layout w) ->
  exists x_pos y_top y_bot x y,
    ps_pages_string (snd (output_line need_header cap l line_link w))
    = ps_pages_string w
        ++ [PsStroke x_pos y_top x_pos y_bot;
            PsLine x y (pango_line line_link)].
Proof.
  intros Hs Hm Hk.
  unfold output_line. rewrite !bind_run. unfold ret at 1. cbn [snd].
  set (r := check_next_column need_header cap l line_link w).
  assert (Hr : exists x_pos y_top y_bot,
             ps_pages_string (snd r)
             = ps_pages_string w ++ [PsStroke x_pos y_top x_pos y_bot]).
  { subst r. unfold check_next_column. rewrite Hm.
    rewrite bind_run. change (layout w) with (page_layout w, w).
    cbn [fst snd].
    destruct (Z.eqb_spec (column_idx l + 1)%cint
                (num_columns (page_layout w))) as [E|_];
      [contradiction|].
    rewrite bind_run. unfold ret. cbn [fst snd].
    unfold eject_column. rewrite !bind_run.
    unfold called at 1. cbn [fst snd]. unfold layout at 1 2.
    cbn [fst snd page_layout]. rewrite Hs. cbn [negb].
    do 3 eexists. unfold g_string_append. cbn [snd ps_pages_string].
    reflexivity. }
  destruct Hr as (x_pos & y_top & y_bot & Hr).
  destruct (draw_line_to_page_run (column_idx (fst r))
              (column_y_pos (fst r)
               + rect_height (logical_rect line_link))%cint
              (pango_line line_link) (snd r)) as (_ & Hd & _).
  rewrite Hd, Hr, <- app_assoc. do 5 eexists. reflexivity.
Qed.

(** The same within a run of the loop: the stroke stands right before
    the line, after as many strokes as there were such turns before. *)
Lemma output_lines_divider need_header cap pre line_link post l w :
  do_separation_line (page_layout w) = true ->
  let n := num_columns (page_layout w) in
  let l1 := loop_locals n cap pre l in
  move_to_next_column cap l1 line_link = true ->
  (column_idx l1 + 1)%cint <> n ->
  exists pre_chunks x_pos y_top y_bot x y post_chunks,
    ps_pages_string
      (snd (output_lines need_header cap (pre ++ line_link :: post) l w))
    = ps_pages_string w
        ++ pre_chunks
        ++ PsStroke x_pos y_top x_pos y_bot
        :: PsLine x y (pango_line line_link) :: post_chunks
    /\ strokes pre_chunks = column_advances n cap pre l.
Proof.
  intros Hs n l1 Hm Hk. rewrite output_lines_app.
  destruct (output_lines_run need_header cap pre l w) as (Hl & _ & Hp & _).
  destruct (output_lines_strokes need_header cap pre l w Hs)
    as (Hs1 & Hn1).
  destruct (output_lines_ps need_header cap pre l w) as (pre_chunks & Hc1).
  set (r1 := output_lines need_header cap pre l w) in *.
  fold n in Hl, Hn1. fold l1 in Hl.
  cbn [output_lines]. rewrite bind_run.
  rewrite Hl.
  destruct (output_line_divider need_header cap l1 line_link (snd r1)
              Hs1 Hm)
    as (x_pos & y_top & y_bot & x & y & H2).
  { rewrite (same_but_header_height_num_columns _ _ Hp). exact Hk. }
  destruct (output_lines_ps need_header cap post
              (fst (output_line need_header cap l1 line_link (snd r1)))
              (snd (output_line need_header cap l1 line_link (snd r1))))
    as (post_chunks & H3).
  exists pre_chunks, x_pos, y_top, y_bot, x, y, post_chunks.
  split.
  - rewrite H3, H2, Hc1. repeat rewrite <- app_assoc. reflexivity.
  - rewrite Hc1, strokes_app in Hn1. lia.
Qed.

(** C10: whatever the options, the layout [main] builds has
    [do_separation_line] set, and the flag stays set through a run of
    [output_pages]: the return without drawing is never taken.  The run
    writes as many divider strokes as the loop has turns that move on
    to a column of the same page; and each such turn writes its stroke,
    a vertical one, right before the line it places. *)
Theorem separation_line_always_drawn o p :
  main_page_layout o = Some p ->
  do_separation_line p = true
  /\ forall pango_lines need_header dates,
       let n := num_columns p in
       let cap := pango_column_height_of p in
       let w :=
         snd (output_pages pango_lines need_header
                (initial_world p dates)) in
       do_separation_line (page_layout w) = true
       /\ strokes (ps_pages_string w)
          = column_advances n cap pango_lines initial_locals
       /\ forall pre line_link post,
            pango_lines = pre ++ line_link :: post ->
            let l := loop_locals n cap pre initial_locals in
            move_to_next_column cap l line_link = true ->
            (column_idx l + 1)%cint <> n ->
            exists before x_pos y_top y_bot x y after,
              ps_pages_string w
              = before
                  ++ PsStroke x_pos y_top x_pos y_bot
                  :: PsLine x y (pango_line line_link) :: after
              /\ strokes before
                 = column_advances n cap pre initial_locals.
Proof.
  intros Hp.
  pose proof (main_page_layout_separation o p Hp) as Hs.
  split; [exact Hs|].
  intros pango_lines need_header dates n cap w.
  set (w0 := initial_world p dates) in *.
  destruct (output_pages_keeps_dividers pango_lines need_header w0 Hs)
    as (H1 & H2).
  destruct (output_pages_run pango_lines need_header w0) as (_ & Hc & _).
  fold w in H1, H2, Hc. split; [exact H1|]. split.
  { rewrite Hc in H2. cbn [w0 initial_world calls ps_pages_string app] in H2.
    unfold run_calls in H2.
    rewrite !eject_column_calls_app, loop_calls_column_advances in H2.
    replace (eject_column_calls (first_page_calls need_header)) with 0%nat
      in H2 by (destruct need_header; reflexivity).
    change (page_layout w0) with p in H2. fold n cap in H2.
    change (strokes []) with 0%nat in H2.
    change (eject_column_calls []) with 0%nat in H2.
    change (eject_column_calls [Call_eject_page]) with 0%nat in H2.
    lia. }
  intros pre line_link post -> l Hm Hk.
  subst w. unfold output_pages.
  rewrite bind_run. change (layout w0) with (page_layout w0, w0).
  cbn [fst snd]. fold initial_locals.
  change (page_idx initial_locals) with 1.
  change (page_layout w0) with p. fold cap.
  rewrite bind_run.
  destruct (start_page_run 1 w0) as (Hc1 & Hps1 & Hp1 & _).
  pose proof (start_page_keeps_dividers 1 w0 Hs) as (Hs1 & _).
  set (w1 := snd (start_page 1 w0)) in *.
  rewrite bind_run.
  destruct (optional_header_run need_header 1 w1) as (Hc2 & Hp2 & _).
  destruct (optional_header_ps need_header 1 w1) as (hdr & Hps2).
  pose proof (optional_header_keeps_dividers need_header 1 w1 Hs1)
    as (Hs2 & Hn2).
  set (w2 := snd (_ w1)) in *.
  rewrite Hp1 in Hp2.
  assert (En : num_columns (page_layout w2) = n)
    by (apply (same_but_header_height_num_columns _ _ Hp2)).
  rewrite bind_run.
  destruct (output_lines_divider need_header cap pre line_link post
              initial_locals w2 Hs2)
    as (pre_chunks & x_pos & y_top & y_bot & x & y & post_chunks
        & H3 & Hn3).
  { rewrite En. exact Hm. }
  { rewrite En. exact Hk. }
  rewrite En in Hn3.
  set (r3 := output_lines _ _ _ _ w2) in *.
  rewrite bind_run. unfold ret. cbn [fst snd].
  destruct (eject_page_run (snd r3)) as (_ & Hps4 & _).
  exists (ps_pages_string w2 ++ pre_chunks), x_pos, y_top, y_bot, x, y,
    (post_chunks ++ [PsShowpage]).
  split.
  - rewrite Hps4, H3. repeat rewrite <- app_assoc. reflexivity.
  - rewrite strokes_app, Hn3.
    rewrite Hc2, Hc1, !eject_column_calls_app in Hn2.
    cbn [w0 initial_world calls ps_pages_string] in Hn2.
    replace (eject_column_calls
               (if need_header
                then [Call_draw_page_header_line_to_page false 1]
                else []))
      with 0%nat in Hn2 by (destruct need_header; reflexivity).
    rewrite Hps1 in Hn2. rewrite strokes_app in Hn2.
    cbn in Hn2. lia.
Qed.

(* =============================================================== *)
(** ** No check of the geometry *)


(* =============================================================== *)
(** ** Two runs *)

Lemma agrees_ret clock {A} (a : A) : agrees clock (ret a).
Proof. intros w1 w2 H. split; [reflexivity | exact H]. Qed.

Lemma agrees_bind clock {A B} (m : M A) (k : A -> M B) :
  agrees clock m -> (forall a, agrees clock (k a)) ->
  agrees clock (bind m k).
Proof.
  intros Hm Hk w1 w2 H. rewrite !bind_run.
  destruct (Hm w1 w2 H) as (E & H'). rewrite E.
  apply Hk. exact H'.
Qed.

Ltac agrees_prim :=
  let w1 := fresh "w" in
  let w2 := fresh "w" in
  let H := fresh "H" in
  intros w1 w2 H; destruct w1, w2;
  unfold same_run, same_output in *; simpl in *;
  destruct H as ((-> & -> & -> & ->) & H); repeat split; auto.

Lemma agrees_layout clock : agrees clock layout.
Proof. agrees_prim. Qed.

Lemma agrees_set_layout clock f : agrees clock (set_layout f).
Proof. agrees_prim. Qed.

Lemma agrees_append clock c : agrees clock (g_string_append c).
Proof. agrees_prim. Qed.

Lemma agrees_called clock c : agrees clock (called c).
Proof. agrees_prim. Qed.

Lemma agrees_strftime_now : agrees true strftime_now.
Proof. agrees_prim. Qed.

Create HintDb agrees discriminated.

#[local] Hint Resolve agrees_ret agrees_layout agrees_set_layout
  agrees_append agrees_called agrees_strftime_now : agrees.

Ltac agrees_steps :=
  repeat first
    [ solve [auto with agrees nocore]
    | apply agrees_bind; [|intro] ].

Lemma agrees_start_page clock i : agrees clock (start_page i).
Proof. unfold start_page. agrees_steps. Qed.

Lemma agrees_eject_page clock : agrees clock eject_page.
Proof. unfold eject_page. agrees_steps. Qed.

Lemma agrees_eject_column clock c : agrees clock (eject_column c).
Proof.
  unfold eject_column. agrees_steps.
  destruct (do_separation_line _); cbn [negb]; agrees_steps.
Qed.

Lemma agrees_draw_line clock c pos line :
  agrees clock (draw_line_to_page c pos line).
Proof. unfold draw_line_to_page. agrees_steps. Qed.

Lemma agrees_draw_page_header page :
  agrees true (draw_page_header_line_to_page false page).
Proof.
  unfold draw_page_header_line_to_page, pango_layout_line_get_extents.
  agrees_steps.
Qed.

#[local] Hint Resolve agrees_start_page agrees_eject_page
  agrees_eject_column agrees_draw_line agrees_draw_page_header : agrees.

Lemma agrees_optional_header (need_header : bool) page :
  agrees need_header
    (if need_header
     then _ <- draw_page_header_line_to_page false page ;; ret tt
     else ret tt).
Proof. destruct need_header; agrees_steps. Qed.

#[local] Hint Resolve agrees_optional_header : agrees.

Lemma agrees_check_next_column need_header cap l line_link :
  agrees need_header (check_next_column need_header cap l line_link).
Proof.
  unfold check_next_column.
  destruct (move_to_next_column cap l line_link); agrees_steps.
  destruct (_ =? _); agrees_steps.
Qed.

#[local] Hint Resolve agrees_check_next_column : agrees.

Lemma agrees_output_line need_header cap l line_link :
  agrees need_header (output_line need_header cap l line_link).
Proof. unfold output_line. agrees_steps. Qed.

Lemma agrees_output_lines need_header cap pango_lines : forall l,
  agrees need_header (output_lines need_header cap pango_lines l).
Proof.
  induction pango_lines as [|line_link next IH]; intros l; simpl.
  - apply agrees_ret.
  - apply agrees_bind; [apply agrees_output_line | intro; apply IH].
Qed.

#[local] Hint Resolve agrees_output_lines : agrees.

(** C5, as the code has it: two runs of [output_pages] on the same
    lines and layout, from the same state of [ps_pages_string], return
    the same page count and write the same output if no header is
    asked for, whatever the clock shows; with headers they do so if the
    clock gives both runs the same date texts, since each page header
    carries the text read from the clock when it is composed. *)
Theorem output_pages_deterministic_up_to_clock pango_lines need_header
    w1 w2 :
  same_output w1 w2 ->
  (need_header = true -> forall n, date_text w1 n = date_text w2 n) ->
  fst (output_pages pango_lines need_header w1)
  = fst (output_pages pango_lines need_header w2)
  /\ same_output (snd (output_pages pango_lines need_header w1))
       (snd (output_pages pango_lines need_header w2)).
Proof.
  intros Hs Hd.
  assert (Ha : agrees need_header (output_pages pango_lines need_header)).
  { unfold output_pages. agrees_steps. }
  destruct (Ha w1 w2 (conj Hs Hd)) as (E & H & _). auto.
Qed.

(* =============================================================== *)
(** ** The pages written, seen through the calls *)

(** What a piece of [ps_pages_string] is, its coordinates and text
    apart. *)
Inductive chunk_kind : Type :=
| KPage (page_idx : Z)
| KShowpage
| KStroke
| KRule
| KLine.

Definition kind_of (c : ps_chunk) : chunk_kind :=
  match c with
  | PsPage i => KPage i
  | PsShowpage => KShowpage
  | PsStroke _ _ _ _ => KStroke
  | PsRule _ _ _ _ => KRule
  | PsLine _ _ _ => KLine
  end.

(** The pieces a call appends; [separation] is [do_separation_line]. *)
Definition kinds_of_call (separation : bool) (c : call) : list chunk_kind :=
  match c with
  | Call_start_page i => [KPage i]
  | Call_draw_page_header_line_to_page _ _ => [KLine; KLine; KLine; KRule]
  | Call_eject_column _ => if separation then [KStroke] else []
  | Call_eject_page => [KShowpage]
  | Call_draw_line_to_page _ _ _ => [KLine]
  end.

(** From [w] to [w'] calls [cs] were made and wrote what
    [kinds_of_call] says, the clock was read once for each page header,
    and of the layout only [header_height] may differ. *)
Definition transcribes (w w' : world) (cs : list call) : Prop :=
  calls w' = calls w ++ cs
  /\ (exists chunks,
        ps_pages_string w' = ps_pages_string w ++ chunks
        /\ map kind_of chunks
           = flat_map (kinds_of_call (do_separation_line (page_layout w)))
               cs)
  /\ same_but_header_height (page_layout w) (page_layout w')
  /\ date_calls w'
     = (date_calls w
        + List.length
            (filter (fun c => match c with
                              | Call_draw_page_header_line_to_page _ _ => true
                              | _ => false
                              end) cs))%nat.

(** The page numbers of the [%%Page] markers, in order. *)
Fixpoint page_markers (ks : list chunk_kind) : list Z :=
  match ks with
  | [] => []
  | KPage i :: r => i :: page_markers r
  | _ :: r => page_markers r
  end.

(** [%%Page] and [showpage] come in turn, everything else between a
    [%%Page] and its [showpage], and the last page is shown. *)
Fixpoint pages_closed (open : bool) (ks : list chunk_kind) : bool :=
  match ks with
  | [] => negb open
  | KPage _ :: r => negb open && pages_closed true r
  | KShowpage :: r => open && pages_closed false r
  | _ :: r => open && pages_closed open r
  end.

Definition text_lines (ks : list chunk_kind) : nat :=
  List.length (filter (fun k => match k with KLine => true | _ => false end)
                 ks).

Lemma same_but_header_height_separation p q :
  same_but_header_height p q -> do_separation_line q = do_separation_line p.
Proof.
  intros H. apply (f_equal do_separation_line) in H. simpl in H. congruence.
Qed.

Lemma transcribes_nil w : transcribes w w [].
Proof.
  unfold transcribes. simpl. rewrite !app_nil_r, Nat.add_0_r.
  repeat split; auto using same_but_header_height_refl.
  exists []. rewrite app_nil_r. auto.
Qed.

Lemma transcribes_trans w1 w2 w3 cs cs' :
  transcribes w1 w2 cs -> transcribes w2 w3 cs' ->
  transcribes w1 w3 (cs ++ cs').
Proof.
  intros (Hc & (ch & Hs & Hk) & Hp & Hd) (Hc' & (ch' & Hs' & Hk') & Hp' & Hd').
  unfold transcribes.
  rewrite (same_but_header_height_separation _ _ Hp) in Hk'.
  rewrite Hc', Hc, Hd', Hd.
  rewrite filter_app, length_app, !app_assoc.
  repeat split; eauto using same_but_header_height_trans; try lia.
  exists (ch ++ ch'). rewrite Hs', Hs, map_app, Hk, Hk', flat_map_app.
  rewrite app_assoc. auto.
Qed.

Ltac transcribe :=
  unfold transcribes; run; repeat rewrite <- app_assoc; simpl;
  repeat split;
  try (eexists; split; [reflexivity | reflexivity]);
  auto using same_but_header_height_refl, same_but_header_height_set;
  lia.

Lemma start_page_transcribes i w :
  transcribes w (snd (start_page i w)) [Call_start_page i].
Proof. transcribe. Qed.

Lemma eject_page_transcribes w :
  transcribes w (snd (eject_page w)) [Call_eject_page].
Proof. transcribe. Qed.

Lemma draw_line_transcribes c pos line w :
  transcribes w (snd (draw_line_to_page c pos line w))
    [Call_draw_line_to_page c pos line].
Proof. transcribe. Qed.

Lemma eject_column_transcribes c w :
  transcribes w (snd (eject_column c w)) [Call_eject_column c].
Proof.
  unfold transcribes. run.
  destruct (do_separation_line (page_layout w)); simpl;
    repeat split; auto using same_but_header_height_refl; try lia.
  - eexists. split; reflexivity.
  - exists []. rewrite app_nil_r. auto.
Qed.

Lemma draw_page_header_transcribes page w :
  transcribes w (snd (draw_page_header_line_to_page false page w))
    [Call_draw_page_header_line_to_page false page].
Proof. transcribe. Qed.

Lemma optional_header_transcribes (need_header : bool) page w :
  transcribes w
    (snd ((if need_header
           then _ <- draw_page_header_line_to_page false page ;; ret tt
           else ret tt) w))
    (if need_header
     then [Call_draw_page_header_line_to_page false page] else []).
Proof.
  destruct need_header.
  - rewrite bind_run. unfold ret. cbn [snd].
    apply draw_page_header_transcribes.
  - apply transcribes_nil.
Qed.

Lemma check_next_column_transcribes need_header cap l line_link w :
  transcribes w (snd (check_next_column need_header cap l line_link w))
    (advance_calls need_header (num_columns (page_layout w)) cap l line_link).
Proof.
  unfold check_next_column, advance_calls.
  destruct (move_to_next_column cap l line_link);
    [|apply transcribes_nil].
  rewrite bind_run. change (layout w) with (page_layout w, w).
  cbn [fst snd].
  destruct (_ =? num_columns (page_layout w)).
  - rewrite !bind_run. unfold ret at 2. cbn [snd].
    change (Call_eject_page :: Call_start_page (page_idx l + 1)%cint
              :: (if need_header
                  then [Call_draw_page_header_line_to_page false
                          (page_idx l + 1)%cint]
                  else []))
      with ([Call_eject_page]
              ++ [Call_start_page (page_idx l + 1)%cint]
              ++ (if need_header
                  then [Call_draw_page_header_line_to_page false
                          (page_idx l + 1)%cint]
                  else [])).
    eapply transcribes_trans; [apply eject_page_transcribes|].
    eapply transcribes_trans; [apply start_page_transcribes|].
    apply optional_header_transcribes.
  - rewrite bind_run. unfold ret. cbn [snd].
    apply eject_column_transcribes.
Qed.

Lemma output_line_transcribes need_header cap l line_link w :
  let n := num_columns (page_layout w) in
  transcribes w (snd (output_line need_header cap l line_link w))
    (advance_calls need_header n cap l line_link
       ++ [draw_call n cap l line_link]).
Proof.
  cbv zeta. unfold output_line. rewrite !bind_run. unfold ret. cbn [snd].
  destruct (check_next_column_run need_header cap l line_link w)
    as (Hl & _).
  eapply transcribes_trans; [apply check_next_column_transcribes|].
  unfold draw_call, placed_locals, line_height. rewrite <- Hl.
  apply draw_line_transcribes.
Qed.

Lemma output_lines_transcribes need_header cap pango_lines : forall l w,
  transcribes w (snd (output_lines need_header cap pango_lines l w))
    (loop_calls need_header (num_columns (page_layout w)) cap pango_lines l).
Proof.
  induction pango_lines as [|line_link next IH]; intros l w; simpl.
  - apply transcribes_nil.
  - rewrite bind_run.
    destruct (output_line_run need_header cap l line_link w)
      as (Hl & _ & Hp & _).
    match goal with
    | |- transcribes _ _ (?a ++ ?d :: ?r) =>
        replace (a ++ d :: r) with ((a ++ [d]) ++ r)
          by (rewrite <- app_assoc; reflexivity)
    end.
    eapply transcribes_trans; [apply output_line_transcribes|].
    rewrite <- Hl, <- (same_but_header_height_num_columns _ _ Hp).
    apply IH.
Qed.

Lemma output_pages_transcribes pango_lines need_header w :
  transcribes w (snd (output_pages pango_lines need_header w))
    (run_calls need_header (page_layout w) pango_lines).
Proof.
  unfold output_pages, run_calls, first_page_calls.
  rewrite !bind_run. change (layout w) with (page_layout w, w).
  cbn [fst snd]. unfold ret at 2. cbn [snd].
  fold initial_locals. change (page_idx initial_locals) with 1.
  change (Call_start_page 1
            :: (if need_header
                then [Call_draw_page_header_line_to_page false 1] else []))
    with ([Call_start_page 1]
            ++ (if need_header
                then [Call_draw_page_header_line_to_page false 1] else [])).
  rewrite <- app_assoc.
  eapply transcribes_trans; [apply start_page_transcribes|].
  destruct (start_page_run 1 w) as (_ & _ & Hp1 & _).
  set (w1 := snd (start_page 1 w)) in *.
  eapply transcribes_trans; [apply optional_header_transcribes|].
  destruct (optional_header_run need_header 1 w1) as (_ & Hp2 & _).
  set (w2 := snd (_ w1)) in *.
  eapply transcribes_trans; [|apply eject_page_transcribes].
  rewrite Hp1 in Hp2.
  rewrite <- (same_but_header_height_num_columns _ _ Hp2).
  apply output_lines_transcribes.
Qed.

(** Every page start is followed at once by the composition of its
    header if [need_header] is set, and no header is composed anywhere
    else; none at all if it is not set.  No footer is ever composed. *)
Fixpoint headers_follow (need_header : bool) (cs : list call) : bool :=
  match cs with
  | [] => true
  | Call_start_page i :: r =>
      if need_header then
        match r with
        | Call_draw_page_header_line_to_page false j :: r' =>
            (i =? j) && headers_follow need_header r'
        | _ => false
        end
      else headers_follow need_header r
  | Call_draw_page_header_line_to_page _ _ :: _ => false
  | _ :: r => headers_follow need_header r
  end.

Definition header_calls (cs : list call) : nat :=
  List.length
    (filter (fun c => match c with
                      | Call_draw_page_header_line_to_page _ _ => true
                      | _ => false
                      end) cs).

Lemma page_markers_of_calls separation cs :
  page_markers (flat_map (kinds_of_call separation) cs) = started_pages cs.
Proof.
  induction cs as [|c cs IH]; simpl; [reflexivity|].
  destruct c; simpl; try rewrite IH; try reflexivity.
  destruct separation; simpl; exact IH.
Qed.

Lemma pages_closed_of_calls separation cs : forall open,
  balanced open cs = true ->
  pages_closed open (flat_map (kinds_of_call separation) cs) = true.
Proof.
  induction cs as [|c cs IH]; intros open H; simpl in *; [exact H|].
  destruct c; destruct open; simpl in *; try discriminate; auto.
  destruct separation; simpl; auto.
Qed.

Lemma text_lines_app a b :
  text_lines (a ++ b) = (text_lines a + text_lines b)%nat.
Proof. unfold text_lines. rewrite filter_app, length_app. reflexivity. Qed.

Lemma text_lines_of_calls separation cs :
  text_lines (flat_map (kinds_of_call separation) cs)
  = (List.length (drawn_lines cs) + 3 * header_calls cs)%nat.
Proof.
  induction cs as [|c cs IH]; [reflexivity|].
  cbn [flat_map]. rewrite text_lines_app, IH.
  unfold header_calls.
  destruct c; try destruct separation; cbn; lia.
Qed.

Lemma loop_calls_headers need_header n cap pango_lines : forall l,
  headers_follow need_header
    (loop_calls need_header n cap pango_lines l ++ [Call_eject_page]) = true
  /\ header_calls (loop_calls need_header n cap pango_lines l)
     = if need_header
       then List.length
              (started_pages (loop_calls need_header n cap pango_lines l))
       else 0%nat.
Proof.
  unfold header_calls.
  induction pango_lines as [|line_link next IH]; intros l.
  - destruct need_header; auto.
  - cbn [loop_calls]. rewrite <- app_assoc.
    specialize (IH (placed_locals n cap l line_link)).
    destruct IH as (IH1 & IH2).
    rewrite started_pages_app, filter_app, !length_app.
    destruct (advance_calls_cases need_header n cap l line_link)
      as [(_ & -> & _) | [(_ & _ & -> & _) | (_ & _ & -> & _)]];
      unfold draw_call; simpl.
    + split; [exact IH1|]. rewrite IH2. reflexivity.
    + split; [exact IH1|]. rewrite IH2. reflexivity.
    + destruct need_header; simpl.
      * rewrite Z.eqb_refl. simpl. split; [exact IH1|].
        rewrite IH2. reflexivity.
      * split; [exact IH1|]. rewrite IH2. reflexivity.
Qed.

Lemma run_calls_headers need_header p pango_lines :
  headers_follow need_header (run_calls need_header p pango_lines) = true
  /\ header_calls (run_calls need_header p pango_lines)
     = if need_header
       then List.length
              (started_pages (run_calls need_header p pango_lines))
       else 0%nat.
Proof.
  unfold run_calls, first_page_calls.
  destruct (loop_calls_headers need_header (num_columns p)
              (pango_column_height_of p) pango_lines initial_locals)
    as (H1 & H2).
  unfold header_calls in *.
  rewrite !started_pages_app, !filter_app, !length_app.
  destruct need_header; simpl.
  - split; [exact H1|]. rewrite H2. simpl. lia.
  - split; [exact H1|]. rewrite H2. reflexivity.
Qed.

Lemma run_calls_balanced need_header p pango_lines :
  balanced false (run_calls need_header p pango_lines) = true.
Proof.
  unfold run_calls, first_page_calls. cbn [app balanced negb andb].
  destruct need_header; cbn [app balanced negb andb];
    apply loop_calls_balanced.
Qed.

(** In [ps_pages_string] a run only appends; the [%%Page] markers it
    appends are numbered 1, 2, ... up to the page count it returns, each
    page is closed by one [showpage] before the next marker, and nothing
    is written outside a page.  The list of lines is shorter than
    [INT_MAX]. *)
Lemma output_pages_markers pango_lines need_header w :
  Z.of_nat (List.length pango_lines) < CInt.INT_MAX ->
  let r := output_pages pango_lines need_header w in
  exists chunks,
    ps_pages_string (snd r) = ps_pages_string w ++ chunks
    /\ pages_closed false (map kind_of chunks) = true
    /\ 1 <= fst r
    /\ page_markers (map kind_of chunks)
       = map Z.of_nat (seq 1 (Z.to_nat (fst r))).
Proof.
  intros Hlen r.
  destruct (output_pages_transcribes pango_lines need_header w)
    as (_ & (chunks & Hs & Hk) & _ & _).
  destruct (output_pages_run pango_lines need_header w) as (Hr & _).
  destruct (run_calls_started_pages need_header (page_layout w)
              pango_lines Hlen) as (k & Hsp & Hi).
  fold r in Hs, Hr. exists chunks.
  rewrite Hk, page_markers_of_calls, Hsp, Hr, Hi.
  repeat split; auto.
  - apply pages_closed_of_calls, run_calls_balanced.
  - lia.
  - rewrite Nat2Z.id. reflexivity.
Qed.

(** A run writes one text for each line it is given, and three more for
    each page when page headers are asked for. *)
Theorem one_text_per_line pango_lines need_header w :
  Z.of_nat (List.length pango_lines) < CInt.INT_MAX ->
  let r := output_pages pango_lines need_header w in
  exists chunks,
    ps_pages_string (snd r) = ps_pages_string w ++ chunks
    /\ text_lines (map kind_of chunks)
       = (List.length pango_lines
          + if need_header then 3 * Z.to_nat (fst r) else 0)%nat.
Proof.
  intros Hlen r.
  destruct (output_pages_transcribes pango_lines need_header w)
    as (_ & (chunks & Hs & Hk) & _ & _).
  destruct (output_pages_run pango_lines need_header w) as (Hr & _).
  destruct (run_calls_started_pages need_header (page_layout w)
              pango_lines Hlen) as (k & Hsp & Hi).
  destruct (run_calls_headers need_header (page_layout w) pango_lines)
    as (_ & Hh).
  fold r in Hs, Hr. exists chunks. split; [exact Hs|].
  rewrite Hk, text_lines_of_calls, Hh, Hsp, Hr, Hi, Nat2Z.id.
  unfold run_calls.
  rewrite !drawn_lines_app, drawn_lines_first_page, drawn_lines_loop.
  cbn [drawn_lines app]. rewrite app_nil_r, !length_map, length_seq.
  destruct need_header; lia.
Qed.

(** With page headers, the header of a page is composed right after the
    page is started, and nowhere else, and the clock is read once for
    each page; without them no header is composed and the clock is not
    read.  No footer is composed, and [footer_height] keeps its value. *)
Theorem header_once_per_page pango_lines need_header w :
  Z.of_nat (List.length pango_lines) < CInt.INT_MAX ->
  let r := output_pages pango_lines need_header w in
  exists cs,
    calls (snd r) = calls w ++ cs
    /\ headers_follow need_header cs = true
    /\ date_calls (snd r)
       = (date_calls w + if need_header then Z.to_nat (fst r) else 0)%nat
    /\ footer_height (page_layout (snd r)) = footer_height (page_layout w).
Proof.
  intros Hlen r.
  destruct (output_pages_transcribes pango_lines need_header w)
    as (Hc & _ & Hp & Hd).
  destruct (output_pages_run pango_lines need_header w) as (Hr & _).
  destruct (run_calls_started_pages need_header (page_layout w)
              pango_lines Hlen) as (k & Hsp & Hi).
  destruct (run_calls_headers need_header (page_layout w) pango_lines)
    as (Hf & Hh).
  fold r in Hc, Hp, Hd, Hr.
  exists (run_calls need_header (page_layout w) pango_lines).
  split; [exact Hc|]. split; [exact Hf|]. split.
  - rewrite Hd. fold (header_calls
                        (run_calls need_header (page_layout w) pango_lines)).
    rewrite Hh, Hsp, Hr, Hi, length_map, length_seq, Nat2Z.id.
    reflexivity.
  - apply (f_equal footer_height) in Hp. simpl in Hp. congruence.
Qed.

(* =============================================================== *)
(** ** Bounds on columns and pages *)

(** Every line is placed in a column from 0 to [n - 1], and
    [eject_column] is called for columns from 1 to [n - 1] only. *)
Fixpoint columns_in_range (n : Z) (cs : list call) : bool :=
  match cs with
  | [] => true
  | Call_draw_line_to_page c _ _ :: r =>
      (0 <=? c) && (c <? n) && columns_in_range n r
  | Call_eject_column k :: r =>
      (1 <=? k) && (k <? n) && columns_in_range n r
  | _ :: r => columns_in_range n r
  end.

(** The heights of the lines, and their sum. *)
Definition total_height (pango_lines : list LineLink) : Z :=
  fold_right Z.add 0 (map line_height pango_lines).

(** The calls that stack lines in column 0, from offset [y] on. *)
Fixpoint stacked (y : Z) (pango_lines : list LineLink) : list call :=
  match pango_lines with
  | [] => []
  | line_link :: next =>
      Call_draw_line_to_page 0 (y + line_height line_link)
        (pango_line line_link)
        :: stacked (y + line_height line_link) next
  end.

Lemma columns_in_range_app n a b :
  columns_in_range n (a ++ b)
  = columns_in_range n a && columns_in_range n b.
Proof.
  induction a as [|c a IH]; simpl; [reflexivity|].
  destruct c; rewrite ?IH, ?andb_assoc; reflexivity.
Qed.

Lemma loop_calls_columns_in_range need_header n cap pango_lines : forall l,
  0 <= column_idx l < n ->
  column_idx l + Z.of_nat (List.length pango_lines) <= CInt.INT_MAX ->
  columns_in_range n (loop_calls need_header n cap pango_lines l) = true.
Proof.
  induction pango_lines as [|line_link next IH]; intros l Hc Hhi.
  - reflexivity.
  - cbn [loop_calls]. cbn [List.length] in Hhi.
    set (l1 := placed_locals n cap l line_link).
    assert (Hc1 : column_idx l1
                  = column_idx (column_for_line n cap l line_link))
      by reflexivity.
    assert (Hadd : (column_idx l + 1)%cint = column_idx l + 1).
    { apply CInt.add_small. unfold CInt.in_range, CInt.INT_MIN.
      unfold CInt.INT_MAX in *. lia. }
    rewrite columns_in_range_app. unfold draw_call. fold l1.
    cbn [columns_in_range].
    assert (Hl1 : 0 <= column_idx l1 < n
                  /\ column_idx l1 <= column_idx l + 1
                  /\ columns_in_range n
                       (advance_calls need_header n cap l line_link) = true).
    { destruct (advance_calls_cases need_header n cap l line_link)
        as [(_ & -> & E) | [(_ & Hne & -> & E) | (_ & _ & -> & E)]];
        rewrite E in Hc1; cbn [column_idx] in Hc1; rewrite Hc1.
      - repeat split; try lia.
      - rewrite Hadd in *. repeat split; try lia.
        cbn [columns_in_range].
        replace (1 <=? column_idx l + 1) with true
          by (symmetry; apply Z.leb_le; lia).
        replace (column_idx l + 1 <? n) with true
          by (symmetry; apply Z.ltb_lt; lia).
        reflexivity.
      - repeat split; try lia. destruct need_header; reflexivity. }
    destruct Hl1 as (Hr & Hle & ->).
    replace (0 <=? column_idx l1) with true
      by (symmetry; apply Z.leb_le; lia).
    replace (column_idx l1 <? n) with true
      by (symmetry; apply Z.ltb_lt; lia).
    cbn [andb]. apply IH; lia.
Qed.

(** With at least one column, every line of a run is placed in a column
    from 0 to [num_columns - 1], and the dividers are those of columns
    1 to [num_columns - 1]. *)
Theorem columns_stay_in_range pango_lines need_header w :
  Z.of_nat (List.length pango_lines) < CInt.INT_MAX ->
  1 <= num_columns (page_layout w) ->
  exists cs,
    calls (snd (output_pages pango_lines need_header w)) = calls w ++ cs
    /\ columns_in_range (num_columns (page_layout w)) cs = true.
Proof.
  intros Hlen Hn.
  destruct (output_pages_run pango_lines need_header w) as (_ & Hc & _).
  exists (run_calls need_header (page_layout w) pango_lines).
  split; [exact Hc|].
  unfold run_calls, first_page_calls.
  rewrite !columns_in_range_app.
  rewrite loop_calls_columns_in_range;
    [destruct need_header; reflexivity | simpl; lia |].
  unfold CInt.INT_MAX in *. cbn [column_idx initial_locals]. lia.
Qed.

(** Each turn of the loop that moves on uses up one column; a page is
    left when its last column is. *)
Lemma loop_locals_columns_used n cap pango_lines : forall l,
  0 <= column_idx l < n ->
  CInt.INT_MIN <= page_idx l ->
  page_idx l + Z.of_nat (List.length pango_lines) <= CInt.INT_MAX ->
  column_idx l + Z.of_nat (List.length pango_lines) <= CInt.INT_MAX ->
  let l' := loop_locals n cap pango_lines l in
  0 <= column_idx l' < n
  /\ page_idx l <= page_idx l'
  /\ n * page_idx l' + column_idx l'
     <= n * page_idx l + column_idx l
        + Z.of_nat (List.length pango_lines).
Proof.
  induction pango_lines as [|line_link next IH];
    intros l Hc Hlo Hhi Hci; cbv zeta.
  - cbn [loop_locals List.length]. lia.
  - cbn [loop_locals]. cbn [List.length] in Hhi, Hci |- *.
    set (l1 := placed_locals n cap l line_link).
    assert (Hc1 : column_idx l1
                  = column_idx (column_for_line n cap l line_link))
      by reflexivity.
    assert (Hp1 : page_idx l1
                  = page_idx (column_for_line n cap l line_link))
      by reflexivity.
    assert (Hadd : (column_idx l + 1)%cint = column_idx l + 1).
    { apply CInt.add_small. unfold CInt.in_range, CInt.INT_MIN.
      unfold CInt.INT_MAX in *. lia. }
    assert (Hpadd : (page_idx l + 1)%cint = page_idx l + 1).
    { apply CInt.add_small. unfold CInt.in_range. lia. }
    assert (H1 : 0 <= column_idx l1 < n
                 /\ page_idx l <= page_idx l1 <= page_idx l + 1
                 /\ column_idx l1 <= column_idx l + 1
                 /\ n * page_idx l1 + column_idx l1
                    <= n * page_idx l + column_idx l + 1).
    { destruct (advance_calls_cases false n cap l line_link)
        as [(_ & _ & E) | [(_ & Hne & _ & E) | (_ & He & _ & E)]];
        rewrite E in Hc1, Hp1; cbn [column_idx page_idx] in Hc1, Hp1;
        rewrite Hc1, Hp1; rewrite ?Hadd, ?Hpadd in *;
        repeat split; try lia. }
    destruct H1 as (Hr & Hp & Hcl & Hs).
    destruct (IH l1) as (IH1 & IH2 & IH3); lia.
Qed.

(** A run returns at least one page, and a further page only for every
    [num_columns] lines: [num_columns * (pages - 1) <= lines]. *)
Theorem pages_bounded_by_lines pango_lines need_header w :
  Z.of_nat (List.length pango_lines) < CInt.INT_MAX ->
  1 <= num_columns (page_layout w) ->
  let pages := fst (output_pages pango_lines need_header w) in
  1 <= pages
  /\ num_columns (page_layout w) * (pages - 1)
     <= Z.of_nat (List.length pango_lines).
Proof.
  intros Hlen Hn pages.
  destruct (output_pages_run pango_lines need_header w) as (Hr & _).
  fold pages in Hr.
  destruct (loop_locals_columns_used (num_columns (page_layout w))
              (pango_column_height_of (page_layout w)) pango_lines
              initial_locals) as (H1 & H2 & H3);
    try (unfold CInt.INT_MAX, CInt.INT_MIN in *;
         cbn [column_idx page_idx initial_locals]; lia).
  rewrite <- Hr in H2, H3.
  cbn [column_idx page_idx initial_locals] in H2, H3.
  split; [lia|]. nia.
Qed.

(* =============================================================== *)
(** ** Short texts and tall lines *)

Lemma to_int_in_range f : CInt.in_range (CDouble.to_int f).
Proof.
  unfold CDouble.to_int, CInt.in_range.
  destruct (CDouble.truncate f) as [v|].
  - destruct (Z.leb_spec CInt.INT_MIN v), (Z.leb_spec v CInt.INT_MAX);
      simpl; unfold CInt.INT_MIN, CInt.INT_MAX in *; lia.
  - unfold CInt.INT_MIN, CInt.INT_MAX. lia.
Qed.

Lemma total_height_app a b :
  total_height (a ++ b) = total_height a + total_height b.
Proof.
  unfold total_height. induction a as [|x a IH]; simpl; [reflexivity|].
  rewrite IH. lia.
Qed.

Lemma total_height_nonneg pango_lines :
  Forall (fun line_link => 0 <= line_height line_link) pango_lines ->
  0 <= total_height pango_lines.
Proof.
  unfold total_height. induction 1; simpl; lia.
Qed.

(** With heights that are not negative and add up to an [int], the
    cursor is never negative nor more than the heights so far. *)
Lemma loop_locals_cursor n cap pango_lines : forall l,
  Forall (fun line_link => 0 <= line_height line_link) pango_lines ->
  0 <= column_y_pos l ->
  column_y_pos l + total_height pango_lines <= CInt.INT_MAX ->
  0 <= column_y_pos (loop_locals n cap pango_lines l)
    <= column_y_pos l + total_height pango_lines.
Proof.
  induction pango_lines as [|line_link next IH]; intros l Hh Hy Hs.
  - unfold total_height. simpl. lia.
  - inversion Hh as [|? ? Hh1 Hh2]; subst.
    pose proof (total_height_nonneg next Hh2) as Hn.
    unfold total_height in Hs |- *. cbn [map fold_right] in Hs |- *.
    fold (total_height next) in Hs |- *.
    cbn [loop_locals].
    set (l1 := placed_locals n cap l line_link).
    assert (H1 : 0 <= column_y_pos l1
                   <= column_y_pos l + line_height line_link).
    { unfold l1, placed_locals. cbn [column_y_pos].
      destruct (advance_calls_cases false n cap l line_link)
        as [(_ & _ & ->) | [(_ & _ & _ & ->) | (_ & _ & _ & ->)]];
        cbn [column_y_pos]; rewrite CInt.add_small;
        unfold CInt.in_range, CInt.INT_MIN, CInt.INT_MAX in *; lia. }
    destruct (IH l1 Hh2) as (IH1 & IH2); lia.
Qed.

Lemma loop_calls_stacked need_header n cap pango_lines : forall l,
  Forall (fun line_link => formfeed line_link = 0
                           /\ 0 <= line_height line_link) pango_lines ->
  column_idx l = 0 ->
  match prev_line_link l with
  | Some prev => formfeed prev = 0
  | None => True
  end ->
  0 <= column_y_pos l ->
  column_y_pos l + total_height pango_lines < cap ->
  cap <= CInt.INT_MAX ->
  loop_calls need_header n cap pango_lines l
  = stacked (column_y_pos l) pango_lines
  /\ page_idx (loop_locals n cap pango_lines l) = page_idx l.
Proof.
  induction pango_lines as [|line_link next IH];
    intros l Hh Hc Hp Hy Hs Hcap.
  - auto.
  - inversion Hh as [|? ? (Hf & Hh1) Hh2]; subst.
    assert (Hn : 0 <= total_height next).
    { apply total_height_nonneg.
      eapply Forall_impl; [|exact Hh2]. simpl. tauto. }
    unfold total_height in Hs. cbn [map fold_right] in Hs.
    fold (total_height next) in Hs.
    assert (Hadd : (column_y_pos l + line_height line_link)%cint
                   = column_y_pos l + line_height line_link).
    { apply CInt.add_small.
      unfold CInt.in_range, CInt.INT_MIN, CInt.INT_MAX in *. lia. }
    assert (Hm : move_to_next_column cap l line_link = false).
    { unfold move_to_next_column. fold (line_height line_link).
      rewrite Hadd. apply orb_false_iff. split.
      - apply Z.leb_gt. lia.
      - destruct (prev_line_link l) as [prev|]; [|reflexivity].
        rewrite Hp. reflexivity. }
    cbn [loop_calls loop_locals stacked].
    unfold draw_call, placed_locals, advance_calls, column_for_line.
    rewrite Hm. cbn [app column_idx column_y_pos page_idx].
    rewrite Hadd, Hc.
    destruct (IH {| column_idx := 0;
                    column_y_pos := column_y_pos l + line_height line_link;
                    page_idx := page_idx l;
                    prev_line_link := Some line_link |})
      as (IH1 & IH2); cbn [column_idx column_y_pos prev_line_link page_idx];
      auto; try lia.
    rewrite <- Hc at 1. rewrite Hc. rewrite IH1, IH2. auto.
Qed.

(** A text without form feeds whose lines together are lower than the
    column goes to the first column of one page: the lines are stacked
    there one below the other and the page count is 1. *)
Theorem short_text_one_column pango_lines need_header w :
  Forall (fun line_link => formfeed line_link = 0
                           /\ 0 <= rect_height (logical_rect line_link))
    pango_lines ->
  total_height pango_lines < pango_column_height_of (page_layout w) ->
  let r := output_pages pango_lines need_header w in
  fst r = 1
  /\ calls (snd r)
     = calls w
         ++ Call_start_page 1
         :: (if need_header
             then [Call_draw_page_header_line_to_page false 1] else [])
         ++ stacked 0 pango_lines ++ [Call_eject_page].
Proof.
  intros Hh Hs r.
  destruct (output_pages_run pango_lines need_header w) as (Hr & Hc & _).
  fold r in Hr, Hc.
  destruct (loop_calls_stacked need_header (num_columns (page_layout w))
              (pango_column_height_of (page_layout w)) pango_lines
              initial_locals Hh) as (H1 & H2);
    cbn [column_idx column_y_pos prev_line_link initial_locals];
    auto; try lia.
  { apply to_int_in_range. }
  split.
  - rewrite Hr, H2. reflexivity.
  - rewrite Hc. unfold run_calls, first_page_calls. rewrite H1.
    reflexivity.
Qed.

(** A line at least as high as the column is put at the top of a column
    opened for it, and the line after it opens the next one.  The heights
    are not negative and add up to an [int]. *)
Theorem tall_line_alone pre line_link post need_header w :
  let cap := pango_column_height_of (page_layout w) in
  let h := rect_height (logical_rect line_link) in
  Forall (fun a => 0 <= rect_height (logical_rect a))
    (pre ++ line_link :: post) ->
  total_height (pre ++ line_link :: post) <= CInt.INT_MAX ->
  cap <= h ->
  exists before adv c after,
    calls (snd (output_pages (pre ++ line_link :: post) need_header w))
    = calls w ++ before ++ adv
        ++ Call_draw_line_to_page c h (pango_line line_link) :: after
    /\ drawn_lines before = map pango_line pre
    /\ adv <> []
    /\ drawn_lines adv = []
    /\ forall b post', post = b :: post' ->
         exists adv' c' column_pos' rest,
           after = adv'
                     ++ Call_draw_line_to_page c' column_pos' (pango_line b)
                     :: rest
           /\ adv' <> []
           /\ drawn_lines adv' = [].
Proof.
  intros cap h Hh Hs Hcap.
  set (p := page_layout w). set (n := num_columns p).
  set (l := loop_locals n cap pre initial_locals).
  set (la := placed_locals n cap l line_link).
  destruct (output_pages_run (pre ++ line_link :: post) need_header w)
    as (_ & Hc & _).
  fold p in Hc. rewrite (run_calls_split need_header p) in Hc.
  change (pango_column_height_of p) with cap in Hc.
  fold n in Hc. fold l in Hc. fold la in Hc.
  apply Forall_app in Hh. destruct Hh as (Hpre & Hrest).
  inversion Hrest as [|? ? Ha Hpost]; subst.
  rewrite total_height_app in Hs.
  unfold total_height in Hs at 2. cbn [map fold_right] in Hs.
  fold (total_height post) in Hs. fold h in Ha.
  change (line_height line_link) with h in Hs.
  pose proof (total_height_nonneg pre Hpre) as Hn1.
  pose proof (total_height_nonneg post Hpost) as Hn2.
  destruct (loop_locals_cursor n cap pre initial_locals Hpre) as (Hy1 & Hy2);
    cbn [column_y_pos initial_locals]; try lia.
  fold l in Hy1, Hy2. cbn [column_y_pos initial_locals] in Hy2.
  assert (Hm : move_to_next_column cap l line_link = true).
  { unfold move_to_next_column. fold h.
    rewrite CInt.add_small
      by (unfold CInt.in_range, CInt.INT_MIN, CInt.INT_MAX in *; lia).
    apply orb_true_iff. left. apply Z.leb_le. lia. }
  assert (Hya : column_y_pos la = h).
  { unfold la, placed_locals. cbn [column_y_pos].
    change (line_height line_link) with h.
    destruct (advance_calls_cases need_header n cap l line_link)
      as [(Hm' & _) | [(_ & _ & _ & ->) | (_ & _ & _ & ->)]];
      [congruence | |]; cbn [column_y_pos]; apply CInt.add_small;
      unfold CInt.in_range, CInt.INT_MIN, CInt.INT_MAX in *; lia. }
  exists (first_page_calls need_header
            ++ loop_calls need_header n cap pre initial_locals),
    (advance_calls need_header n cap l line_link),
    (column_idx la),
    (loop_calls need_header n cap post la ++ [Call_eject_page]).
  split; [|split; [|split; [|split]]].
  - rewrite Hc. unfold draw_call. cbv zeta. fold la. rewrite Hya.
    reflexivity.
  - rewrite drawn_lines_app, drawn_lines_first_page, drawn_lines_loop.
    reflexivity.
  - intros E. apply advance_calls_nil in E. congruence.
  - apply drawn_lines_advance.
  - intros b post' ->. cbn [loop_calls]. rewrite <- app_assoc.
    exists (advance_calls need_header n cap la b),
      (column_idx (placed_locals n cap la b)),
      (column_y_pos (placed_locals n cap la b)),
      (loop_calls need_header n cap post' (placed_locals n cap la b)
         ++ [Call_eject_page]).
    split; [reflexivity|]. split; [|apply drawn_lines_advance].
    intros E. apply advance_calls_nil in E.
    inversion Hpost as [|? ? Hb Hpost']; subst.
    pose proof (total_height_nonneg post' Hpost') as Hn3.
    unfold total_height in Hs at 2. cbn [map fold_right] in Hs.
    fold (total_height post') in Hs.
    unfold move_to_next_column in E. rewrite Hya in E.
    rewrite CInt.add_small in E
      by (unfold CInt.in_range, CInt.INT_MIN, CInt.INT_MAX, line_height
            in *; lia).
    apply orb_false_iff in E. destruct E as (E & _).
    apply Z.leb_gt in E. unfold line_height in *. lia.
Qed.

(* =============================================================== *)
(** ** Dividers and the rule under the header *)

(** The height at which the rule under the header and the top of a
    column divider are drawn. *)
Definition rule_y (p : page_layout_t) : float :=
  CDouble.of_int
    (page_height p - top_margin p - header_height p - header_sep p / 2)%cint.

(** Every divider starts at the height of the rule written last before
    it; [rule] is the height of the rule written last so far. *)
Fixpoint dividers_meet_rule (rule : option float) (ps : list ps_chunk)
  : Prop :=
  match ps with
  | [] => True
  | PsRule _ y _ _ :: r => dividers_meet_rule (Some y) r
  | PsStroke _ y_top _ _ :: r =>
      rule = Some y_top /\ dividers_meet_rule rule r
  | _ :: r => dividers_meet_rule rule r
  end.

Fixpoint rule_after (rule : option float) (ps : list ps_chunk)
  : option float :=
  match ps with
  | [] => rule
  | PsRule _ y _ _ :: r => rule_after (Some y) r
  | _ :: r => rule_after rule r
  end.

(** From [w] to [w'] the dividers written meet the rule, which stays
    level with [header_height]. *)
Definition keeps_rule (w w' : world) : Prop :=
  exists chunks,
    ps_pages_string w' = ps_pages_string w ++ chunks
    /\ dividers_meet_rule (Some (rule_y (page_layout w))) chunks
    /\ rule_after (Some (rule_y (page_layout w))) chunks
       = Some (rule_y (page_layout w')).

Lemma dividers_meet_rule_app a b : forall rule,
  dividers_meet_rule rule (a ++ b)
  <-> dividers_meet_rule rule a
      /\ dividers_meet_rule (rule_after rule a) b.
Proof using.
  clear. induction a as [|c a IH]; intros rule; simpl; [tauto|].
  destruct c; simpl; rewrite IH; tauto.
Qed.

Lemma rule_after_app a b : forall rule,
  rule_after rule (a ++ b) = rule_after (rule_after rule a) b.
Proof.
  induction a as [|c a IH]; intros rule; simpl; [reflexivity|].
  destruct c; simpl; apply IH.
Qed.

Lemma keeps_rule_refl w : keeps_rule w w.
Proof. exists []. rewrite app_nil_r. simpl. auto. Qed.

Lemma keeps_rule_trans w1 w2 w3 :
  keeps_rule w1 w2 -> keeps_rule w2 w3 -> keeps_rule w1 w3.
Proof.
  intros (a & Ha & Da & Ra) (b & Hb & Db & Rb).
  exists (a ++ b). rewrite Hb, Ha, app_assoc. split; [reflexivity|].
  rewrite dividers_meet_rule_app, rule_after_app, Ra. auto.
Qed.

Lemma start_page_keeps_rule i w : keeps_rule w (snd (start_page i w)).
Proof. unfold keeps_rule. run. eexists. split; [reflexivity|]. simpl. auto. Qed.

Lemma eject_page_keeps_rule w : keeps_rule w (snd (eject_page w)).
Proof. unfold keeps_rule. run. eexists. split; [reflexivity|]. simpl. auto. Qed.

Lemma draw_line_keeps_rule c pos line w :
  keeps_rule w (snd (draw_line_to_page c pos line w)).
Proof. unfold keeps_rule. run. eexists. split; [reflexivity|]. simpl. auto. Qed.

Lemma eject_column_keeps_rule c w : keeps_rule w (snd (eject_column c w)).
Proof.
  unfold keeps_rule. run.
  destruct (do_separation_line (page_layout w)); simpl.
  - eexists. split; [reflexivity|]. simpl. auto.
  - exists []. rewrite app_nil_r. simpl. auto.
Qed.

(** A page header ends in its rule, whatever was written before. *)
Lemma draw_page_header_sets_rule page w rule :
  exists chunks,
    ps_pages_string (snd (draw_page_header_line_to_page false page w))
    = ps_pages_string w ++ chunks
    /\ dividers_meet_rule rule chunks
    /\ rule_after rule chunks
       = Some (rule_y
                 (page_layout
                    (snd (draw_page_header_line_to_page false page w)))).
Proof.
  run. repeat rewrite <- app_assoc. eexists. split; [reflexivity|].
  simpl. auto.
Qed.

Lemma optional_header_keeps_rule (need_header : bool) page w :
  keeps_rule w
    (snd ((if need_header
           then _ <- draw_page_header_line_to_page false page ;; ret tt
           else ret tt) w)).
Proof.
  destruct need_header.
  - rewrite bind_run. unfold ret. cbn [snd].
    apply draw_page_header_sets_rule.
  - apply keeps_rule_refl.
Qed.

Lemma check_next_column_keeps_rule need_header cap l line_link w :
  keeps_rule w (snd (check_next_column need_header cap l line_link w)).
Proof.
  unfold check_next_column.
  destruct (move_to_next_column cap l line_link);
    [|apply keeps_rule_refl].
  rewrite bind_run. change (layout w) with (page_layout w, w).
  cbn [fst snd].
  destruct (_ =? num_columns (page_layout w)).
  - rewrite !bind_run. unfold ret at 2. cbn [snd].
    eapply keeps_rule_trans; [apply eject_page_keeps_rule|].
    eapply keeps_rule_trans; [apply start_page_keeps_rule|].
    apply optional_header_keeps_rule.
  - rewrite bind_run. unfold ret. cbn [snd].
    apply eject_column_keeps_rule.
Qed.

Lemma output_lines_keeps_rule need_header cap pango_lines : forall l w,
  keeps_rule w (snd (output_lines need_header cap pango_lines l w)).
Proof.
  induction pango_lines as [|line_link next IH]; intros l w; simpl.
  - apply keeps_rule_refl.
  - rewrite bind_run.
    eapply keeps_rule_trans; [|apply IH].
    unfold output_line. rewrite !bind_run. unfold ret. cbn [snd].
    eapply keeps_rule_trans; [apply check_next_column_keeps_rule|].
    apply draw_line_keeps_rule.
Qed.

(** With page headers, every column divider of a run starts at the
    height of the rule under the header written last before it: the
    header stores [header_height] before [eject_column] reads it. *)
Theorem dividers_start_at_header_rule pango_lines w :
  exists chunks,
    ps_pages_string (snd (output_pages pango_lines true w))
    = ps_pages_string w ++ chunks
    /\ dividers_meet_rule None chunks.
Proof.
  unfold output_pages. rewrite !bind_run.
  change (layout w) with (page_layout w, w). cbn [fst snd].
  fold initial_locals. change (page_idx initial_locals) with 1.
  unfold ret. cbn [fst snd].
  destruct (start_page_run 1 w) as (_ & Hs1 & _).
  set (w1 := snd (start_page 1 w)) in *.
  destruct (draw_page_header_sets_rule 1 w1 None) as (hc & Hs2 & Hd2 & Hr2).
  set (w2 := snd (draw_page_header_line_to_page false 1 w1)) in *.
  destruct (output_lines_keeps_rule true
              (pango_column_height_of (page_layout w)) pango_lines
              initial_locals w2)
    as (lc & Hs3 & Hd3 & Hr3).
  set (r3 := output_lines _ _ _ _ w2) in *.
  destruct (eject_page_run (snd r3)) as (_ & Hs4 & _).
  exists ([PsPage 1] ++ hc ++ lc ++ [PsShowpage]).
  split.
  - rewrite Hs4, Hs3, Hs2, Hs1. repeat rewrite <- app_assoc. reflexivity.
  - cbn [app dividers_meet_rule].
    rewrite dividers_meet_rule_app, Hr2, dividers_meet_rule_app.
    repeat split; auto.
Qed.

(* =============================================================== *)
(** ** The document [main] writes *)

(** [main] from the page layout on: prologue, pages, trailer. *)
Definition main_document (o : options) (paragraphs : list Paragraph)
    (dates : nat -> string) : option document :=
  match main_page_layout o with
  | None => None
  | Some p =>
      let title := opt_filename_in o in
      let pango_lines := split_paragraphs_into_lines paragraphs in
      let header := print_postscript_header title p in
      let '(num_pages, w) :=
        output_pages pango_lines (opt_draw_header o)
          (initial_world p dates) in
      Some {| doc_prologue := header;
              doc_pages := ps_pages_string w;
              doc_trailer_pages := print_postscript_trailer num_pages |}
  end.

Lemma paper_box t :
  exists w h,
    CDouble.to_int (paper_width (paper_sizes t)) = w
    /\ CDouble.to_int (paper_height (paper_sizes t)) = h
    /\ 0 < w /\ w < h /\ h <= 1008.
Proof.
  destruct t; do 2 eexists;
    (split; [vm_compute; reflexivity|]);
    (split; [vm_compute; reflexivity|]); lia.
Qed.

(** The page of a layout [main] builds is the paper, turned when
    landscape is asked for; duplex and tumble are on either way. *)
Lemma main_page_layout_page o p :
  main_page_layout o = Some p ->
  let w := CDouble.to_int (paper_width (paper_sizes (opt_paper_type o))) in
  let h := CDouble.to_int (paper_height (paper_sizes (opt_paper_type o))) in
  (page_width p, page_height p)
  = (if opt_landscape o then (h, w) else (w, h))
  /\ do_landscape p = opt_landscape o
  /\ do_duplex p = true /\ do_tumble p = true
  /\ num_columns p = opt_num_columns o
  /\ left_margin p = opt_left_margin o
  /\ right_margin p = opt_right_margin o
  /\ top_margin p = opt_top_margin o
  /\ bottom_margin p = opt_bottom_margin o
  /\ header_ypos p = opt_top_margin o
  /\ header_sep p = (if opt_draw_header o then 20 else 0)
  /\ gutter_width p = 40.
Proof.
  intros Hp w h. unfold main_page_layout in Hp.
  destruct (opt_landscape o); cbv zeta iota beta in Hp;
    destruct (CInt.checked_div _ _); try discriminate;
    injection Hp as <-; cbn; repeat split; reflexivity.
Qed.

(** The bounding box of the prologue is the paper as it stands upright,
    whether landscape is asked for or not; the orientation comment says
    Landscape exactly when it is; and the page size declared is the
    page as turned. *)
Theorem bounding_box_never_rotated o paragraphs dates d :
  main_document o paragraphs dates = Some d ->
  let w := CDouble.to_int (paper_width (paper_sizes (opt_paper_type o))) in
  let h := CDouble.to_int (paper_height (paper_sizes (opt_paper_type o))) in
  hdr_bounding_box (doc_prologue d) = (w, h)
  /\ hdr_orientation (doc_prologue d)
     = (if opt_landscape o then "Landscape"%string else "Portrait"%string)
  /\ (hdr_pagewidth (doc_prologue d), hdr_pageheight (doc_prologue d))
     = (if opt_landscape o then (h, w) else (w, h))
  /\ hdr_do_duplex (doc_prologue d) = "true"%string
  /\ hdr_do_tumble (doc_prologue d) = "true"%string.
Proof.
  intros Hd w h. unfold main_document in Hd.
  destruct (main_page_layout o) as [p|] eqn:Hp; [|discriminate].
  destruct (output_pages _ _ _) as [num_pages w'].
  injection Hd as <-. cbn [doc_prologue].
  destruct (main_page_layout_page o p Hp)
    as (Hbox & _ & Hdup & Htum & _).
  destruct (paper_box (opt_paper_type o)) as (pw & ph & Hw & Hh & H0 & Hlt & _).
  fold w in Hw, Hbox. fold h in Hh, Hbox. rewrite Hw, Hh in *.
  unfold print_postscript_header.
  cbn [hdr_bounding_box hdr_orientation hdr_pagewidth hdr_pageheight
       hdr_do_duplex hdr_do_tumble].
  rewrite Hdup, Htum.
  destruct (opt_landscape o); cbv iota in Hbox; injection Hbox as -> ->.
  - replace (pw <? ph) with true by (symmetry; apply Z.ltb_lt; lia).
    repeat split; reflexivity.
  - replace (ph <? pw) with false by (symmetry; apply Z.ltb_ge; lia).
    repeat split; reflexivity.
Qed.

(** In the document [main] writes, the [%%Page] markers are numbered
    1, 2, ... up to the number the trailer gives after [%%Pages:], which
    is at least 1; every page is closed by its [showpage], and nothing
    is written outside a page.  The text has fewer than [INT_MAX]
    lines. *)
Theorem document_pages_match_trailer o paragraphs dates d :
  main_document o paragraphs dates = Some d ->
  Z.of_nat (List.length (split_paragraphs_into_lines paragraphs))
    < CInt.INT_MAX ->
  1 <= doc_trailer_pages d
  /\ page_markers (map kind_of (doc_pages d))
     = map Z.of_nat (seq 1 (Z.to_nat (doc_trailer_pages d)))
  /\ pages_closed false (map kind_of (doc_pages d)) = true.
Proof.
  intros Hd Hlen. unfold main_document in Hd.
  destruct (main_page_layout o) as [p|]; [|discriminate].
  destruct (output_pages_markers (split_paragraphs_into_lines paragraphs)
              (opt_draw_header o) (initial_world p dates) Hlen)
    as (chunks & Hs & Hc & H1 & Hm).
  destruct (output_pages _ _ _) as [num_pages w].
  injection Hd as <-. cbn [doc_pages doc_trailer_pages fst snd] in *.
  unfold print_postscript_trailer.
  rewrite Hs. cbn [initial_world ps_pages_string app]. auto.
Qed.

Lemma wrap_sub_wrap_l a b : CInt.wrap (CInt.wrap a - b) = CInt.wrap (a - b).
Proof.
  unfold CInt.wrap. f_equal.
  replace (((a + 2147483648) mod 4294967296 - 2147483648 - b) + 2147483648)
    with ((a + 2147483648) mod 4294967296 - b) by lia.
  replace (a - b + 2147483648) with ((a + 2147483648) - b) by lia.
  rewrite Zminus_mod_idemp_l. reflexivity.
Qed.

Lemma wrap_sub_wrap_r a b : CInt.wrap (a - CInt.wrap b) = CInt.wrap (a - b).
Proof.
  unfold CInt.wrap. f_equal.
  replace (a - ((b + 2147483648) mod 4294967296 - 2147483648) + 2147483648)
    with ((a + 4294967296) - (b + 2147483648) mod 4294967296) by lia.
  replace (a - b + 2147483648)
    with ((a + 4294967296) - (b + 2147483648)) by lia.
  rewrite Zminus_mod_idemp_r. reflexivity.
Qed.

Lemma wrap_add_wrap_l a b : CInt.wrap (CInt.wrap a + b) = CInt.wrap (a + b).
Proof.
  unfold CInt.wrap. f_equal.
  replace (((a + 2147483648) mod 4294967296 - 2147483648 + b) + 2147483648)
    with ((a + 2147483648) mod 4294967296 + b) by lia.
  replace (a + b + 2147483648) with ((a + 2147483648) + b) by lia.
  rewrite Zplus_mod_idemp_l. reflexivity.
Qed.

Lemma main_page_layout_column_height o p :
  main_page_layout o = Some p ->
  column_height p
  = (page_height p - top_margin p - header_sep p - bottom_margin p)%cint.
Proof.
  intros Hp. unfold main_page_layout in Hp.
  destruct (opt_landscape o); cbv zeta iota beta in Hp;
    destruct (CInt.checked_div _ _); try discriminate;
    injection Hp as <-; reflexivity.
Qed.

(** The prologue places the body where the lines are drawn: [ytop] is
    the height from which [draw_line_to_page] measures a line down, and
    [bodyheight] reaches from there to the bottom margin; this holds in
    [int] arithmetic for every margin. *)
Theorem prologue_body_box o paragraphs dates d p :
  main_page_layout o = Some p ->
  main_document o paragraphs dates = Some d ->
  hdr_ytop (doc_prologue d)
  = (page_height p - top_margin p - header_sep p)%cint
  /\ hdr_bodyheight (doc_prologue d)
     = (hdr_ytop (doc_prologue d) - bottom_margin p)%cint
  /\ hdr_lmarg (doc_prologue d) = left_margin p
  /\ hdr_column_width (doc_prologue d) = column_width p
  /\ hdr_numcolumns (doc_prologue d) = num_columns p.
Proof.
  intros Hp Hd. unfold main_document in Hd. rewrite Hp in Hd.
  destruct (output_pages _ _ _) as [num_pages w].
  injection Hd as <-. cbn [doc_prologue].
  unfold print_postscript_header.
  cbn [hdr_ytop hdr_bodyheight hdr_lmarg hdr_column_width hdr_numcolumns].
  assert (Hy : (page_height p - (header_ypos p + header_sep p))%cint
               = (page_height p - top_margin p - header_sep p)%cint).
  { destruct (main_page_layout_page o p Hp)
      as (_ & _ & _ & _ & _ & _ & _ & Ht & _ & Hy & _).
    rewrite Hy, <- Ht. unfold CInt.sub, CInt.add.
    rewrite wrap_sub_wrap_r, wrap_sub_wrap_l. f_equal. lia. }
  rewrite Hy, (main_page_layout_column_height o p Hp).
  destruct (page_height p <? page_width p); repeat split; reflexivity.
Qed.

Lemma main_page_layout_column_width o p :
  main_page_layout o = Some p ->
  column_width p
  = ((page_width p - left_margin p - right_margin p
      - (if num_columns p =? 1 then 0 else 40 * (num_columns p - 1)))
     / num_columns p)%cint.
Proof.
  intros Hp. unfold main_page_layout, CInt.checked_div in Hp.
  destruct (opt_landscape o); cbv zeta iota beta in Hp;
    destruct (CInt.div_traps _ _); try discriminate;
    injection Hp as <-; reflexivity.
Qed.

Ltac small_int :=
  match goal with
  | |- context [CInt.wrap ?z] =>
      rewrite (CInt.wrap_small z)
        by (unfold CInt.in_range, CInt.INT_MIN, CInt.INT_MAX; lia)
  end.

(** The columns, the gutters between them and the side margins fill the
    width of the page up to a rest smaller than the number of columns,
    lost in the division; header space, column and margins fill its
    height.  The margins are not negative and leave room for the
    gutters. *)
Theorem page_box_filled o p :
  main_page_layout o = Some p ->
  1 <= opt_num_columns o <= 1000 ->
  0 <= opt_left_margin o -> 0 <= opt_right_margin o ->
  0 <= opt_top_margin o <= 100000 ->
  0 <= opt_bottom_margin o <= 100000 ->
  opt_left_margin o + opt_right_margin o + 40 * (opt_num_columns o - 1)
    <= page_width p ->
  let used :=
    left_margin p + right_margin p + gutter_width p * (num_columns p - 1)
    + num_columns p * column_width p in
  0 <= column_width p
  /\ used <= page_width p < used + num_columns p
  /\ top_margin p + header_sep p + column_height p + bottom_margin p
     = page_height p.
Proof.
  intros Hp Hn Hl Hr Ht Hb Hroom used.
  destruct (main_page_layout_page o p Hp)
    as (Hbox & _ & _ & _ & En & El & Er & Et & Eb & _ & Es & Eg).
  destruct (paper_box (opt_paper_type o))
    as (pw & ph & Hw & Hh & H0 & Hlt & Hmax).
  rewrite Hw, Hh in Hbox.
  assert (Hpw : 0 < page_width p <= 1008 /\ 0 < page_height p <= 1008).
  { destruct (opt_landscape o); injection Hbox as -> ->; lia. }
  assert (Hs : 0 <= header_sep p <= 20)
    by (rewrite Es; destruct (opt_draw_header o); lia).
  pose proof (main_page_layout_column_width o p Hp) as Ecw.
  pose proof (main_page_layout_column_height o p Hp) as Ech.
  rewrite En, El, Er in Ecw. rewrite Et, Eb in Ech.
  set (n := opt_num_columns o) in *.
  set (room := page_width p - opt_left_margin o - opt_right_margin o
               - 40 * (n - 1)) in *.
  assert (Etg : (if n =? 1 then 0 else (40 * (n - 1))%cint) = 40 * (n - 1)).
  { destruct (Z.eqb_spec n 1) as [->|_]; [reflexivity|].
    unfold CInt.mul, CInt.sub. repeat small_int. reflexivity. }
  pose proof (Z.quot_rem' room n) as Hqr.
  pose proof (Z.rem_bound_pos room n ltac:(lia) ltac:(lia)) as Hrem.
  pose proof (Z.quot_pos room n ltac:(lia) ltac:(lia)) as Hq.
  assert (Hqu : Z.quot room n <= room) by nia.
  assert (Ecw' : column_width p = Z.quot room n).
  { rewrite Ecw, Etg. unfold CInt.div, CInt.sub.
    repeat small_int. fold room. small_int. reflexivity. }
  assert (Ech' : column_height p
                 = page_height p - opt_top_margin o - header_sep p
                   - opt_bottom_margin o).
  { rewrite Ech. unfold CInt.sub. repeat small_int. reflexivity. }
  unfold used. rewrite En, El, Er, Et, Eb, Eg, Ech', Ecw'.
  fold n. unfold room in *. repeat split; lia.
Qed.

(* =============================================================== *)
(** ** The list of lines *)

Definition flagged (line_link : LineLink) : bool :=
  negb (formfeed line_link =? 0).

(** A paragraph that asks for a break and has a line to carry it. *)
Definition breaking (para : Paragraph) : bool :=
  negb (para_formfeed para =? 0)
  && match para_layout para with [] => false | _ :: _ => true end.

Lemma paragraph_lines_extents para n lines : forall i,
  Forall (fun line_link =>
            logical_rect line_link = line_logical (pango_line line_link)
            /\ ink_rect line_link = line_ink (pango_line line_link)
            /\ (formfeed line_link = 0 \/ formfeed line_link = 1))
    (paragraph_lines para n i lines).
Proof.
  induction lines as [|line rest IH]; intros i; simpl; constructor.
  - simpl. repeat split.
    destruct (negb (para_formfeed para =? 0) && (i =? n - 1)); auto.
  - apply IH.
Qed.

Lemma paragraph_lines_flagged para lines : forall i n,
  n = i + Z.of_nat (List.length lines) ->
  List.length (filter flagged (paragraph_lines para n i lines))
  = if negb (para_formfeed para =? 0)
       && match lines with [] => false | _ :: _ => true end
    then 1%nat else 0%nat.
Proof.
  induction lines as [|line rest IH]; intros i n Hn.
  - simpl. rewrite andb_false_r. reflexivity.
  - cbn [paragraph_lines filter]. unfold flagged at 1.
    cbn [make_line_link pango_layout_line_get_extents formfeed].
    cbn [List.length] in Hn.
    specialize (IH (i + 1) n ltac:(lia)).
    destruct (negb (para_formfeed para =? 0)); cbn [andb] in *;
      [|cbn [Z.eqb negb List.length]; exact IH].
    destruct rest as [|line' rest'].
    + replace (i =? n - 1) with true
        by (symmetry; apply Z.eqb_eq; simpl in Hn; lia).
      reflexivity.
    + replace (i =? n - 1) with false
        by (symmetry; apply Z.eqb_neq; cbn [List.length] in Hn; lia).
      cbn [Z.eqb negb]. exact IH.
Qed.

Lemma pango_lines_of_paragraphs paragraphs :
  map pango_line (split_paragraphs_into_lines paragraphs)
  = List.concat (map para_layout paragraphs).
Proof.
  rewrite split_paragraphs_into_lines_spec.
  induction paragraphs as [|para next IH]; cbn [flat_map map List.concat];
    [reflexivity|].
  rewrite map_app, IH, paragraph_lines_pango_line. reflexivity.
Qed.

(** [split_paragraphs_into_lines] lists the lines of the paragraphs in
    the order of the text, none lost and none added; each carries the
    extents Pango reports for it, so that the height the flow reckons
    with is that of the line drawn; and the lines flagged for a break
    are as many as the paragraphs that ask for one and have a line: a
    paragraph without lines loses its form feed. *)
Theorem lines_in_text_order paragraphs :
  let pango_lines := split_paragraphs_into_lines paragraphs in
  map pango_line pango_lines = List.concat (map para_layout paragraphs)
  /\ Forall (fun line_link =>
               logical_rect line_link = line_logical (pango_line line_link)
               /\ ink_rect line_link = line_ink (pango_line line_link)
               /\ (formfeed line_link = 0 \/ formfeed line_link = 1))
       pango_lines
  /\ List.length (filter flagged pango_lines)
     = List.length (filter breaking paragraphs).
Proof.
  cbv zeta. rewrite split_paragraphs_into_lines_spec.
  induction paragraphs as [|para next (IH1 & IH2 & IH3)];
    cbn [flat_map map List.concat filter].
  - repeat split. constructor.
  - rewrite map_app, filter_app, length_app, IH1, IH3,
      paragraph_lines_pango_line.
    split; [reflexivity|]. split.
    + apply Forall_app. split; [apply paragraph_lines_extents | exact IH2].
    + rewrite (paragraph_lines_flagged para (para_layout para) 0)
        by (unfold pango_layout_get_line_count; lia).
      unfold breaking.
      destruct (negb (para_formfeed para =? 0)
                && match para_layout para with
                   | [] => false
                   | _ :: _ => true
                   end); reflexivity.
Qed.

(* =============================================================== *)
(** ** Strings *)

Lemma append_nil_r (s : string) : (s ++ "")%string = s.
Proof. induction s as [|c s IH]; simpl; [|rewrite IH]; reflexivity. Qed.

Lemma append_assoc (a b c : string) :
  ((a ++ b) ++ c)%string = (a ++ b ++ c)%string.
Proof. induction a as [|x a IH]; simpl; [|rewrite IH]; reflexivity. Qed.

Lemma length_append (a b : string) :
  String.length (a ++ b) = (String.length a + String.length b)%nat.
Proof. induction a as [|x a IH]; simpl; [|rewrite IH]; reflexivity. Qed.

Lemma string_from_append (a b : string) :
  string_from (String.length a) (a ++ b) = b.
Proof. induction a as [|x a IH]; simpl; [destruct b|]; auto. Qed.

Lemma string_take_append (a b : string) :
  string_take (String.length a) (a ++ b) = a.
Proof. induction a as [|x a IH]; simpl; [destruct b|rewrite IH]; auto. Qed.

Lemma deref_append (a b : string) :
  deref (a ++ b) (String.length a)
  = Some match b with EmptyString => NUL | String c _ => c end.
Proof.
  unfold deref.
  assert (H : String.get (String.length a) (a ++ b) = String.get 0 b)
    by (induction a as [|x a IH]; simpl; auto).
  rewrite H. destruct b as [|c r]; simpl.
  - rewrite append_nil_r, Nat.eqb_refl. reflexivity.
  - reflexivity.
Qed.

Lemma c_str_no_NUL (s : string) : no_NUL s = true -> c_str s = s.
Proof.
  induction s as [|c s IH]; simpl; [reflexivity|].
  intros H. apply andb_true_iff in H. destruct H as [Hc Hs].
  destruct (Ascii.eqb c NUL); [discriminate|]. rewrite IH; auto.
Qed.

Lemma no_NUL_c_str (s : string) : no_NUL (c_str s) = true.
Proof.
  induction s as [|c s IH]; simpl; [reflexivity|].
  destruct (Ascii.eqb c NUL) eqn:E; simpl; [reflexivity|].
  rewrite E, IH. reflexivity.
Qed.

Lemma no_NUL_append (a b : string) :
  no_NUL (a ++ b) = no_NUL a && no_NUL b.
Proof.
  induction a as [|x a IH]; simpl; [reflexivity|].
  rewrite IH, andb_assoc. reflexivity.
Qed.

Lemma no_separator_append (a b : string) :
  no_separator (a ++ b) = no_separator a && no_separator b.
Proof.
  induction a as [|x a IH]; simpl; [reflexivity|].
  rewrite IH, andb_assoc. reflexivity.
Qed.

Lemma plain_text_append (a b : string) :
  plain_text (a ++ b) = plain_text a && plain_text b.
Proof.
  induction a as [|x a IH]; simpl; [reflexivity|].
  rewrite IH, andb_assoc. reflexivity.
Qed.

Lemma plain_text_no_NUL (s : string) :
  plain_text s = true -> no_NUL s = true.
Proof.
  induction s as [|c s IH]; simpl; [reflexivity|].
  intros H. apply andb_true_iff in H. destruct H as [Hc Hs].
  rewrite (IH Hs), andb_true_r.
  destruct (Ascii.eqb_spec c NUL) as [->|]; [discriminate|reflexivity].
Qed.

Lemma last_char_append (a : string) (c : ascii) :
  last_char (a ++ String c EmptyString) = Some c.
Proof.
  induction a as [|x a IH]; simpl; [reflexivity|].
  rewrite IH. destruct (a ++ String c "")%string eqn:E; [|reflexivity].
  destruct a; discriminate.
Qed.

Lemma last_char_some (s : string) (c : ascii) :
  last_char s = Some c -> exists body, s = (body ++ String c "")%string.
Proof.
  induction s as [|x s IH]; simpl; [discriminate|].
  destruct s as [|y s].
  - intros [= ->]. exists EmptyString. reflexivity.
  - intros H. destruct (IH H) as (body & ->).
    exists (String x body). reflexivity.
Qed.

(* =============================================================== *)
(** ** The calls of [fgets] *)

Lemma fgets_take_spec room : forall s chunk rest stopped,
  fgets_take room s = (chunk, rest, stopped) ->
  s = (chunk ++ rest)%string
  /\ (stopped = false -> rest = EmptyString)
  /\ (stopped = true -> (0 < room)%nat -> chunk <> EmptyString).
Proof.
  induction room as [|room IH]; intros s chunk rest stopped H; simpl in H.
  - injection H as <- <- <-. repeat split; auto.
    + discriminate.
    + intros _ Hr. inversion Hr.
  - destruct s as [|c r].
    + injection H as <- <- <-. repeat split; auto. discriminate.
    + destruct (Ascii.eqb c LF).
      * injection H as <- <- <-. repeat split; auto; discriminate.
      * destruct (fgets_take room r) as [[chunk' rest'] stopped'] eqn:E.
        injection H as <- <- <-.
        destruct (IH _ _ _ _ E) as (Hs & Hr & _).
        repeat split; auto; [rewrite Hs; reflexivity|discriminate].
Qed.

(** What a call of [fgets] leaves: a buffer with at least a byte, taken
    off the input, or NULL, on an error or with nothing left to read. *)
Lemma fgets_spec n file :
  (1 < n)%nat ->
  match fgets n file with
  | (Some buffer, file') =>
      unread file = (buffer ++ unread file')%string
      /\ buffer <> EmptyString
      /\ fails file' = fails file
      /\ error_indicator file' = error_indicator file
  | (None, file') =>
      (fails file = true /\ error_indicator file' = true)
      \/ (fails file = false /\ unread file = EmptyString
          /\ error_indicator file' = error_indicator file)
  end.
Proof.
  intros Hn. unfold fgets.
  destruct (fgets_take (n - 1) (unread file)) as [[chunk rest] stopped]
    eqn:E.
  destruct (fgets_take_spec _ _ _ _ _ E) as (Hs & Hr & Hc).
  destruct stopped.
  - cbn [unread fails error_indicator]. repeat split; auto.
    apply Hc; [reflexivity|lia].
  - rewrite (Hr eq_refl) in Hs. destruct (fails file) eqn:Ef.
    + left. split; reflexivity.
    + destruct chunk as [|c chunk].
      * right. repeat split; auto.
      * cbn [unread fails error_indicator]. rewrite Hs, append_nil_r.
        repeat split; auto. discriminate.
Qed.

(* =============================================================== *)
(** ** Reading the text and cutting it into paragraphs *)

Section Text.

(** [g_utf8_get_char] of glib, given the bytes at the pointer. *)
Variable g_utf8_get_char : string -> Z.

(** The table [g_utf8_skip] of glib, which [g_utf8_next_char] adds to
    the pointer. *)
Variable g_utf8_skip : ascii -> nat.

(** A conversion descriptor and one call of [g_iconv] on the bytes of a
    buffer: the bytes written and the descriptor as the call leaves it,
    or nothing when the call returns -1. *)
Variable GIConv : Type.
Variable g_iconv : GIConv -> string -> option (string * GIConv).

(** The lines Pango breaks a text into for a justification, an
    alignment and a width. *)
Variable pango_layout_lines :
  string -> bool -> PangoAlignment -> Z -> PangoLayout.

(** The end of [read_file], from the comment on the trailing new line
    on.  With nothing read, [inbuf->len - 1] is no index of the
    buffer. *)
Definition read_file_end (inbuf : string) : outcome (option string) :=
  match last_char inbuf with
  | None => Undefined
  | Some c =>
      Returns
        (Some (if negb (Ascii.eqb c LF)
               then (inbuf ++ String LF EmptyString)%string
               else inbuf))
  end.

(** The [while (1)] loop of [read_file]. *)
Fixpoint read_file_loop (fuel : nat) (file : FILE) (handle : option GIConv)
    (inbuf : string) : outcome (option string) :=
  match fuel with
  | O => Unfinished
  | S fuel =>
      let '(bp, file) := fgets (BUFSIZE - 1) file in
      if ferror file then Returns None
      else
        match bp with
        | None => read_file_end inbuf
        | Some buffer =>
            match handle with
            | Some cd =>
                match g_iconv cd (c_str buffer) with
                | None => Returns None
                | Some (obuffer, cd) =>
                    read_file_loop fuel file (Some cd)
                      (inbuf ++ c_str obuffer)%string
                end
            | None =>
                read_file_loop fuel file None (inbuf ++ c_str buffer)%string
            end
        end
  end.

(** [read_file]; every call of [fgets] but the last takes a byte, so
    the loop is through after as many rounds as there are bytes, and
    one. *)
Definition read_file (file : FILE) (handle : option GIConv)
  : outcome (option string) :=
  read_file_loop (S (String.length (unread file))) file handle EmptyString.

(** The paragraph [split_text_into_paragraphs] makes of the bytes from
    [last_para] to [p], ended by the character [wc]. *)
Definition new_paragraph (page_layout : page_layout_t) (paint_width : Z)
    (text : string) (last_para p : nat) (wc : Z) : TextParagraph :=
  let para_text := string_from last_para text in
  let para_length := CInt.wrap (Z.of_nat p - Z.of_nat last_para) in
  let layout :=
    pango_layout_lines (pango_layout_text para_text para_length)
      (do_justify page_layout)
      (if PangoDirection_eqb (pango_dir page_layout) PANGO_DIRECTION_LTR
       then PANGO_ALIGN_LEFT else PANGO_ALIGN_RIGHT)
      (paint_width * PANGO_SCALE)%cint in
  {| para_text := para_text;
     para_length := para_length;
     para_height := 0;
     para_flow :=
       {| para_formfeed := if wc =? 12 then 1 else 0;
          para_layout := layout |} |}.

(** The loop of [split_text_into_paragraphs]; [p] and [last_para] are
    offsets into [text], [result] is the list built so far, newest
    first. *)
Fixpoint split_text_loop (fuel : nat) (page_layout : page_layout_t)
    (paint_width : Z) (text : string) (p last_para : nat)
    (result : list TextParagraph) : outcome (list TextParagraph) :=
  match fuel with
  | O => Unfinished
  | S fuel =>
      match deref text p with
      | None => Undefined
      | Some c =>
          if Ascii.eqb c NUL then Returns result
          else
            let wc := g_utf8_get_char (string_from p text) in
            let next := (p + g_utf8_skip c)%nat in
            let wc := if wc =? gunichar_minus_one then 0 else wc in
            let ends :=
              Ascii.eqb c NUL || (wc =? 0) || (wc =? 10) || (wc =? 12) in
            let result :=
              if ends
              then new_paragraph page_layout paint_width text last_para p wc
                   :: result
              else result in
            let last_para := if ends then next else last_para in
            if wc =? 0 then Returns result
            else
              split_text_loop fuel page_layout paint_width text next
                last_para result
      end
  end.

(** [split_text_into_paragraphs]; [text] is NULL when [read_file] gave
    up.  A loop that is not through after as many rounds as the text
    has bytes has met a character that [g_utf8_skip] gives no length
    and stays on it. *)
Definition split_text_into_paragraphs (page_layout : page_layout_t)
    (paint_width : Z) (text : option string)
  : outcome (list TextParagraph) :=
  match text with
  | None => Returns []
  | Some text =>
      match split_text_loop (S (String.length text)) page_layout
              paint_width text 0 0 [] with
      | Returns result => Returns (rev result)
      | Undefined => Undefined
      | Unfinished => Unfinished
      end
  end.

(** Lines 352-361 of [main]: the text read and cut. *)
Definition main_paragraphs (page_layout : page_layout_t) (IN : FILE)
    (cvh : option GIConv) : outcome (list TextParagraph) :=
  match read_file IN cvh with
  | Returns text =>
      split_text_into_paragraphs page_layout
        (CDouble.to_int
           (CDouble.of_int (column_width page_layout)
            * pt_to_pixel page_layout)%float)
        text
  | Undefined => Undefined
  | Unfinished => Unfinished
  end.

(** [main] from the page layout to the end. *)
Definition main_run (o : options) (IN : FILE) (cvh : option GIConv)
    (dates : nat -> string) : outcome document :=
  match main_page_layout o with
  | None => Undefined
  | Some page_layout =>
      match main_paragraphs page_layout IN cvh with
      | Returns paragraphs =>
          match main_document o (map para_flow paragraphs) dates with
          | Some d => Returns d
          | None => Undefined
          end
      | Undefined => Undefined
      | Unfinished => Unfinished
      end
  end.

(** The decoder reads a byte of ASCII as itself, one byte long. *)
Definition ascii_compatible : Prop :=
  forall c rest,
    plain c = true ->
    g_utf8_get_char (String c rest) = Z.of_nat (nat_of_ascii c)
    /\ g_utf8_skip c = 1%nat.

(** A paragraph cut for a page: no newline and no form feed among its
    bytes, which Pango has laid out with the justification and the
    alignment of the page, [paint_width] pixels wide. *)
Definition cut_for (page_layout : page_layout_t) (paint_width : Z)
    (para : TextParagraph) : Prop :=
  no_separator (paragraph_text para) = true
  /\ para_layout (para_flow para)
     = pango_layout_lines (paragraph_text para) (do_justify page_layout)
         (if PangoDirection_eqb (pango_dir page_layout) PANGO_DIRECTION_LTR
          then PANGO_ALIGN_LEFT else PANGO_ALIGN_RIGHT)
         (paint_width * PANGO_SCALE)%cint.

(** [paint_width] as [main] passes it. *)
Definition main_paint_width (page_layout : page_layout_t) : Z :=
  CDouble.to_int
    (CDouble.of_int (column_width page_layout) * pt_to_pixel page_layout)%float.

(* --------------------------------------------------------------- *)
(** *** [read_file] *)

Lemma BUFSIZE_room : (1 < BUFSIZE - 1)%nat.
Proof. apply Nat.ltb_lt. vm_compute. reflexivity. Qed.

Lemma read_file_loop_plain : forall fuel file inbuf,
  fails file = false ->
  error_indicator file = false ->
  no_NUL (unread file) = true ->
  (String.length (unread file) < fuel)%nat ->
  read_file_loop fuel file None inbuf
  = read_file_end (inbuf ++ unread file).
Proof.
  induction fuel as [|fuel IH]; intros file inbuf Hf He Hn Hl; [lia|].
  cbn [read_file_loop].
  pose proof (fgets_spec (BUFSIZE - 1) file BUFSIZE_room) as Hs.
  destruct (fgets (BUFSIZE - 1) file) as [[buffer|] file'].
  - destruct Hs as (Hu & Hb & Hf' & He').
    unfold ferror. rewrite He', He.
    rewrite Hu, no_NUL_append in Hn. apply andb_true_iff in Hn.
    destruct Hn as [Hn1 Hn2].
    rewrite (c_str_no_NUL _ Hn1), IH; try congruence.
    + rewrite Hu, append_assoc. reflexivity.
    + rewrite Hu, length_append in Hl.
      destruct buffer; [congruence|]. simpl in Hl. lia.
  - destruct Hs as [[Hf' _]|(_ & Hu & He')]; [congruence|].
    unfold ferror. rewrite He', He, Hu, append_nil_r. reflexivity.
Qed.

Lemma read_file_loop_fails : forall fuel file handle inbuf,
  fails file = true ->
  (String.length (unread file) < fuel)%nat ->
  read_file_loop fuel file handle inbuf = Returns None.
Proof.
  induction fuel as [|fuel IH]; intros file handle inbuf Hf Hl; [lia|].
  cbn [read_file_loop].
  pose proof (fgets_spec (BUFSIZE - 1) file BUFSIZE_room) as Hs.
  destruct (fgets (BUFSIZE - 1) file) as [[buffer|] file'].
  - destruct Hs as (Hu & Hb & Hf' & He').
    assert (Hl' : (String.length (unread file') < fuel)%nat).
    { rewrite Hu, length_append in Hl.
      destruct buffer; [congruence|]. simpl in Hl. lia. }
    destruct (ferror file'); [reflexivity|].
    destruct handle as [cd|].
    + destruct (g_iconv cd (c_str buffer)) as [[obuffer cd']|];
        [|reflexivity].
      apply IH; congruence.
    + apply IH; congruence.
  - destruct Hs as [[_ He']|(Hf' & _)]; [|congruence].
    unfold ferror. rewrite He'. reflexivity.
Qed.

Lemma read_file_loop_ends : forall fuel file handle inbuf,
  (String.length (unread file) < fuel)%nat ->
  read_file_loop fuel file handle inbuf <> Unfinished.
Proof.
  induction fuel as [|fuel IH]; intros file handle inbuf Hl; [lia|].
  cbn [read_file_loop].
  pose proof (fgets_spec (BUFSIZE - 1) file BUFSIZE_room) as Hs.
  destruct (fgets (BUFSIZE - 1) file) as [[buffer|] file'].
  - destruct Hs as (Hu & Hb & _).
    assert (Hl' : (String.length (unread file') < fuel)%nat).
    { rewrite Hu, length_append in Hl.
      destruct buffer; [congruence|]. simpl in Hl. lia. }
    destruct (ferror file'); [discriminate|].
    destruct handle as [cd|].
    + destruct (g_iconv cd (c_str buffer)) as [[obuffer cd']|];
        [|discriminate].
      apply IH. exact Hl'.
    + apply IH. exact Hl'.
  - destruct (ferror file'); [discriminate|].
    unfold read_file_end. destruct (last_char inbuf); discriminate.
Qed.

Lemma read_file_end_text inbuf t :
  no_NUL inbuf = true ->
  read_file_end inbuf = Returns (Some t) ->
  no_NUL t = true /\ last_char t = Some LF.
Proof.
  intros Hn. unfold read_file_end.
  destruct (last_char inbuf) as [c|] eqn:El; [|discriminate].
  intros [= <-]. destruct (Ascii.eqb_spec c LF) as [->|Hc]; cbn [negb].
  - auto.
  - rewrite no_NUL_append, Hn, last_char_append. auto.
Qed.

Lemma read_file_loop_text : forall fuel file handle inbuf t,
  no_NUL inbuf = true ->
  read_file_loop fuel file handle inbuf = Returns (Some t) ->
  no_NUL t = true /\ last_char t = Some LF.
Proof.
  induction fuel as [|fuel IH]; intros file handle inbuf t Hn;
    [discriminate|].
  cbn [read_file_loop].
  destruct (fgets (BUFSIZE - 1) file) as [[buffer|] file'].
  - destruct (ferror file'); [discriminate|].
    destruct handle as [cd|].
    + destruct (g_iconv cd (c_str buffer)) as [[obuffer cd']|];
        [|discriminate].
      apply IH. rewrite no_NUL_append, Hn, no_NUL_c_str. reflexivity.
    + apply IH. rewrite no_NUL_append, Hn, no_NUL_c_str. reflexivity.
  - destruct (ferror file'); [discriminate|].
    apply read_file_end_text. exact Hn.
Qed.

(** Read without a converter from a device that does not fail, a file
    without NUL bytes comes back whole, with a newline added unless it
    ends in one.  Of an empty file there is no last byte to look at:
    [read_file] reads the byte before its buffer. *)
Theorem read_file_keeps_bytes contents :
  no_NUL contents = true ->
  read_file {| unread := contents; fails := false;
               error_indicator := false |} None
  = match last_char contents with
    | None => Undefined
    | Some c =>
        Returns
          (Some (if Ascii.eqb c LF then contents
                 else (contents ++ String LF EmptyString)%string))
    end.
Proof.
  intros Hn. unfold read_file. cbn [unread].
  rewrite read_file_loop_plain; cbn [unread fails error_indicator];
    auto.
  unfold read_file_end. cbn [append].
  destruct (last_char contents) as [c|]; [|reflexivity].
  destruct (Ascii.eqb c LF); reflexivity.
Qed.

(** When the device fails, [read_file] returns NULL, whatever it had
    read until then and whatever the converter does: no part of the
    text is handed on. *)
Theorem read_error_gives_no_text file handle :
  fails file = true ->
  read_file file handle = Returns None.
Proof.
  intros Hf. unfold read_file.
  apply read_file_loop_fails; [exact Hf|]. lia.
Qed.

(** [read_file] comes to an end on every file, with every converter;
    and a text it returns has no NUL byte and ends in a newline. *)
Theorem read_file_text_ends_in_newline file handle :
  read_file file handle <> Unfinished
  /\ forall t,
       read_file file handle = Returns (Some t) ->
       no_NUL t = true
       /\ exists body, t = (body ++ String LF EmptyString)%string.
Proof.
  unfold read_file. split.
  - apply read_file_loop_ends. lia.
  - intros t Ht.
    destruct (read_file_loop_text _ _ _ EmptyString _ eq_refl Ht)
      as [Hn Hl].
    split; [exact Hn|]. apply last_char_some. exact Hl.
Qed.

(* --------------------------------------------------------------- *)
(** *** [split_text_into_paragraphs] *)

Lemma plain_code c :
  plain c = true ->
  let wc := Z.of_nat (nat_of_ascii c) in
  Ascii.eqb c NUL = false
  /\ (wc =? gunichar_minus_one) = false
  /\ (wc =? 0) = false
  /\ (wc =? 10) = Ascii.eqb c LF
  /\ (wc =? 12) = Ascii.eqb c FF.
Proof.
  destruct c as [[] [] [] [] [] [] [] []]; intros H; vm_compute in H;
    try discriminate H; vm_compute; repeat split.
Qed.

Lemma last_char_no_separator s c :
  no_separator s = true -> last_char s = Some c -> separator c = false.
Proof.
  induction s as [|x s IH]; simpl; [discriminate|].
  intros H. apply andb_true_iff in H. destruct H as [Hx Hs].
  destruct s as [|y s].
  - intros [= <-]. apply negb_true_iff. exact Hx.
  - apply IH. exact Hs.
Qed.

Lemma last_char_append_r a b :
  b <> EmptyString -> last_char (a ++ b) = last_char b.
Proof.
  intros Hb. induction a as [|x a IH]; simpl; [reflexivity|].
  rewrite IH. destruct (a ++ b)%string eqn:E; [|reflexivity].
  destruct a; [simpl in E; congruence|discriminate].
Qed.

(** The paragraph made at the end of [cur] holds [cur]. *)
Lemma new_paragraph_text page_layout paint_width text done cur rest wc :
  text = (done ++ cur ++ rest)%string ->
  no_NUL cur = true ->
  Z.of_nat (String.length text) <= CInt.INT_MAX ->
  let para :=
    new_paragraph page_layout paint_width text (String.length done)
      (String.length done + String.length cur) wc in
  paragraph_text para = cur
  /\ para_flow para
     = {| para_formfeed := if wc =? 12 then 1 else 0;
          para_layout :=
            pango_layout_lines cur (do_justify page_layout)
              (if PangoDirection_eqb (pango_dir page_layout)
                    PANGO_DIRECTION_LTR
               then PANGO_ALIGN_LEFT else PANGO_ALIGN_RIGHT)
              (paint_width * PANGO_SCALE)%cint |}.
Proof.
  intros Ht Hn Hl.
  assert (Hp : pango_layout_text
                 (string_from (String.length done) text)
                 (CInt.wrap
                    (Z.of_nat (String.length done + String.length cur)
                     - Z.of_nat (String.length done)))
               = cur).
  { rewrite Ht, !length_append in Hl.
    rewrite Ht, string_from_append, Nat2Z.inj_add.
    replace (Z.of_nat (String.length done) + Z.of_nat (String.length cur)
             - Z.of_nat (String.length done))
      with (Z.of_nat (String.length cur)) by lia.
    rewrite CInt.wrap_small
      by (unfold CInt.in_range, CInt.INT_MIN, CInt.INT_MAX in *; lia).
    unfold pango_layout_text.
    replace (Z.of_nat (String.length cur) <? 0) with false
      by (symmetry; apply Z.ltb_ge; lia).
    rewrite Nat2Z.id, string_take_append. apply c_str_no_NUL, Hn. }
  cbv zeta. unfold paragraph_text, new_paragraph.
  cbn [para_text para_length para_flow]. rewrite Hp. auto.
Qed.

(** A round of the loop on a byte of ASCII. *)
Lemma split_text_loop_plain_step page_layout paint_width text done cur c
    rest fuel result :
  ascii_compatible ->
  text = (done ++ cur ++ String c rest)%string ->
  plain c = true ->
  let p := (String.length done + String.length cur)%nat in
  split_text_loop (S fuel) page_layout paint_width text p
    (String.length done) result
  = if separator c
    then split_text_loop fuel page_layout paint_width text (p + 1)
           (p + 1)
           (new_paragraph page_layout paint_width text
              (String.length done) p (Z.of_nat (nat_of_ascii c))
            :: result)
    else split_text_loop fuel page_layout paint_width text (p + 1)
           (String.length done) result.
Proof.
  intros Ha Ht Hc p. cbn [split_text_loop].
  assert (Hd : deref text p = Some c).
  { subst p. rewrite Ht, <- append_assoc, <- length_append.
    apply deref_append. }
  assert (Hf : string_from p text = String c rest).
  { subst p. rewrite Ht, <- append_assoc, <- length_append.
    apply string_from_append. }
  rewrite Hd, Hf. destruct (Ha c rest Hc) as [-> ->].
  destruct (plain_code c Hc) as (-> & -> & -> & -> & ->).
  cbn [orb]. unfold separator.
  destruct (Ascii.eqb c LF || Ascii.eqb c FF); reflexivity.
Qed.

(** The loop on a text of ASCII: [done] is cut into paragraphs, [cur]
    is the paragraph under way, [rest] is to come. *)
Lemma split_text_loop_plain page_layout paint_width text :
  ascii_compatible ->
  Z.of_nat (String.length text) <= CInt.INT_MAX ->
  forall rest done cur result fuel,
    text = (done ++ cur ++ rest)%string ->
    plain_text rest = true ->
    no_separator cur = true ->
    no_NUL cur = true ->
    (String.length rest < fuel)%nat ->
    exists new tail,
      split_text_loop fuel page_layout paint_width text
        (String.length done + String.length cur) (String.length done)
        result
      = Returns (rev new ++ result)
      /\ (cur ++ rest)%string = (rejoin new ++ tail)%string
      /\ no_separator tail = true
      /\ Forall (cut_for page_layout paint_width) new.
Proof.
  intros Ha Hl.
  induction rest as [|c rest IH]; intros done cur result fuel Ht Hp Hs Hn
    Hf.
  - exists [], cur. destruct fuel as [|fuel]; [simpl in Hf; lia|].
    cbn [split_text_loop].
    rewrite Ht, <- append_assoc, <- length_append, deref_append.
    rewrite !append_nil_r. repeat split; auto.
  - destruct fuel as [|fuel]; [lia|].
    cbn [plain_text] in Hp. apply andb_true_iff in Hp.
    destruct Hp as [Hc Hp].
    rewrite (split_text_loop_plain_step page_layout paint_width text
               done cur c rest fuel result Ha Ht Hc).
    destruct (new_paragraph_text page_layout paint_width text done cur
                (String c rest) (Z.of_nat (nat_of_ascii c)) Ht Hn Hl)
      as [Hx Hy].
    set (para := new_paragraph _ _ _ _ _ _) in *.
    destruct (separator c) eqn:Es.
    + destruct (IH (done ++ cur ++ String c EmptyString)%string
                  EmptyString (para :: result) fuel)
        as (new & tail & Hr & Hj & Ht' & Hall); auto.
      * rewrite Ht, !append_assoc. reflexivity.
      * cbn [String.length] in Hf. lia.
      * exists (para :: new), tail.
        rewrite !length_append in Hr. cbn [String.length] in Hr.
        replace (String.length done + (String.length cur + 1) + 0)%nat
          with (String.length done + String.length cur + 1)%nat in Hr
          by lia.
        replace (String.length done + (String.length cur + 1))%nat
          with (String.length done + String.length cur + 1)%nat in Hr
          by lia.
        rewrite Hr. cbn [rev]. rewrite <- app_assoc.
        split; [reflexivity|]. cbn [rejoin]. rewrite Hx.
        assert (Hterm : terminator para = String c EmptyString).
        { unfold terminator. rewrite Hy. cbn [para_formfeed].
          destruct (plain_code c Hc) as (_ & _ & _ & H10 & H12).
          cbv zeta in H10, H12. rewrite H12.
          unfold separator in Es.
          destruct (Ascii.eqb_spec c FF) as [->|Hff]; [reflexivity|].
          destruct (Ascii.eqb_spec c LF) as [->|Hlf]; [reflexivity|].
          discriminate. }
        rewrite Hterm, !append_assoc. cbn [append] in Hj |- *.
        rewrite <- Hj.
        repeat split; auto. constructor; [|exact Hall].
        split; [rewrite Hx; exact Hs|]. rewrite Hy, Hx. reflexivity.
    + destruct (IH done (cur ++ String c EmptyString)%string result fuel)
        as (new & tail & Hr & Hj & Ht' & Hall); auto.
      * rewrite Ht, !append_assoc. reflexivity.
      * rewrite no_separator_append, Hs. cbn [no_separator].
        rewrite Es. reflexivity.
      * rewrite no_NUL_append, Hn. cbn [no_NUL].
        destruct (plain_code c Hc) as (-> & _). reflexivity.
      * cbn [String.length] in Hf. lia.
      * exists new, tail.
        rewrite length_append in Hr. cbn [String.length] in Hr.
        replace (String.length done + (String.length cur + 1))%nat
          with (String.length done + String.length cur + 1)%nat in Hr
          by lia.
        rewrite Hr. rewrite append_assoc in Hj. cbn [append] in Hj.
        repeat split; auto.
Qed.

(** A text of ASCII is cut at its newlines and form feeds: the
    paragraphs, each followed by the byte that ended it, spell the text
    up to its last newline or form feed; none holds a newline or a form
    feed; a paragraph is flagged when a form feed ended it, and laid
    out from its own bytes.  What follows the last newline or form feed
    is in no paragraph. *)
Theorem plain_text_paragraphs page_layout paint_width text :
  ascii_compatible ->
  Z.of_nat (String.length text) <= CInt.INT_MAX ->
  plain_text text = true ->
  exists paragraphs tail,
    split_text_into_paragraphs page_layout paint_width (Some text)
    = Returns paragraphs
    /\ text = (rejoin paragraphs ++ tail)%string
    /\ no_separator tail = true
    /\ Forall (cut_for page_layout paint_width) paragraphs.
Proof.
  intros Ha Hl Hp.
  destruct (split_text_loop_plain page_layout paint_width text Ha Hl
              text EmptyString EmptyString []
              (S (String.length text)))
    as (new & tail & Hr & Hj & Ht & Hall); auto.
  exists new, tail. unfold split_text_into_paragraphs.
  cbn [String.length Nat.add] in Hr. rewrite Hr, app_nil_r, rev_involutive.
  auto.
Qed.

(** The fuel of [split_text_into_paragraphs] is enough whenever
    [g_utf8_skip] moves the pointer on: the loop then ends or reads
    past the text. *)
Lemma split_text_loop_ends page_layout paint_width text :
  (forall c, (1 <= g_utf8_skip c)%nat) ->
  forall fuel p last_para result,
    (String.length text - p < fuel)%nat ->
    split_text_loop fuel page_layout paint_width text p last_para result
    <> Unfinished.
Proof.
  intros Hskip.
  induction fuel as [|fuel IH]; intros p last_para result Hf; [lia|].
  cbn [split_text_loop]. unfold deref.
  destruct (String.get p text) as [c|] eqn:Eg.
  - destruct (Ascii.eqb c NUL); [discriminate|].
    match goal with
    | |- (if ?b then _ else _) <> _ => destruct b; [discriminate|]
    end.
    apply IH. specialize (Hskip c).
    assert (p < String.length text)%nat; [|lia].
    destruct (Nat.lt_ge_cases p (String.length text)) as [|Hge]; auto.
    assert (String.get p text = None) by
      (clear - Hge; revert p Hge;
       induction text as [|x t IHt]; intros [|p] Hge; simpl in *;
       auto; try lia; apply IHt; lia).
    congruence.
  - destruct (p =? String.length text)%nat; [|discriminate].
    change (Ascii.eqb NUL NUL) with true. discriminate.
Qed.

(** The bytes [t], with [rest] behind them, are one character to the
    decoder: as long as [g_utf8_skip] says, without a NUL, decoded to
    something other than 0 and [(gunichar)-1]; a newline and a form
    feed are the single bytes of ASCII, and no other character holds
    these bytes. *)
Definition character (t rest : string) : bool :=
  match t with
  | EmptyString => false
  | String c bytes =>
      let wc := g_utf8_get_char (t ++ rest) in
      negb (Ascii.eqb c NUL)
      && no_NUL bytes
      && (g_utf8_skip c =? String.length t)%nat
      && negb (wc =? 0)
      && negb (wc =? gunichar_minus_one)
      && (if wc =? 10 then String.eqb t (String LF EmptyString)
          else if wc =? 12 then String.eqb t (String FF EmptyString)
          else no_separator t)
  end.

(** A text given character by character. *)
Fixpoint well_formed (characters : list string) : bool :=
  match characters with
  | [] => true
  | t :: rest => character t (join rest) && well_formed rest
  end.

(** The loop on a well-formed text: [done] is cut into paragraphs,
    [cur] is the paragraph under way, [characters] are to come. *)
Lemma split_text_loop_well_formed page_layout paint_width text :
  Z.of_nat (String.length text) <= CInt.INT_MAX ->
  forall characters done cur result fuel,
    text = (done ++ cur ++ join characters)%string ->
    well_formed characters = true ->
    no_separator cur = true ->
    no_NUL cur = true ->
    (String.length (join characters) < fuel)%nat ->
    exists new tail,
      split_text_loop fuel page_layout paint_width text
        (String.length done + String.length cur) (String.length done)
        result
      = Returns (rev new ++ result)
      /\ (cur ++ join characters)%string = (rejoin new ++ tail)%string
      /\ no_separator tail = true
      /\ Forall (cut_for page_layout paint_width) new.
Proof.
  intros Hl.
  induction characters as [|t rest IH];
    intros done cur result fuel Ht Hw Hs Hn Hf.
  - exists [], cur. destruct fuel as [|fuel]; [simpl in Hf; lia|].
    cbn [split_text_loop join] in *.
    rewrite Ht, <- append_assoc, <- length_append, deref_append.
    rewrite !append_nil_r. repeat split; auto.
  - destruct fuel as [|fuel]; [lia|].
    cbn [well_formed join] in *. apply andb_true_iff in Hw.
    destruct Hw as [Hc Hw]. unfold character in Hc.
    destruct t as [|c bytes]; [discriminate|].
    repeat (apply andb_true_iff in Hc; destruct Hc as [Hc ?]).
    match goal with H : (if _ then _ else _) = true |- _ =>
      rename H into Hkind end.
    match goal with H : negb (_ =? gunichar_minus_one) = true |- _ =>
      apply negb_true_iff in H; rename H into Hm1 end.
    match goal with H : negb (_ =? 0) = true |- _ =>
      apply negb_true_iff in H; rename H into H0 end.
    match goal with H : (_ =? _)%nat = true |- _ =>
      apply Nat.eqb_eq in H; rename H into Hskip end.
    match goal with H : no_NUL _ = true |- _ =>
      match H with Hn => fail 1 | _ => rename H into Hbytes end end.
    apply negb_true_iff in Hc.
    set (t := String c bytes) in *. set (p := (_ + _)%nat).
    assert (Hd : deref text p = Some c)
      by (subst p; rewrite Ht, <- append_assoc, <- length_append;
          apply deref_append).
    assert (Hfrom : string_from p text = (t ++ join rest)%string)
      by (subst p; rewrite Ht, <- append_assoc, <- length_append;
          apply string_from_append).
    destruct (new_paragraph_text page_layout paint_width text done cur
                (t ++ join rest)
                (g_utf8_get_char (t ++ join rest)) Ht Hn Hl)
      as [Hx Hy].
    fold p in Hx, Hy.
    assert (Hlt : (1 <= String.length t)%nat)
      by (subst t; cbn [String.length]; lia).
    rewrite length_append in Hf.
    cbn [split_text_loop]. rewrite Hd, Hc, Hfrom, Hm1, H0, Hskip.
    cbn [orb].
    set (para := new_paragraph _ _ _ _ _ _) in *.
    destruct ((g_utf8_get_char (t ++ join rest) =? 10)
              || (g_utf8_get_char (t ++ join rest) =? 12)) eqn:Ends.
    + assert (Hterm : terminator para = t).
      { unfold terminator. rewrite Hy. cbn [para_formfeed].
        destruct (g_utf8_get_char (t ++ join rest) =? 10) eqn:E10.
        - apply Z.eqb_eq in E10. rewrite E10. cbn [Z.eqb Pos.eqb].
          apply String.eqb_eq in Hkind. auto.
        - cbn [orb] in Ends. rewrite Ends in *. cbn [Z.eqb].
          apply String.eqb_eq in Hkind. auto. }
      destruct (IH (done ++ cur ++ t)%string EmptyString
                  (para :: result) fuel)
        as (new & tail & Hr & Hj & Ht' & Hall); auto; try lia.
      * rewrite Ht, !append_assoc. reflexivity.
      * exists (para :: new), tail.
        rewrite !length_append in Hr. cbn [String.length] in Hr.
        replace (String.length done
                 + (String.length cur + String.length t) + 0)%nat
          with (p + String.length t)%nat in Hr by (subst p; lia).
        replace (String.length done
                 + (String.length cur + String.length t))%nat
          with (p + String.length t)%nat in Hr by (subst p; lia).
        rewrite Hr. cbn [rev]. rewrite <- app_assoc.
        split; [reflexivity|]. cbn [rejoin].
        rewrite Hx, Hterm, !append_assoc. cbn [append] in Hj.
        rewrite <- Hj.
        repeat split; auto. constructor; [|exact Hall].
        split; [rewrite Hx; exact Hs|]. rewrite Hy, Hx. reflexivity.
    + apply orb_false_iff in Ends. destruct Ends as [E10 E12].
      rewrite E10, E12 in Hkind.
      destruct (IH done (cur ++ t)%string result fuel)
        as (new & tail & Hr & Hj & Ht' & Hall); auto; try lia.
      * rewrite Ht, !append_assoc. reflexivity.
      * rewrite no_separator_append, Hs, Hkind. reflexivity.
      * rewrite no_NUL_append, Hn. subst t. cbn [no_NUL].
        rewrite Hc, Hbytes. reflexivity.
      * exists new, tail.
        rewrite length_append in Hr.
        replace (String.length done
                 + (String.length cur + String.length t))%nat
          with (p + String.length t)%nat in Hr by (subst p; lia).
        rewrite Hr. rewrite append_assoc in Hj.
        repeat split; auto.
Qed.

(** A text in which the decoder finds one character after the other,
    of however many bytes each, is cut at the characters newline and
    form feed and nowhere else: the paragraphs, each followed by the
    byte that ended it, spell the text up to its last newline or form
    feed, and none holds either byte. *)
Theorem well_formed_text_paragraphs page_layout paint_width characters :
  well_formed characters = true ->
  Z.of_nat (String.length (join characters)) <= CInt.INT_MAX ->
  exists paragraphs tail,
    split_text_into_paragraphs page_layout paint_width
      (Some (join characters))
    = Returns paragraphs
    /\ join characters = (rejoin paragraphs ++ tail)%string
    /\ no_separator tail = true
    /\ Forall (cut_for page_layout paint_width) paragraphs.
Proof.
  intros Hw Hl.
  destruct (split_text_loop_well_formed page_layout paint_width
              (join characters) Hl characters EmptyString EmptyString []
              (S (String.length (join characters))))
    as (new & tail & Hr & Hj & Ht & Hall); auto.
  exists new, tail. unfold split_text_into_paragraphs.
  cbn [String.length Nat.add append] in Hr, Hj.
  rewrite Hr, app_nil_r, rev_involutive. auto.
Qed.

(** Two lists of paragraphs that print alike: the same bytes, flags
    and layouts. *)
Definition same_paragraphs (a b : list TextParagraph) : Prop :=
  map paragraph_text a = map paragraph_text b
  /\ map para_flow a = map para_flow b.

(** The loop on a text of ASCII cut short by bytes that are no
    character, beside the loop on the same text ended by a newline. *)
Lemma split_text_loop_invalid page_layout paint_width text1 text2 b bad :
  ascii_compatible ->
  Z.of_nat (String.length text1) <= CInt.INT_MAX ->
  Z.of_nat (String.length text2) <= CInt.INT_MAX ->
  Ascii.eqb b NUL = false ->
  g_utf8_get_char (String b bad) = gunichar_minus_one
  \/ g_utf8_get_char (String b bad) = 0 ->
  forall rest done cur result1 result2 fuel1 fuel2,
    text1 = (done ++ cur ++ rest ++ String b bad)%string ->
    text2 = (done ++ cur ++ rest ++ String LF EmptyString)%string ->
    plain_text rest = true ->
    no_NUL cur = true ->
    (String.length rest < fuel1)%nat ->
    (String.length rest + 1 < fuel2)%nat ->
    same_paragraphs result1 result2 ->
    exists r1 r2,
      split_text_loop fuel1 page_layout paint_width text1
        (String.length done + String.length cur) (String.length done)
        result1
      = Returns r1
      /\ split_text_loop fuel2 page_layout paint_width text2
           (String.length done + String.length cur) (String.length done)
           result2
         = Returns r2
      /\ same_paragraphs r1 r2.
Proof.
  intros Ha Hl1 Hl2 Hb Hg.
  induction rest as [|c rest IH];
    intros done cur result1 result2 fuel1 fuel2 Ht1 Ht2 Hp Hn Hf1 Hf2
      [Hr1 Hr2].
  - destruct fuel1 as [|fuel1]; [simpl in Hf1; lia|].
    destruct fuel2 as [|[|fuel2]]; try (simpl in Hf2; lia).
    cbn [append] in Ht1, Ht2.
    destruct (new_paragraph_text page_layout paint_width text1 done cur
                (String b bad) 0 Ht1 Hn Hl1) as [Hx1 Hy1].
    destruct (new_paragraph_text page_layout paint_width text2 done cur
                (String LF EmptyString) 10 Ht2 Hn Hl2) as [Hx2 Hy2].
    eexists. eexists. split; [|split].
    + cbn [split_text_loop].
      assert (Hd : deref text1 (String.length done + String.length cur)
                   = Some b)
        by (rewrite Ht1, <- append_assoc, <- length_append;
            apply deref_append).
      assert (Hs : string_from (String.length done + String.length cur)
                     text1
                   = String b bad)
        by (rewrite Ht1, <- append_assoc, <- length_append;
            apply string_from_append).
      rewrite Hd, Hb, Hs.
      assert (Hw : (if g_utf8_get_char (String b bad)
                       =? gunichar_minus_one
                    then 0 else g_utf8_get_char (String b bad)) = 0)
        by (destruct Hg as [-> | ->]; reflexivity).
      rewrite Hw. cbn [orb Z.eqb]. reflexivity.
    + rewrite (split_text_loop_plain_step page_layout paint_width text2
                 done cur LF EmptyString (S fuel2) result2 Ha Ht2
                 eq_refl).
      change (separator LF) with true. cbv iota.
      cbn [split_text_loop].
      assert (Hd : deref text2
                     (String.length done + String.length cur + 1)
                   = Some NUL).
      { replace (String.length done + String.length cur + 1)%nat
          with (String.length
                  ((done ++ cur ++ String LF EmptyString) ++ "")%string)
          by (rewrite append_nil_r, !length_append;
              cbn [String.length]; lia).
        rewrite Ht2 at 1.
        replace (done ++ cur ++ String LF "")%string
          with ((done ++ cur ++ String LF "") ++ "")%string at 1
          by apply append_nil_r.
        rewrite append_nil_r at 2. apply deref_append. }
      rewrite Hd. change (Ascii.eqb NUL NUL) with true. cbv iota.
      reflexivity.
    + unfold same_paragraphs. cbn [map].
      change (Z.of_nat (nat_of_ascii LF)) with 10.
      rewrite Hx1, Hx2, Hy1, Hy2, Hr1, Hr2. auto.
  - destruct fuel1 as [|fuel1]; [lia|].
    destruct fuel2 as [|fuel2]; [lia|].
    cbn [plain_text] in Hp. apply andb_true_iff in Hp.
    destruct Hp as [Hc Hp]. cbn [append] in Ht1, Ht2.
    rewrite (split_text_loop_plain_step page_layout paint_width text1
               done cur c _ fuel1 result1 Ha Ht1 Hc).
    rewrite (split_text_loop_plain_step page_layout paint_width text2
               done cur c _ fuel2 result2 Ha Ht2 Hc).
    destruct (new_paragraph_text page_layout paint_width text1 done cur
                _ (Z.of_nat (nat_of_ascii c)) Ht1 Hn Hl1) as [Hx1 Hy1].
    destruct (new_paragraph_text page_layout paint_width text2 done cur
                _ (Z.of_nat (nat_of_ascii c)) Ht2 Hn Hl2) as [Hx2 Hy2].
    cbn [String.length] in Hf1, Hf2.
    destruct (separator c).
    + destruct (IH (done ++ cur ++ String c EmptyString)%string
                  EmptyString
                  (new_paragraph page_layout paint_width text1
                     (String.length done)
                     (String.length done + String.length cur)
                     (Z.of_nat (nat_of_ascii c)) :: result1)
                  (new_paragraph page_layout paint_width text2
                     (String.length done)
                     (String.length done + String.length cur)
                     (Z.of_nat (nat_of_ascii c)) :: result2)
                  fuel1 fuel2)
        as (r1 & r2 & H1 & H2 & Hs); auto; try lia.
      * rewrite Ht1, !append_assoc. reflexivity.
      * rewrite Ht2, !append_assoc. reflexivity.
      * unfold same_paragraphs. cbn [map].
        rewrite Hx1, Hx2, Hy1, Hy2, Hr1, Hr2. auto.
      * exists r1, r2.
        rewrite !length_append in H1, H2.
        cbn [String.length] in H1, H2.
        replace (String.length done + (String.length cur + 1) + 0)%nat
          with (String.length done + String.length cur + 1)%nat in H1, H2
          by lia.
        replace (String.length done + (String.length cur + 1))%nat
          with (String.length done + String.length cur + 1)%nat in H1, H2
          by lia.
        auto.
    + destruct (IH done (cur ++ String c EmptyString)%string result1
                  result2 fuel1 fuel2)
        as (r1 & r2 & H1 & H2 & Hs); auto; try lia.
      * rewrite Ht1, !append_assoc. reflexivity.
      * rewrite Ht2, !append_assoc. reflexivity.
      * rewrite no_NUL_append, Hn. cbn [no_NUL].
        destruct (plain_code c Hc) as (-> & _). reflexivity.
      * split; assumption.
      * exists r1, r2.
        rewrite length_append in H1, H2. cbn [String.length] in H1, H2.
        replace (String.length done + (String.length cur + 1))%nat
          with (String.length done + String.length cur + 1)%nat in H1, H2
          by lia.
        auto.
Qed.

(** Bytes that [g_utf8_get_char] takes for no character end the text:
    after a text of ASCII they leave the paragraphs a single newline in
    their place would, and nothing that follows them is printed. *)
Theorem invalid_character_ends_text page_layout paint_width pre b bad :
  ascii_compatible ->
  Z.of_nat (String.length (pre ++ String b bad)) <= CInt.INT_MAX ->
  plain_text pre = true ->
  Ascii.eqb b NUL = false ->
  g_utf8_get_char (String b bad) = gunichar_minus_one
  \/ g_utf8_get_char (String b bad) = 0 ->
  exists cut whole,
    split_text_into_paragraphs page_layout paint_width
      (Some (pre ++ String b bad)%string)
    = Returns cut
    /\ split_text_into_paragraphs page_layout paint_width
         (Some (pre ++ String LF EmptyString)%string)
       = Returns whole
    /\ same_paragraphs cut whole.
Proof.
  intros Ha Hl Hp Hb Hg.
  assert (Hl2 : Z.of_nat (String.length (pre ++ String LF ""))
                <= CInt.INT_MAX)
    by (rewrite length_append in *; cbn [String.length] in *; lia).
  destruct (split_text_loop_invalid page_layout paint_width
              (pre ++ String b bad) (pre ++ String LF EmptyString) b bad
              Ha Hl Hl2 Hb Hg pre EmptyString EmptyString [] []
              (S (String.length (pre ++ String b bad)))
              (S (String.length (pre ++ String LF ""))))
    as (r1 & r2 & H1 & H2 & Hs1 & Hs2); auto.
  - rewrite length_append. lia.
  - rewrite length_append. cbn [String.length]. lia.
  - split; reflexivity.
  - exists (rev r1), (rev r2). unfold split_text_into_paragraphs.
    cbn [String.length Nat.add] in H1, H2. rewrite H1, H2.
    unfold same_paragraphs. rewrite !map_rev, Hs1, Hs2. auto.
Qed.

(* --------------------------------------------------------------- *)
(** *** From the file to the paragraphs *)

Lemma last_char_none s : last_char s = None -> s = EmptyString.
Proof.
  induction s as [|c s IH]; simpl; [reflexivity|].
  destruct s; [discriminate|]. intros H. specialize (IH H). discriminate.
Qed.

(** Of a file of ASCII, read without a converter, no byte is lost and
    none is added but the newline at the end. *)
Lemma main_paragraphs_plain page_layout contents :
  ascii_compatible ->
  plain_text contents = true ->
  contents <> EmptyString ->
  Z.of_nat (String.length contents) < CInt.INT_MAX ->
  exists paragraphs,
    main_paragraphs page_layout
      {| unread := contents; fails := false; error_indicator := false |}
      None
    = Returns paragraphs
    /\ rejoin paragraphs
       = (if ends_in_newline contents then contents
          else (contents ++ String LF EmptyString)%string)
    /\ Forall (cut_for page_layout (main_paint_width page_layout))
         paragraphs.
Proof.
  intros Ha Hp Hne Hl.
  unfold main_paragraphs, read_file. cbn [unread].
  rewrite read_file_loop_plain; cbn [unread fails error_indicator];
    auto using plain_text_no_NUL.
  cbn [append]. unfold read_file_end, ends_in_newline.
  destruct (last_char contents) as [c|] eqn:El;
    [|elim Hne; apply last_char_none, El].
  set (text := if negb (Ascii.eqb c LF)
               then (contents ++ String LF "")%string else contents).
  assert (Hlast : last_char text = Some LF).
  { subst text. destruct (Ascii.eqb_spec c LF) as [->|Hc]; cbn [negb].
    - exact El.
    - apply last_char_append. }
  assert (Hpt : plain_text text = true).
  { subst text. destruct (Ascii.eqb c LF); cbn [negb]; [exact Hp|].
    rewrite plain_text_append, Hp. reflexivity. }
  assert (Hlt : Z.of_nat (String.length text) <= CInt.INT_MAX).
  { subst text. destruct (Ascii.eqb c LF); cbn [negb]; [lia|].
    rewrite length_append. cbn [String.length]. lia. }
  fold (main_paint_width page_layout).
  destruct (split_text_loop_plain page_layout
              (main_paint_width page_layout)
              text Ha Hlt text EmptyString EmptyString []
              (S (String.length text)))
    as (new & tail & Hr & Hj & Ht & Hall); auto.
  cbn [String.length Nat.add append] in Hr, Hj.
  exists new. unfold split_text_into_paragraphs.
  rewrite Hr, app_nil_r, rev_involutive. split; [reflexivity|].
  split; [|exact Hall].
  assert (Htail : tail = EmptyString).
  { destruct tail as [|x tail]; [reflexivity|]. exfalso.
    rewrite Hj, last_char_append_r in Hlast by discriminate.
    pose proof (last_char_no_separator _ _ Ht Hlast) as Hsep.
    discriminate Hsep. }
  rewrite Htail, append_nil_r in Hj. rewrite <- Hj. subst text.
  destruct (Ascii.eqb c LF); reflexivity.
Qed.

(** From the file to the page: of a file of ASCII, read without a
    converter, no byte is lost and none is added but the newline at the
    end; every stretch between newlines and form feeds is laid out by
    Pango on its own, for the width of a column; and the lines drawn are
    the lines of these layouts, all of them, in the order of the
    file. *)
Theorem file_text_is_drawn o page_layout contents dates :
  ascii_compatible ->
  main_page_layout o = Some page_layout ->
  plain_text contents = true ->
  contents <> EmptyString ->
  Z.of_nat (String.length contents) < CInt.INT_MAX ->
  exists paragraphs page_count w,
    main_paragraphs page_layout
      {| unread := contents; fails := false; error_indicator := false |}
      None
    = Returns paragraphs
    /\ rejoin paragraphs
       = (if ends_in_newline contents then contents
          else (contents ++ String LF EmptyString)%string)
    /\ Forall (cut_for page_layout (main_paint_width page_layout))
         paragraphs
    /\ main_pages o (map para_flow paragraphs) dates
       = Some (page_count, w)
    /\ drawn_lines (calls w)
       = List.concat
           (map (fun para => para_layout (para_flow para)) paragraphs).
Proof.
  intros Ha Ho Hp Hne Hl.
  destruct (main_paragraphs_plain page_layout contents Ha Hp Hne Hl)
    as (paragraphs & Hm & Hj & Hall).
  exists paragraphs. unfold main_pages. rewrite Ho.
  set (pango_lines :=
         split_paragraphs_into_lines (map para_flow paragraphs)).
  destruct (output_pages_run pango_lines (opt_draw_header o)
              (initial_world page_layout dates)) as (_ & Hc & _).
  destruct (output_pages pango_lines (opt_draw_header o)
              (initial_world page_layout dates)) as [page_count w].
  exists page_count, w. cbn [snd initial_world calls app] in Hc.
  repeat split; auto.
  rewrite Hc. unfold run_calls.
  rewrite !drawn_lines_app, drawn_lines_first_page, drawn_lines_loop.
  cbn [drawn_lines app]. rewrite app_nil_r. subst pango_lines.
  rewrite pango_lines_of_paragraphs, map_map. reflexivity.
Qed.

(** When [read_file] returns NULL, because the input cannot be read or
    cannot be converted, [main], if it has come as far as a layout,
    goes on with no text at all: it returns a document of one page that
    holds the header, if one is asked for, and nothing else. *)
Theorem read_error_prints_blank_page o p IN cvh dates :
  main_page_layout o = Some p ->
  read_file IN cvh = Returns None ->
  exists d,
    main_run o IN cvh dates = Returns d
    /\ doc_trailer_pages d = 1
    /\ map kind_of (doc_pages d)
       = KPage 1
           :: (if opt_draw_header o then [KLine; KLine; KLine; KRule]
               else [])
           ++ [KShowpage].
Proof.
  intros Ep Hf. unfold main_run. rewrite Ep.
  unfold main_paragraphs. rewrite Hf.
  cbn [split_text_into_paragraphs map].
  unfold main_document. rewrite Ep.
  change (split_paragraphs_into_lines []) with (@nil LineLink).
  destruct (output_pages_run [] (opt_draw_header o)
              (initial_world p dates)) as (Hi & _).
  destruct (output_pages_transcribes [] (opt_draw_header o)
              (initial_world p dates))
    as (_ & (chunks & Hs & Hk) & _).
  destruct (output_pages [] (opt_draw_header o) (initial_world p dates))
    as [num_pages w].
  cbn [fst snd] in Hi, Hs, Hk.
  eexists. split; [reflexivity|].
  cbn [doc_trailer_pages doc_pages]. unfold print_postscript_trailer.
  split; [exact Hi|].
  cbn [initial_world ps_pages_string app] in Hs. rewrite Hs, Hk.
  unfold run_calls, first_page_calls. cbn [loop_calls app].
  destruct (opt_draw_header o); reflexivity.
Qed.

End Text.

(* =============================================================== *)
(** ** The paper named on the command line *)

Section Paper.

(** [g_ascii_strcasecmp] of glib. *)
Variable g_ascii_strcasecmp : string -> string -> Z.

(** [_paps_arg_paper_cb]: the answer to the option parser and the
    global [paper_type] as the call leaves it.  [value] is NULL when the
    option came without one. *)
Definition _paps_arg_paper_cb (value : option string)
    (paper_type : paper_type_t) : bool * paper_type_t :=
  match value with
  | None => (false, paper_type)
  | Some value =>
      match c_str value with
      | EmptyString => (false, paper_type)
      | String _ _ =>
          if g_ascii_strcasecmp value "legal" =? 0
          then (true, PAPER_TYPE_US_LEGAL)
          else if g_ascii_strcasecmp value "letter" =? 0
          then (true, PAPER_TYPE_US_LETTER)
          else if g_ascii_strcasecmp value "a4" =? 0
          then (true, PAPER_TYPE_A4)
          else (false, paper_type)
      end
  end.

(** [g_ascii_strcasecmp] finds no difference exactly between strings
    that are the same but for the case of their letters. *)
Definition ignores_case : Prop :=
  forall a b,
    g_ascii_strcasecmp a b = 0 <-> lower (c_str a) = lower (c_str b).

(** The option [--paper] takes the three names [legal], [letter] and
    [a4], in capitals or small letters, and nothing else.  A name taken
    sets the page of an upright layout to the size of that paper in
    whole points, the fraction dropped: A4 is 595 by 841.  A value
    refused leaves the paper as it was. *)
Theorem paper_option_sets_page value paper_type :
  ignores_case ->
  let r := _paps_arg_paper_cb value paper_type in
  (fst r = true ->
   (exists v, value = Some v /\ lower (c_str v) = paper_name (snd r))
   /\ forall o p,
        opt_paper_type o = snd r ->
        opt_landscape o = false ->
        main_page_layout o = Some p ->
        (page_width p, page_height p) = paper_points (snd r))
  /\ (fst r = false ->
      snd r = paper_type
      /\ forall v t,
           value = Some v -> lower (c_str v) <> paper_name t).
Proof.
  intros Hi r.
  assert (Hpage : forall t o p,
            opt_paper_type o = t ->
            opt_landscape o = false ->
            main_page_layout o = Some p ->
            (page_width p, page_height p) = paper_points t).
  { intros t o p Ht Hl Hp.
    destruct (main_page_layout_page o p Hp) as (Hwh & _).
    rewrite Hl, Ht in Hwh. rewrite Hwh.
    destruct t; vm_compute; reflexivity. }
  subst r. unfold _paps_arg_paper_cb.
  destruct value as [v|]; cbn [fst snd].
  2:{ split; [discriminate|]. intros _. split; [reflexivity|].
      intros v t Hv. discriminate Hv. }
  destruct (c_str v) as [|c cs] eqn:Ec; cbn [fst snd].
  { split; [discriminate|]. intros _. split; [reflexivity|].
    intros v' t [= <-]. rewrite Ec. destruct t; discriminate. }
  destruct (g_ascii_strcasecmp v "legal" =? 0) eqn:E1; cbn [fst snd].
  { apply Z.eqb_eq, Hi in E1. split; [|discriminate]. intros _.
    split; [exists v; split; [reflexivity|rewrite Ec in *; exact E1]|].
    apply Hpage. }
  destruct (g_ascii_strcasecmp v "letter" =? 0) eqn:E2; cbn [fst snd].
  { apply Z.eqb_eq, Hi in E2. split; [|discriminate]. intros _.
    split; [exists v; split; [reflexivity|rewrite Ec in *; exact E2]|].
    apply Hpage. }
  destruct (g_ascii_strcasecmp v "a4" =? 0) eqn:E3; cbn [fst snd].
  { apply Z.eqb_eq, Hi in E3. split; [|discriminate]. intros _.
    split; [exists v; split; [reflexivity|rewrite Ec in *; exact E3]|].
    apply Hpage. }
  split; [discriminate|]. intros _. split; [reflexivity|].
  intros v' t [= <-] Hl.
  apply Z.eqb_neq in E1, E2, E3.
  destruct t; [apply E3|apply E2|apply E1]; apply Hi; exact Hl.
Qed.

End Paper.

End Paps.

(* ================================================================= *)
(** ** The theorems at the sample data *)

(** With no option given, an A4 page holds one column of 523 by 769
    points. *)
Example default_layout :
  option_map (fun p => (page_width p, page_height p, column_width p,
                        column_height p, num_columns p, header_sep p))
    (main_page_layout Sample.points_to_pango default_options)
  = Some (595, 841, 523, 769, 1, 0).
Proof. vm_compute. reflexivity. Qed.

(** [Sample.layout] is the layout [main] builds for [Sample.two_columns]. *)
Example sample_layout :
  main_page_layout Sample.points_to_pango Sample.two_columns
  = Some Sample.layout.
Proof. vm_compute. reflexivity. Qed.

Example sample_run :
  calls (snd (output_pages Sample.markup Sample.lines false Sample.w0))
  = [Call_start_page 1;
     Call_draw_line_to_page 0 12288 (Sample.shaped "one");
     Call_eject_column 1;
     Call_draw_line_to_page 1 12288 (Sample.shaped "two");
     Call_eject_page;
     Call_start_page 2;
     Call_draw_line_to_page 0 12288 (Sample.shaped "three");
     Call_eject_page].
Proof. vm_compute. reflexivity. Qed.

(** *** Column advance (C1) *)

Lemma column_advance_rule_witness :
  exists before adv column_idx' column_pos after,
    calls (snd (output_pages Sample.markup
                  ([Sample.line_link "one" 1]
                     ++ Sample.line_link "two" 1
                     :: [Sample.line_link "three" 0])
                  false Sample.w0))
    = calls Sample.w0 ++ before ++ adv
        ++ Call_draw_line_to_page column_idx' column_pos
             (Sample.shaped "two") :: after
    /\ adv <> [].
Proof.
  destruct (column_advance_rule Sample.markup
              [Sample.line_link "one" 1] (Sample.line_link "two" 1)
              [Sample.line_link "three" 0] false Sample.w0)
    as (before & adv & c & pos & after & Hc & _ & Hiff & _).
  exists before, adv, c, pos, after. split; [exact Hc|].
  apply Hiff. right. simpl. discriminate.
Defined.

(** *** Form feeds (C2) *)

Lemma formfeed_breaks_after_last_line_witness :
  formfeed (Sample.line_link "one" 1) <> 0
  /\ exists before c column_pos adv c' column_pos' after,
       calls (snd (output_pages Sample.markup
                     ([] ++ Sample.line_link "one" 1
                         :: Sample.line_link "two" 1
                         :: [Sample.line_link "three" 0])
                     false Sample.w0))
       = calls Sample.w0 ++ before
           ++ Call_draw_line_to_page c column_pos (Sample.shaped "one")
           :: adv
           ++ Call_draw_line_to_page c' column_pos' (Sample.shaped "two")
           :: after
       /\ drawn_lines before = []
       /\ drawn_lines adv = []
       /\ (adv = [Call_eject_column (c + 1)%cint]
           \/ exists page hdr,
                adv = Call_eject_page :: Call_start_page page :: hdr).
Proof.
  assert (H : formfeed (Sample.line_link "one" 1) <> 0)
    by (simpl; discriminate).
  split; [exact H|].
  destruct (proj2 (formfeed_breaks_after_last_line Sample.markup)
              [] (Sample.line_link "one" 1) (Sample.line_link "two" 1)
              [Sample.line_link "three" 0] false Sample.w0 H)
    as (before & c & pos & adv & c' & pos' & after
        & Hc & Hb & Ha & Hadv & _).
  exists before, c, pos, adv, c', pos', after. auto.
Defined.

(** *** Pages and columns (C3) *)

Lemma output_pages_balanced_witness :
  Z.of_nat (List.length Sample.lines) < CInt.INT_MAX
  /\ 1 <= num_columns (page_layout Sample.w0)
  /\ exists cs,
       calls (snd (output_pages Sample.markup Sample.lines true Sample.w0))
       = calls Sample.w0 ++ cs
       /\ balanced false cs = true
       /\ Z.of_nat (List.length (started_pages cs))
          = fst (output_pages Sample.markup Sample.lines true Sample.w0)
       /\ started_pages cs
          = map Z.of_nat (seq 1 (List.length (started_pages cs)))
       /\ columns_bounded (num_columns (page_layout Sample.w0) - 1) 0 cs
          = true.
Proof.
  assert (H1 : Z.of_nat (List.length Sample.lines) < CInt.INT_MAX)
    by (vm_compute; reflexivity).
  assert (H2 : 1 <= num_columns (page_layout Sample.w0))
    by (simpl; lia).
  split; [exact H1|]. split; [exact H2|].
  destruct (output_pages_balanced Sample.markup Sample.lines true
              Sample.w0 H1) as (cs & Hc & Hb & Hn & Hs & Hk).
  exists cs. repeat split; auto.
Defined.

(** *** No check of the geometry (C4) *)


(** Less one column, with margins that wrap the width left to
    [INT_MIN], the division has no result and [main] is killed. *)
Lemma main_killed_by_division :
  main_page_layout Sample.points_to_pango Sample.minus_one_column = None.
Proof. vm_compute. reflexivity. Qed.


(** *** Two runs (C5) *)

(** Two runs with headers on the same input, a second apart: the first
    header line differs. *)
Lemma header_date_counterexample :
  same_output Sample.w0 Sample.w1
  /\ ps_pages_string (snd (output_pages Sample.markup Sample.lines true
                             Sample.w0))
     <> ps_pages_string (snd (output_pages Sample.markup Sample.lines true
                               Sample.w1)).
Proof.
  split; [repeat split|].
  intros H.
  apply (f_equal
           (fun ps => match nth 1 ps PsShowpage with
                      | PsLine _ _ line => line_text line
                      | _ => EmptyString
                      end)) in H.
  vm_compute in H. discriminate H.
Qed.

Lemma output_pages_deterministic_up_to_clock_witness :
  same_output Sample.w0 Sample.w0_again
  /\ (true = true ->
      forall n, date_text Sample.w0 n = date_text Sample.w0_again n)
  /\ fst (output_pages Sample.markup Sample.lines true Sample.w0)
     = fst (output_pages Sample.markup Sample.lines true Sample.w0_again)
  /\ same_output
       (snd (output_pages Sample.markup Sample.lines true Sample.w0))
       (snd (output_pages Sample.markup Sample.lines true Sample.w0_again)).
Proof.
  assert (H1 : same_output Sample.w0 Sample.w0_again)
    by (repeat split; reflexivity).
  assert (H2 : true = true ->
               forall n,
                 date_text Sample.w0 n = date_text Sample.w0_again n)
    by (intros _ n; reflexivity).
  split; [exact H1|]. split; [exact H2|].
  exact (output_pages_deterministic_up_to_clock Sample.markup Sample.lines
           true Sample.w0 Sample.w0_again H1 H2).
Defined.

(** *** Horizontal placement (C6) *)

(** Right to left, column 0 is the right one of two: a line thirty points
    wide is set flush right in it, at 36 + 281 + (241 - 30). *)
Lemma line_anchor_mirrored_witness :
  exists chunks y_pos,
    ps_pages_string
      (snd (output_line Sample.markup false 766976
              {| column_idx := 0; column_y_pos := 0; page_idx := 1;
                 prev_line_link := None |}
              (Sample.line_link "one" 0) Sample.w_rtl))
    = chunks ++ [PsLine 528 y_pos (Sample.shaped "one")].
Proof.
  destruct (line_anchor_mirrored Sample.markup false 766976
              {| column_idx := 0; column_y_pos := 0; page_idx := 1;
                 prev_line_link := None |}
              (Sample.line_link "one" 0) Sample.w_rtl)
    as ((chunks & y_pos & Hy) & _).
  exists chunks, y_pos. exact Hy.
Defined.

(** *** Vertical placement (C7) *)

Lemma line_offset_is_cumulative_witness :
  exists cs chunks c x_pos,
    calls (snd (output_line Sample.markup false 766976
                  {| column_idx := 0; column_y_pos := 12288; page_idx := 1;
                     prev_line_link := Some (Sample.line_link "one" 0) |}
                  (Sample.line_link "two" 0) Sample.w0))
    = cs ++ [Call_draw_line_to_page c 24576 (Sample.shaped "two")]
    /\ ps_pages_string
         (snd (output_line Sample.markup false 766976
                 {| column_idx := 0; column_y_pos := 12288; page_idx := 1;
                    prev_line_link := Some (Sample.line_link "one" 0) |}
                 (Sample.line_link "two" 0) Sample.w0))
       = chunks ++ [PsLine x_pos 761 (Sample.shaped "two")].
Proof.
  destruct (line_offset_is_cumulative Sample.markup false 766976
              {| column_idx := 0; column_y_pos := 12288; page_idx := 1;
                 prev_line_link := Some (Sample.line_link "one" 0) |}
              (Sample.line_link "two" 0) Sample.w0)
    as (cs & chunks & c & x_pos & Hc & _ & _ & Hs).
  exists cs, chunks, c, x_pos. split; [exact Hc | exact Hs].
Defined.

(** *** Column dividers (C8) *)

(** Leaving column 0 for column 1, [eject_column] is called with 1, and
    never with 0. *)
Lemma eject_column_old_index_counterexample :
  nth_error
    (calls (snd (output_pages Sample.markup Sample.lines false Sample.w0))) 1
  = Some (Call_draw_line_to_page 0 12288 (Sample.shaped "one"))
  /\ nth_error
       (calls (snd (output_pages Sample.markup Sample.lines false Sample.w0)))
       2
     = Some (Call_eject_column 1)
  /\ ~ In (Call_eject_column 0)
       (calls (snd (output_pages Sample.markup Sample.lines false Sample.w0))).
Proof.
  split; [vm_compute; reflexivity|].
  split; [vm_compute; reflexivity|].
  vm_compute. intros H.
  repeat (destruct H as [H|H]; [discriminate H|]). exact H.
Qed.

Lemma eject_column_gets_entered_column_witness :
  move_to_next_column 766976
    {| column_idx := 0; column_y_pos := 12288; page_idx := 1;
       prev_line_link := Some (Sample.line_link "one" 1) |}
    (Sample.line_link "two" 1) = true
  /\ (0 + 1)%cint <> num_columns (page_layout Sample.w0)
  /\ calls (snd (check_next_column Sample.markup false 766976
                   {| column_idx := 0; column_y_pos := 12288; page_idx := 1;
                      prev_line_link := Some (Sample.line_link "one" 1) |}
                   (Sample.line_link "two" 1) Sample.w0))
     = [Call_eject_column 1].
Proof.
  assert (H1 : move_to_next_column 766976
                 {| column_idx := 0; column_y_pos := 12288; page_idx := 1;
                    prev_line_link := Some (Sample.line_link "one" 1) |}
                 (Sample.line_link "two" 1) = true)
    by (vm_compute; reflexivity).
  assert (H2 : (0 + 1)%cint <> num_columns (page_layout Sample.w0))
    by (vm_compute; discriminate).
  split; [exact H1|]. split; [exact H2|].
  destruct (eject_column_gets_entered_column Sample.markup false 766976
              {| column_idx := 0; column_y_pos := 12288; page_idx := 1;
                 prev_line_link := Some (Sample.line_link "one" 1) |}
              (Sample.line_link "two" 1) Sample.w0 H1 H2)
    as (Hc & _).
  exact Hc.
Defined.

(** *** Every line is placed (C9) *)

Lemma every_line_placed_whole_witness :
  exists before adv c column_pos after,
    calls (snd (output_pages Sample.markup
                  ([Sample.line_link "one" 0]
                     ++ Sample.line_link "two" 0
                     :: [Sample.line_link "three" 0])
                  false Sample.w0))
    = calls Sample.w0 ++ before ++ adv
        ++ Call_draw_line_to_page c column_pos (Sample.shaped "two")
        :: after
    /\ drawn_lines before = [Sample.shaped "one"]
    /\ drawn_lines adv = []
    /\ drawn_lines after = [Sample.shaped "three"].
Proof.
  destruct (every_line_placed_whole Sample.markup
              [Sample.line_link "one" 0] (Sample.line_link "two" 0)
              [Sample.line_link "three" 0] false Sample.w0)
    as (before & adv & c & pos & after & Hc & Hb & Ha & Hf & _).
  exists before, adv, c, pos, after. auto.
Defined.

(** *** The separation line (C10) *)

Lemma separation_line_always_drawn_witness :
  let pre := [Sample.line_link "one" 1] in
  let line_link := Sample.line_link "two" 1 in
  let post := [Sample.line_link "three" 0] in
  let l :=
    loop_locals (num_columns Sample.layout)
      (pango_column_height_of Sample.layout) pre initial_locals in
  let w :=
    snd (output_pages Sample.markup Sample.lines true
           (initial_world Sample.layout Sample.midnight)) in
  main_page_layout Sample.points_to_pango Sample.two_columns
  = Some Sample.layout
  /\ Sample.lines = pre ++ line_link :: post
  /\ move_to_next_column (pango_column_height_of Sample.layout) l line_link
     = true
  /\ (column_idx l + 1)%cint <> num_columns Sample.layout
  /\ do_separation_line Sample.layout = true
  /\ strokes (ps_pages_string w) = 1%nat
  /\ exists before x_pos y_top y_bot x y after,
       ps_pages_string w
       = before
           ++ PsStroke x_pos y_top x_pos y_bot
           :: PsLine x y (pango_line line_link) :: after
       /\ strokes before = 0%nat.
Proof.
  intros pre line_link post l w.
  assert (H : main_page_layout Sample.points_to_pango Sample.two_columns
              = Some Sample.layout)
    by (vm_compute; reflexivity).
  assert (Hl : Sample.lines = pre ++ line_link :: post) by reflexivity.
  assert (Hm : move_to_next_column (pango_column_height_of Sample.layout)
                 l line_link = true)
    by (vm_compute; reflexivity).
  assert (Hk : (column_idx l + 1)%cint <> num_columns Sample.layout)
    by (vm_compute; discriminate).
  split; [exact H|]. split; [exact Hl|]. split; [exact Hm|].
  split; [exact Hk|].
  destruct (separation_line_always_drawn Sample.points_to_pango
              Sample.markup Sample.two_columns Sample.layout H)
    as (Hs & Hrun).
  split; [exact Hs|].
  destruct (Hrun Sample.lines true Sample.midnight) as (_ & Hn & Hturn).
  split; [exact Hn|].
  exact (Hturn pre line_link post Hl Hm Hk).
Defined.

(* ================================================================= *)
(** ** Further properties at the sample data *)

Lemma one_text_per_line_witness :
  Z.of_nat (List.length Sample.lines) < CInt.INT_MAX
  /\ exists chunks,
       ps_pages_string
         (snd (output_pages Sample.markup Sample.lines true Sample.w0))
       = ps_pages_string Sample.w0 ++ chunks
       /\ text_lines (map kind_of chunks)
          = (List.length Sample.lines
             + 3 * Z.to_nat
                     (fst (output_pages Sample.markup Sample.lines true
                             Sample.w0)))%nat.
Proof.
  assert (H : Z.of_nat (List.length Sample.lines) < CInt.INT_MAX)
    by (vm_compute; reflexivity).
  split; [exact H|].
  exact (one_text_per_line Sample.markup Sample.lines true Sample.w0 H).
Defined.

Lemma header_once_per_page_witness :
  Z.of_nat (List.length Sample.lines) < CInt.INT_MAX
  /\ exists cs,
       calls (snd (output_pages Sample.markup Sample.lines true Sample.w0))
       = calls Sample.w0 ++ cs
       /\ headers_follow true cs = true.
Proof.
  assert (H : Z.of_nat (List.length Sample.lines) < CInt.INT_MAX)
    by (vm_compute; reflexivity).
  split; [exact H|].
  destruct (header_once_per_page Sample.markup Sample.lines true
              Sample.w0 H) as (cs & Hc & Hh & _).
  exists cs. split; [exact Hc | exact Hh].
Defined.

Lemma columns_stay_in_range_witness :
  Z.of_nat (List.length Sample.lines) < CInt.INT_MAX
  /\ 1 <= num_columns (page_layout Sample.w0)
  /\ exists cs,
       calls (snd (output_pages Sample.markup Sample.lines true Sample.w0))
       = calls Sample.w0 ++ cs
       /\ columns_in_range (num_columns (page_layout Sample.w0)) cs = true.
Proof.
  assert (H1 : Z.of_nat (List.length Sample.lines) < CInt.INT_MAX)
    by (vm_compute; reflexivity).
  assert (H2 : 1 <= num_columns (page_layout Sample.w0))
    by (simpl; lia).
  split; [exact H1|]. split; [exact H2|].
  exact (columns_stay_in_range Sample.markup Sample.lines true Sample.w0
           H1 H2).
Defined.

Lemma pages_bounded_by_lines_witness :
  Z.of_nat (List.length Sample.lines) < CInt.INT_MAX
  /\ 1 <= num_columns (page_layout Sample.w0)
  /\ 1 <= fst (output_pages Sample.markup Sample.lines true Sample.w0)
  /\ num_columns (page_layout Sample.w0)
     * (fst (output_pages Sample.markup Sample.lines true Sample.w0) - 1)
     <= Z.of_nat (List.length Sample.lines).
Proof.
  assert (H1 : Z.of_nat (List.length Sample.lines) < CInt.INT_MAX)
    by (vm_compute; reflexivity).
  assert (H2 : 1 <= num_columns (page_layout Sample.w0))
    by (simpl; lia).
  split; [exact H1|]. split; [exact H2|].
  exact (pages_bounded_by_lines Sample.markup Sample.lines true Sample.w0
           H1 H2).
Defined.

Lemma short_text_one_column_witness :
  Forall (fun line_link =>
            formfeed line_link = 0
            /\ 0 <= rect_height (logical_rect line_link))
    Sample.short_lines
  /\ total_height Sample.short_lines
     < pango_column_height_of (page_layout Sample.w0)
  /\ fst (output_pages Sample.markup Sample.short_lines true Sample.w0) = 1
  /\ calls (snd (output_pages Sample.markup Sample.short_lines true
                   Sample.w0))
     = calls Sample.w0
       ++ Call_start_page 1
          :: [Call_draw_page_header_line_to_page false 1]
          ++ stacked 0 Sample.short_lines ++ [Call_eject_page].
Proof.
  assert (H1 : Forall (fun line_link =>
                         formfeed line_link = 0
                         /\ 0 <= rect_height (logical_rect line_link))
                 Sample.short_lines)
    by (repeat constructor; simpl; lia).
  assert (H2 : total_height Sample.short_lines
               < pango_column_height_of (page_layout Sample.w0))
    by (vm_compute; reflexivity).
  split; [exact H1|]. split; [exact H2|].
  exact (short_text_one_column Sample.markup Sample.short_lines true
           Sample.w0 H1 H2).
Defined.

Lemma tall_line_alone_witness :
  let pre := [Sample.line_link "one" 0] in
  let post := [Sample.line_link "two" 0] in
  Forall (fun a => 0 <= rect_height (logical_rect a))
    (pre ++ Sample.banner :: post)
  /\ total_height (pre ++ Sample.banner :: post) <= CInt.INT_MAX
  /\ pango_column_height_of (page_layout Sample.w0)
     <= rect_height (logical_rect Sample.banner)
  /\ exists before adv c after,
       calls (snd (output_pages Sample.markup
                     (pre ++ Sample.banner :: post) false Sample.w0))
       = calls Sample.w0
         ++ before ++ adv
         ++ Call_draw_line_to_page c
              (rect_height (logical_rect Sample.banner))
              (pango_line Sample.banner) :: after
       /\ drawn_lines before = map pango_line pre
       /\ adv <> []
       /\ drawn_lines adv = [].
Proof.
  intros pre post.
  assert (H1 : Forall (fun a => 0 <= rect_height (logical_rect a))
                 (pre ++ Sample.banner :: post))
    by (repeat constructor; simpl; lia).
  assert (H2 : total_height (pre ++ Sample.banner :: post)
               <= CInt.INT_MAX)
    by (vm_compute; discriminate).
  assert (H3 : pango_column_height_of (page_layout Sample.w0)
               <= rect_height (logical_rect Sample.banner))
    by (vm_compute; discriminate).
  split; [exact H1|]. split; [exact H2|]. split; [exact H3|].
  destruct (tall_line_alone Sample.markup pre Sample.banner post false
              Sample.w0 H1 H2 H3)
    as (before & adv & c & after & Hc & Hb & Ha & Hd & _).
  exists before, adv, c, after. auto.
Defined.

Lemma bounding_box_never_rotated_witness :
  exists d,
    main_document Sample.points_to_pango Sample.markup Sample.landscape
      Sample.paragraphs Sample.midnight
    = Some d
    /\ hdr_bounding_box (doc_prologue d) = (595, 841)
    /\ hdr_orientation (doc_prologue d) = "Landscape"%string
    /\ (hdr_pagewidth (doc_prologue d), hdr_pageheight (doc_prologue d))
       = (841, 595).
Proof.
  destruct (main_document Sample.points_to_pango Sample.markup
              Sample.landscape Sample.paragraphs Sample.midnight)
    as [d|] eqn:E; [|vm_compute in E; discriminate].
  exists d. split; [reflexivity|].
  destruct (bounding_box_never_rotated Sample.points_to_pango
              Sample.markup Sample.landscape Sample.paragraphs
              Sample.midnight d E) as (Hb & Ho & Hp & _).
  split; [exact Hb|]. split; [exact Ho | exact Hp].
Defined.

Lemma document_pages_match_trailer_witness :
  Z.of_nat (List.length (split_paragraphs_into_lines Sample.paragraphs))
  < CInt.INT_MAX
  /\ exists d,
       main_document Sample.points_to_pango Sample.markup
         Sample.two_columns Sample.paragraphs Sample.midnight
       = Some d
       /\ 1 <= doc_trailer_pages d
       /\ page_markers (map kind_of (doc_pages d))
          = map Z.of_nat (seq 1 (Z.to_nat (doc_trailer_pages d)))
       /\ pages_closed false (map kind_of (doc_pages d)) = true.
Proof.
  assert (H : Z.of_nat (List.length
                          (split_paragraphs_into_lines Sample.paragraphs))
              < CInt.INT_MAX)
    by (vm_compute; reflexivity).
  split; [exact H|].
  destruct (main_document Sample.points_to_pango Sample.markup
              Sample.two_columns Sample.paragraphs Sample.midnight)
    as [d|] eqn:E; [|vm_compute in E; discriminate].
  exists d. split; [reflexivity|].
  exact (document_pages_match_trailer Sample.points_to_pango
           Sample.markup Sample.two_columns Sample.paragraphs
           Sample.midnight d E H).
Defined.

Lemma prologue_body_box_witness :
  exists p d,
    main_page_layout Sample.points_to_pango Sample.two_columns = Some p
    /\ main_document Sample.points_to_pango Sample.markup
         Sample.two_columns Sample.paragraphs Sample.midnight
       = Some d
    /\ hdr_ytop (doc_prologue d)
       = (page_height p - top_margin p - header_sep p)%cint
    /\ hdr_bodyheight (doc_prologue d)
       = (hdr_ytop (doc_prologue d) - bottom_margin p)%cint
    /\ hdr_lmarg (doc_prologue d) = left_margin p
    /\ hdr_column_width (doc_prologue d) = column_width p
    /\ hdr_numcolumns (doc_prologue d) = num_columns p.
Proof.
  destruct (main_page_layout Sample.points_to_pango Sample.two_columns)
    as [p|] eqn:Ep; [|vm_compute in Ep; discriminate].
  destruct (main_document Sample.points_to_pango Sample.markup
              Sample.two_columns Sample.paragraphs Sample.midnight)
    as [d|] eqn:E; [|vm_compute in E; discriminate].
  exists p, d. split; [reflexivity|]. split; [reflexivity|].
  exact (prologue_body_box Sample.points_to_pango Sample.markup
           Sample.two_columns Sample.paragraphs Sample.midnight d p Ep E).
Defined.

Lemma page_box_filled_witness :
  exists p,
    main_page_layout Sample.points_to_pango Sample.two_columns = Some p
    /\ 0 <= column_width p
    /\ (left_margin p + right_margin p
        + gutter_width p * (num_columns p - 1)
        + num_columns p * column_width p <= page_width p
        /\ page_width p
           < left_margin p + right_margin p
             + gutter_width p * (num_columns p - 1)
             + num_columns p * column_width p + num_columns p)
    /\ top_margin p + header_sep p + column_height p + bottom_margin p
       = page_height p.
Proof.
  destruct (main_page_layout Sample.points_to_pango Sample.two_columns)
    as [p|] eqn:Ep; [|vm_compute in Ep; discriminate].
  exists p. split; [reflexivity|].
  assert (Hw : page_width p = 595)
    by (vm_compute in Ep; injection Ep as <-; reflexivity).
  refine (page_box_filled Sample.points_to_pango Sample.two_columns p
            Ep _ _ _ _ _ _); try rewrite Hw; simpl; lia.
Defined.

(* ================================================================= *)
(** ** The text, at the sample data *)

Lemma sample_ascii_compatible :
  ascii_compatible Sample.utf8_get_char Sample.utf8_skip.
Proof.
  intros c rest Hc.
  destruct c as [[] [] [] [] [] [] [] []]; vm_compute in Hc;
    try discriminate Hc; split; reflexivity.
Qed.

Lemma read_file_keeps_bytes_witness :
  no_NUL Sample.contents = true
  /\ read_file unit Sample.iconv Sample.file None
     = Returns (Some (Sample.contents ++ String LF EmptyString)%string).
Proof.
  split; [reflexivity|].
  unfold Sample.file.
  rewrite (read_file_keeps_bytes unit Sample.iconv Sample.contents
             eq_refl).
  reflexivity.
Defined.

Lemma read_error_gives_no_text_witness :
  fails Sample.broken_file = true
  /\ read_file unit Sample.iconv Sample.broken_file (Some tt)
     = Returns None.
Proof.
  split; [reflexivity|].
  exact (read_error_gives_no_text unit Sample.iconv Sample.broken_file
           (Some tt) eq_refl).
Defined.

Lemma read_file_text_ends_in_newline_witness :
  exists t,
    read_file unit Sample.iconv Sample.file (Some tt) = Returns (Some t)
    /\ no_NUL t = true
    /\ exists body, t = (body ++ String LF EmptyString)%string.
Proof.
  destruct (read_file unit Sample.iconv Sample.file (Some tt))
    as [[t|]| |] eqn:E; try (vm_compute in E; discriminate E).
  exists t. split; [reflexivity|].
  exact (proj2 (read_file_text_ends_in_newline unit Sample.iconv
                  Sample.file (Some tt)) t E).
Defined.

Lemma plain_text_paragraphs_witness :
  Z.of_nat (String.length Sample.contents) <= CInt.INT_MAX
  /\ plain_text Sample.contents = true
  /\ exists paragraphs tail,
       split_text_into_paragraphs Sample.utf8_get_char Sample.utf8_skip
         Sample.one_line Sample.layout 241 (Some Sample.contents)
       = Returns paragraphs
       /\ Sample.contents = (rejoin paragraphs ++ tail)%string
       /\ no_separator tail = true
       /\ Forall (cut_for Sample.one_line Sample.layout 241) paragraphs.
Proof.
  assert (H1 : Z.of_nat (String.length Sample.contents) <= CInt.INT_MAX)
    by (vm_compute; discriminate).
  split; [exact H1|]. split; [reflexivity|].
  exact (plain_text_paragraphs Sample.utf8_get_char Sample.utf8_skip
           Sample.one_line Sample.layout 241 Sample.contents
           sample_ascii_compatible H1 eq_refl).
Defined.

Lemma well_formed_text_paragraphs_witness :
  well_formed Sample.utf8_get_char Sample.utf8_skip Sample.accented = true
  /\ Z.of_nat (String.length (join Sample.accented)) <= CInt.INT_MAX
  /\ exists paragraphs tail,
       split_text_into_paragraphs Sample.utf8_get_char Sample.utf8_skip
         Sample.one_line Sample.layout 241 (Some (join Sample.accented))
       = Returns paragraphs
       /\ join Sample.accented = (rejoin paragraphs ++ tail)%string
       /\ no_separator tail = true
       /\ Forall (cut_for Sample.one_line Sample.layout 241) paragraphs.
Proof.
  assert (H1 : well_formed Sample.utf8_get_char Sample.utf8_skip
                 Sample.accented = true)
    by (vm_compute; reflexivity).
  assert (H2 : Z.of_nat (String.length (join Sample.accented))
               <= CInt.INT_MAX)
    by (vm_compute; discriminate).
  split; [exact H1|]. split; [exact H2|].
  exact (well_formed_text_paragraphs Sample.utf8_get_char
           Sample.utf8_skip Sample.one_line Sample.layout 241
           Sample.accented H1 H2).
Defined.

Lemma invalid_character_ends_text_witness :
  let pre := ("one" ++ String LF "two")%string in
  let b := ascii_of_nat 255 in
  let bad := ("three" ++ String LF EmptyString)%string in
  Z.of_nat (String.length (pre ++ String b bad)) <= CInt.INT_MAX
  /\ plain_text pre = true
  /\ Ascii.eqb b NUL = false
  /\ Sample.utf8_get_char (String b bad) = gunichar_minus_one
  /\ exists cut whole,
       split_text_into_paragraphs Sample.utf8_get_char Sample.utf8_skip
         Sample.one_line Sample.layout 241
         (Some (pre ++ String b bad)%string)
       = Returns cut
       /\ split_text_into_paragraphs Sample.utf8_get_char
            Sample.utf8_skip Sample.one_line Sample.layout 241
            (Some (pre ++ String LF EmptyString)%string)
          = Returns whole
       /\ same_paragraphs cut whole.
Proof.
  intros pre b bad.
  assert (H1 : Z.of_nat (String.length (pre ++ String b bad))
               <= CInt.INT_MAX)
    by (vm_compute; discriminate).
  assert (H2 : Sample.utf8_get_char (String b bad) = gunichar_minus_one)
    by reflexivity.
  split; [exact H1|]. split; [reflexivity|]. split; [reflexivity|].
  split; [exact H2|].
  exact (invalid_character_ends_text Sample.utf8_get_char
           Sample.utf8_skip Sample.one_line Sample.layout 241 pre b bad
           sample_ascii_compatible H1 eq_refl eq_refl (or_introl H2)).
Defined.

Lemma file_text_is_drawn_witness :
  plain_text Sample.contents = true
  /\ Sample.contents <> EmptyString
  /\ Z.of_nat (String.length Sample.contents) < CInt.INT_MAX
  /\ exists page_layout paragraphs page_count w,
       main_page_layout Sample.points_to_pango Sample.two_columns
       = Some page_layout
       /\ main_paragraphs Sample.utf8_get_char Sample.utf8_skip unit
            Sample.iconv Sample.one_line page_layout Sample.file None
          = Returns paragraphs
       /\ rejoin paragraphs
          = (Sample.contents ++ String LF EmptyString)%string
       /\ main_pages Sample.points_to_pango Sample.markup
            Sample.two_columns (map para_flow paragraphs) Sample.midnight
          = Some (page_count, w)
       /\ drawn_lines (calls w)
          = List.concat
              (map (fun para => para_layout (para_flow para)) paragraphs).
Proof.
  assert (H1 : Sample.contents <> EmptyString) by discriminate.
  assert (H2 : Z.of_nat (String.length Sample.contents) < CInt.INT_MAX)
    by (vm_compute; reflexivity).
  split; [reflexivity|]. split; [exact H1|]. split; [exact H2|].
  destruct (main_page_layout Sample.points_to_pango Sample.two_columns)
    as [page_layout|] eqn:Ep; [|vm_compute in Ep; discriminate].
  destruct (file_text_is_drawn Sample.points_to_pango Sample.markup
              Sample.utf8_get_char Sample.utf8_skip unit Sample.iconv
              Sample.one_line Sample.two_columns page_layout
              Sample.contents Sample.midnight sample_ascii_compatible Ep
              eq_refl H1 H2)
    as (paragraphs & page_count & w & Hm & Hj & _ & Hp & Hd).
  exists page_layout, paragraphs, page_count, w.
  split; [reflexivity|]. split; [exact Hm|]. split; [exact Hj|].
  split; [exact Hp | exact Hd].
Defined.

Lemma read_error_prints_blank_page_witness :
  main_page_layout Sample.points_to_pango Sample.two_columns
  = Some Sample.layout
  /\ read_file unit Sample.iconv Sample.broken_file None = Returns None
  /\ exists d,
       main_run Sample.points_to_pango Sample.markup Sample.utf8_get_char
         Sample.utf8_skip unit Sample.iconv Sample.one_line
         Sample.two_columns Sample.broken_file None Sample.midnight
       = Returns d
       /\ doc_trailer_pages d = 1
       /\ map kind_of (doc_pages d)
          = [KPage 1; KLine; KLine; KLine; KRule; KShowpage].
Proof.
  assert (H1 : main_page_layout Sample.points_to_pango Sample.two_columns
               = Some Sample.layout)
    by (vm_compute; reflexivity).
  assert (H2 : read_file unit Sample.iconv Sample.broken_file None
               = Returns None)
    by (vm_compute; reflexivity).
  split; [exact H1|]. split; [exact H2|].
  exact (read_error_prints_blank_page Sample.points_to_pango
           Sample.markup Sample.utf8_get_char Sample.utf8_skip unit
           Sample.iconv Sample.one_line Sample.two_columns Sample.layout
           Sample.broken_file None Sample.midnight H1 H2).
Defined.

(* ================================================================= *)
(** ** The paper, at the sample data *)

Lemma nat_of_ascii_inj a b : nat_of_ascii a = nat_of_ascii b -> a = b.
Proof.
  intros H. rewrite <- (ascii_nat_embedding a), <- (ascii_nat_embedding b).
  rewrite H. reflexivity.
Qed.

Lemma code_zero c :
  Z.of_nat (nat_of_ascii c) = 0 <-> Ascii.eqb c NUL = true.
Proof.
  rewrite Ascii.eqb_eq. split.
  - intros H. apply nat_of_ascii_inj.
    change (nat_of_ascii NUL) with 0%nat. lia.
  - intros ->. reflexivity.
Qed.

Lemma sample_ignores_case : ignores_case Sample.strcasecmp.
Proof.
  intros a. induction a as [|c1 r1 IH]; intros [|c2 r2];
    cbn [Sample.strcasecmp c_str lower].
  - split; reflexivity.
  - pose proof (code_zero c2) as Hz.
    destruct (Ascii.eqb c2 NUL); cbn [lower].
    + split; [reflexivity|]. intros _.
      assert (Z.of_nat (nat_of_ascii c2) = 0) by (apply Hz; reflexivity).
      lia.
    + split; [|discriminate]. intros H.
      assert (false = true) by (apply Hz; lia). discriminate.
  - pose proof (code_zero c1) as Hz.
    destruct (Ascii.eqb c1 NUL); cbn [lower].
    + split; [reflexivity|]. intros _. apply Hz. reflexivity.
    + split; [|discriminate]. intros H.
      assert (false = true) by (apply Hz; lia). discriminate.
  - pose proof (code_zero c1) as Hz1. pose proof (code_zero c2) as Hz2.
    destruct (Ascii.eqb c1 NUL), (Ascii.eqb c2 NUL); cbn [orb lower].
    + split; [reflexivity|]. intros _.
      assert (Z.of_nat (nat_of_ascii c1) = 0) by (apply Hz1; reflexivity).
      assert (Z.of_nat (nat_of_ascii c2) = 0) by (apply Hz2; reflexivity).
      lia.
    + split; [|discriminate]. intros H.
      assert (Z.of_nat (nat_of_ascii c1) = 0) by (apply Hz1; reflexivity).
      assert (false = true) by (apply Hz2; lia). discriminate.
    + split; [|discriminate]. intros H.
      assert (Z.of_nat (nat_of_ascii c2) = 0) by (apply Hz2; reflexivity).
      assert (false = true) by (apply Hz1; lia). discriminate.
    + destruct (Ascii.eqb_spec (lower_char c1) (lower_char c2))
        as [He|Hne].
      * rewrite IH, He. split; [intros ->; reflexivity|].
        intros [= H]. exact H.
      * split.
        -- intros H. elim Hne. apply nat_of_ascii_inj. lia.
        -- intros [= H _]. contradiction.
Qed.

Lemma paper_option_sets_page_witness :
  fst (_paps_arg_paper_cb Sample.strcasecmp (Some "Letter"%string)
         PAPER_TYPE_A4)
  = true
  /\ opt_paper_type Sample.letter = PAPER_TYPE_US_LETTER
  /\ opt_landscape Sample.letter = false
  /\ exists p,
       main_page_layout Sample.points_to_pango Sample.letter = Some p
       /\ (page_width p, page_height p) = (612, 792).
Proof.
  assert (H1 : fst (_paps_arg_paper_cb Sample.strcasecmp
                      (Some "Letter"%string) PAPER_TYPE_A4) = true)
    by reflexivity.
  split; [exact H1|]. split; [reflexivity|]. split; [reflexivity|].
  destruct (main_page_layout Sample.points_to_pango Sample.letter)
    as [p|] eqn:Ep; [|vm_compute in Ep; discriminate].
  exists p. split; [reflexivity|].
  destruct (paper_option_sets_page Sample.points_to_pango
              Sample.strcasecmp (Some "Letter"%string) PAPER_TYPE_A4
              sample_ignores_case) as [Hyes _].
  destruct (Hyes H1) as [_ Hpage].
  exact (Hpage Sample.letter p eq_refl eq_refl Ep).
Defined.
